(** * Rifty: the utterance-understanding pipeline of services/python-ai/app/agent

    A shallow embedding of the agent modules (context window, embeddings,
    memory store, redactor, intent classifier, intent routing, slot filler,
    pipeline) together with the properties stated about them.

    Modelling conventions.
    - A Python [str] is a [string]; its characters are read as ASCII code
      points.  [lower], [strip], the classes [\d], [\s], [\w] and the word
      boundary [\b] are the ASCII ones; a character above 127 is a symbol that
      is neither a letter, a digit nor white space.
    - A Python [float] confidence, score or decay is a rational ([Q]); the
      thresholds of the code (0.75, 0.45, 0.6, 0.2, ...) are exact rationals.
      Embedding vectors, whose normalisation takes a square root, are vectors
      of real numbers.
    - A Python [int] is a [Z]; a [dict] is an association list in insertion
      order, because the code iterates over its dictionaries.
    - The clock ([time.time], [datetime.now]) is an explicit argument.
    - A coroutine is a function of the state that it reads and writes, and
      the pipeline runs as one task.  Where a call can wait for ever for an
      [asyncio.Lock], its result is [awaited]: [Done] or [Waits]. *)

From Stdlib Require Import List String Ascii Bool Arith ZArith QArith Lia.
From Stdlib Require Import Permutation Sorted.
From Stdlib Require Import Reals Lra.
Import ListNotations.

Set Implicit Arguments.
Close Scope R_scope.
Close Scope Q_scope.
Close Scope Z_scope.
Open Scope nat_scope.
Open Scope list_scope.

(* ===================================================================== *)
(** ** Python strings *)
(* ===================================================================== *)

Module Py.

Definition chars := list ascii.

Definition code (c : ascii) : nat := nat_of_ascii c.

Definition in_range (lo hi : nat) (c : ascii) : bool :=
  (lo <=? code c) && (code c <=? hi).

Definition is_digit (c : ascii) : bool := in_range 48 57 c.
Definition is_upper (c : ascii) : bool := in_range 65 90 c.
Definition is_lower (c : ascii) : bool := in_range 97 122 c.
Definition is_alpha (c : ascii) : bool := is_upper c || is_lower c.
(** [\w]: letters, digits and the underscore. *)
Definition is_word (c : ascii) : bool :=
  is_alpha c || is_digit c || (code c =? 95).
(** [str.isspace] and [\s]: TAB, LF, VT, FF, CR, the four separators
    0x1c..0x1f and the space. *)
Definition is_space (c : ascii) : bool :=
  in_range 9 13 c || in_range 28 31 c || (code c =? 32).

Definition lower_char (c : ascii) : ascii :=
  if is_upper c then ascii_of_nat (code c + 32) else c.
Definition upper_char (c : ascii) : ascii :=
  if is_lower c then ascii_of_nat (code c - 32) else c.

Definition eqc (a b : ascii) : bool := Ascii.eqb a b.
(** Equality of characters up to case, as under [re.I]. *)
Definition eqc_ci (a b : ascii) : bool := Ascii.eqb (lower_char a) (lower_char b).

Definition of_string : string -> chars := list_ascii_of_string.
Definition to_string : chars -> string := string_of_list_ascii.

Definition lower_chars (l : chars) : chars := map lower_char l.
Definition upper_chars (l : chars) : chars := map upper_char l.

(** [str.lower] and [str.upper]. *)
Definition lower (s : string) : string := to_string (lower_chars (of_string s)).
Definition upper (s : string) : string := to_string (upper_chars (of_string s)).

Fixpoint lstrip_chars (l : chars) : chars :=
  match l with
  | c :: tl => if is_space c then lstrip_chars tl else l
  | [] => []
  end.
Definition rstrip_chars (l : chars) : chars := rev (lstrip_chars (rev l)).
(** [str.strip]. *)
Definition strip (s : string) : string :=
  to_string (rstrip_chars (lstrip_chars (of_string s))).

Fixpoint eqb_chars (a b : chars) : bool :=
  match a, b with
  | [], [] => true
  | x :: a', y :: b' => eqc x y && eqb_chars a' b'
  | _, _ => false
  end.

Fixpoint starts_with (p l : chars) : bool :=
  match p, l with
  | [], _ => true
  | x :: p', y :: l' => eqc x y && starts_with p' l'
  | _ :: _, [] => false
  end.

Fixpoint contains_chars (needle hay : chars) : bool :=
  starts_with needle hay ||
  match hay with
  | [] => false
  | _ :: tl => contains_chars needle tl
  end.

(** [needle in hay] on strings. *)
Definition contains (needle hay : string) : bool :=
  contains_chars (of_string needle) (of_string hay).

Definition startswith (s p : string) : bool :=
  starts_with (of_string p) (of_string s).

(** [str.replace(old, new)]: every occurrence of [old], left to right and
    without overlap; with an empty [old], [new] goes before every character
    and at the end. *)
Fixpoint replace_fuel (fuel : nat) (old new l : chars) : chars :=
  match fuel with
  | O => l
  | S fuel' =>
      match l with
      | [] => []
      | c :: tl =>
          if starts_with old l
          then new ++ replace_fuel fuel' old new (skipn (List.length old) l)
          else c :: replace_fuel fuel' old new tl
      end
  end.

Definition replace_chars (old new l : chars) : chars :=
  match old with
  | [] => flat_map (fun c => new ++ [c]) l ++ new
  | _ :: _ => replace_fuel (List.length l) old new l
  end.

Definition replace (s old new : string) : string :=
  to_string (replace_chars (of_string old) (of_string new) (of_string s)).

Definition is_empty (s : string) : bool :=
  match s with EmptyString => true | _ => false end.

Definition len (s : string) : nat := String.length s.

(** [s[:n]]. *)
Definition prefix (n : nat) (s : string) : string :=
  to_string (firstn n (of_string s)).

(** [int(s)] on a run of decimal digits. *)
Definition digit_val (c : ascii) : Z := Z.of_nat (code c - 48).
Definition int_of_chars (l : chars) : Z :=
  fold_left (fun acc c => (acc * 10 + digit_val c)%Z) l 0%Z.

(** [str(n)] for a natural number. *)
Fixpoint digits_fuel (fuel : nat) (n : nat) (acc : chars) : chars :=
  match fuel with
  | O => acc
  | S fuel' =>
      let d := ascii_of_nat (48 + n mod 10) in
      if n <? 10 then d :: acc else digits_fuel fuel' (n / 10) (d :: acc)
  end.
Definition str_of_nat (n : nat) : string := to_string (digits_fuel (S n) n []).
Definition str_of_Z (z : Z) : string :=
  if (z <? 0)%Z then String "-" (str_of_nat (Z.to_nat (- z)))
  else str_of_nat (Z.to_nat z).

End Py.

(* ===================================================================== *)
(** ** Dictionaries in insertion order *)
(* ===================================================================== *)

Module Dict.

Section WithValue.
Variable V : Type.

Definition t := list (string * V).

Fixpoint get (d : t) (k : string) : option V :=
  match d with
  | [] => None
  | (k', v) :: tl => if String.eqb k' k then Some v else get tl k
  end.

(** [d[k] = v]: an existing key keeps its place, a new key goes last. *)
Fixpoint set (d : t) (k : string) (v : V) : t :=
  match d with
  | [] => [(k, v)]
  | (k', v') :: tl =>
      if String.eqb k' k then (k', v) :: tl else (k', v') :: set tl k v
  end.

Definition mem (d : t) (k : string) : bool :=
  match get d k with Some _ => true | None => false end.

Definition keys (d : t) : list string := map fst d.
Definition values (d : t) : list V := map snd d.

End WithValue.

End Dict.

(* ===================================================================== *)
(** ** Regular expressions: the backtracking matcher of Python's [re] *)
(* ===================================================================== *)

(** The patterns of the code are written as terms of [regex] and run by a
    backtracking matcher with the priorities of [re]: alternatives left to
    right, quantifiers greedy, the leftmost match wins.  No pattern of the
    code repeats a body that can match the empty string, so an iteration of
    a quantifier that consumes nothing is not retried. *)

Module Re.

Import Py.

Inductive regex : Type :=
| Eps
| Chr (p : ascii -> bool)
| Seq (r1 r2 : regex)
| Alt (r1 r2 : regex)
| Rep (r : regex) (lo : nat) (hi : option nat)
| Grp (n : nat) (r : regex)
| Bnd
| Bol
| Eol
| Look (r : regex).

(** The matcher's position: the character before it, the text after it, its
    index and the groups captured so far (the latest capture first). *)
Record mstate : Type := MState {
  prev : option ascii;
  rest : chars;
  pos : nat;
  caps : list (nat * chars)
}.

Definition is_word_opt (o : option ascii) : bool :=
  match o with Some c => is_word c | None => false end.

Definition under (cnt : nat) (hi : option nat) : bool :=
  match hi with Some h => cnt <? h | None => true end.

Fixpoint run (r : regex) (st : mstate) (k : mstate -> option mstate)
  {struct r} : option mstate :=
  match r with
  | Eps => k st
  | Chr p =>
      match rest st with
      | c :: tl =>
          if p c then k (MState (Some c) tl (S (pos st)) (caps st)) else None
      | [] => None
      end
  | Seq r1 r2 => run r1 st (fun st1 => run r2 st1 k)
  | Alt r1 r2 =>
      match run r1 st k with
      | Some fin => Some fin
      | None => run r2 st k
      end
  | Rep r' lo hi =>
      (fix loop (fuel cnt : nat) (st0 : mstate) {struct fuel} : option mstate :=
         let stop := if lo <=? cnt then k st0 else None in
         match fuel with
         | O => stop
         | S fuel' =>
             if under cnt hi then
               match run r' st0 (fun st1 =>
                        if pos st0 <? pos st1 then loop fuel' (S cnt) st1
                        else None) with
               | Some fin => Some fin
               | None => stop
               end
             else stop
         end) (S (List.length (rest st))) 0 st
  | Grp n r' =>
      run r' st (fun st1 =>
        k (MState (prev st1) (rest st1) (pos st1)
             ((n, firstn (pos st1 - pos st) (rest st)) :: caps st1)))
  | Bnd =>
      if xorb (is_word_opt (prev st)) (is_word_opt (hd_error (rest st)))
      then k st else None
  | Bol => if pos st =? 0 then k st else None
  | Eol =>
      match rest st with
      | [] => k st
      | [c] => if code c =? 10 then k st else None
      | _ => None
      end
  | Look r' =>
      match run r' st (fun st1 => Some st1) with
      | Some _ => k st
      | None => None
      end
  end.

(** A match object: [start], [end], [group(0)] and the captured groups. *)
Record rmatch : Type := RMatch {
  m_start : nat;
  m_end : nat;
  m_text : chars;
  m_caps : list (nat * chars);
  m_after : mstate
}.

Fixpoint lookup_cap (n : nat) (l : list (nat * chars)) : option chars :=
  match l with
  | [] => None
  | (i, s) :: tl => if i =? n then Some s else lookup_cap n tl
  end.

(** [match.group(n)] for [n >= 1]; [None] when the group took no part. *)
Definition group (n : nat) (m : rmatch) : option string :=
  option_map to_string (lookup_cap n (m_caps m)).

Definition group0 (m : rmatch) : string := to_string (m_text m).

Definition match_at (r : regex) (st : mstate) : option rmatch :=
  match run r (MState (prev st) (rest st) (pos st) []) (fun fin => Some fin) with
  | Some fin =>
      Some (RMatch (pos st) (pos fin) (firstn (pos fin - pos st) (rest st))
                   (caps fin) (MState (prev fin) (rest fin) (pos fin) []))
  | None => None
  end.

Definition step (st : mstate) : option mstate :=
  match rest st with
  | [] => None
  | c :: tl => Some (MState (Some c) tl (S (pos st)) [])
  end.

Fixpoint search_from (r : regex) (pv : option ascii) (l : chars) (p : nat)
  : option rmatch :=
  match match_at r (MState pv l p []) with
  | Some m => Some m
  | None =>
      match l with
      | [] => None
      | c :: tl => search_from r (Some c) tl (S p)
      end
  end.

Definition start_state (l : chars) : mstate := MState None l 0 [].

(** [re.search(r, s)]. *)
Definition search (r : regex) (s : string) : option rmatch :=
  search_from r None (of_string s) 0.

Definition found (r : regex) (s : string) : bool :=
  match search r s with Some _ => true | None => false end.

(** The scan shared by [re.sub], [re.findall] and [re.split]: the matches
    from left to right without overlap, each with the unmatched text before
    it, and the unmatched text after the last one. *)
Fixpoint scan (fuel : nat) (r : regex) (st : mstate) (gap : chars)
  : list (chars * rmatch) * chars :=
  match fuel with
  | O => ([], rev gap ++ rest st)
  | S fuel' =>
      match match_at r st with
      | Some m =>
          if m_start m <? m_end m then
            let '(ms, tl) := scan fuel' r (m_after m) [] in
            ((rev gap, m) :: ms, tl)
          else
            match rest st with
            | [] => ([(rev gap, m)], [])
            | c :: tl0 =>
                let '(ms, tl) :=
                  scan fuel' r (MState (Some c) tl0 (S (pos st)) []) [c] in
                ((rev gap, m) :: ms, tl)
            end
      | None =>
          match rest st with
          | [] => ([], rev gap)
          | c :: tl0 =>
              scan fuel' r (MState (Some c) tl0 (S (pos st)) []) (c :: gap)
          end
      end
  end.

Definition scan_all (r : regex) (l : chars) :=
  scan (S (List.length l)) r (start_state l) [].

(** [re.findall(r, s)] for a pattern without groups. *)
Definition findall (r : regex) (s : string) : list string :=
  map (fun gm => group0 (snd gm)) (fst (scan_all r (of_string s))).

(** [re.split(r, s)] for a pattern without groups. *)
Definition split (r : regex) (s : string) : list string :=
  let '(ms, tl) := scan_all r (of_string s) in
  map (fun gm => to_string (fst gm)) ms ++ [to_string tl].

(** [re.sub(r, f, s)] with a replacement function that carries a state
    ([nonlocal] variables of the caller): the state after the last match and
    the rewritten text. *)
Definition sub_with (A : Type) (r : regex) (f : A -> rmatch -> A * string)
  (s : string) (a : A) : A * string :=
  let '(ms, tl) := scan_all r (of_string s) in
  let '(a', out) :=
    fold_left (fun (acc : A * chars) (gm : chars * rmatch) =>
                 let '(a0, out0) := acc in
                 let '(a1, rep) := f a0 (snd gm) in
                 (a1, out0 ++ fst gm ++ of_string rep)) ms (a, []) in
  (a', to_string (out ++ tl)).

(** [re.sub(r, repl, s)] with a constant replacement. *)
Definition sub (r : regex) (repl s : string) : string :=
  snd (sub_with r (fun (_ : unit) _ => (tt, repl)) s tt).

(** *** Pattern constructors *)

Definition chr (c : ascii) : regex := Chr (eqc c).
Definition chr_ci (c : ascii) : regex := Chr (eqc_ci c).
Definition lit (s : string) : regex :=
  fold_right (fun c r => Seq (chr c) r) Eps (of_string s).
Definition lit_ci (s : string) : regex :=
  fold_right (fun c r => Seq (chr_ci c) r) Eps (of_string s).
Definition seqs (l : list regex) : regex := fold_right Seq Eps l.
Fixpoint alts (l : list regex) : regex :=
  match l with
  | [] => Chr (fun _ => false)
  | [r] => r
  | r :: tl => Alt r (alts tl)
  end.
Definition opt (r : regex) : regex := Rep r 0 (Some 1).
Definition star (r : regex) : regex := Rep r 0 None.
Definition plus (r : regex) : regex := Rep r 1 None.
Definition rep (lo hi : nat) (r : regex) : regex := Rep r lo (Some hi).
Definition at_least (lo : nat) (r : regex) : regex := Rep r lo None.
Definition one_of (s : string) : regex :=
  Chr (fun c => existsb (eqc c) (of_string s)).
Definition none_of (s : string) : regex :=
  Chr (fun c => negb (existsb (eqc c) (of_string s))).
Definition digit : regex := Chr is_digit.
Definition space : regex := Chr is_space.
Definition non_digit : regex := Chr (fun c => negb (is_digit c)).

End Re.

(* ===================================================================== *)
(** ** Numbers and sorting shared by the modules *)
(* ===================================================================== *)

Module Num.

(** [min(a, b)] and [max(a, b)] on floats read as rationals. *)
Definition qmin (a b : Q) : Q := if Qle_bool a b then a else b.
Definition qmax (a b : Q) : Q := if Qle_bool b a then a else b.
(** [a >= b] and [a < b]. *)
Definition qge (a b : Q) : bool := Qle_bool b a.
Definition qlt (a b : Q) : bool := negb (Qle_bool b a).

Definition q_of_nat (n : nat) : Q := inject_Z (Z.of_nat n).

End Num.

Module Sorting.

Section Stable.
Variable A : Type.
(** [before x y]: [x] may stay in front of [y]. *)
Variable before : A -> A -> bool.

Fixpoint insert (x : A) (l : list A) : list A :=
  match l with
  | [] => [x]
  | y :: tl => if before x y then x :: l else y :: insert x tl
  end.

(** A stable sort, as [sorted] and [list.sort] are: elements that compare
    equal keep their order. *)
Definition sort (l : list A) : list A := fold_right insert [] l.

Definition ordered (x y : A) : Prop := before x y = true.

End Stable.

(** [sorted(l, key=key)] and [sorted(l, key=key, reverse=True)] for an
    integer key. *)
Definition sort_asc (A : Type) (key : A -> Z) : list A -> list A :=
  sort (fun x y => (key x <=? key y)%Z).
Definition sort_desc (A : Type) (key : A -> Z) : list A -> list A :=
  sort (fun x y => (key y <=? key x)%Z).
Definition sort_desc_q (A : Type) (key : A -> Q) : list A -> list A :=
  sort (fun x y => Qle_bool (key y) (key x)).

End Sorting.

(* ===================================================================== *)
(** ** utils/strings.py *)
(* ===================================================================== *)

Module StringUtils.

Import Py Re.
Local Open Scope string_scope.

Definition upper_cls : regex := Chr is_upper.
Definition lower_cls : regex := Chr is_lower.

(** [[A-Z]{2,}(?=[A-Z][a-z]+[0-9]*|\b)|[A-Z]?[a-z]+[0-9]*|[A-Z]+|[0-9]+] *)
Definition WORD_BOUNDARY : regex :=
  alts [ Seq (at_least 2 upper_cls)
             (Look (Alt (seqs [upper_cls; plus lower_cls; star digit]) Bnd));
         seqs [opt upper_cls; plus lower_cls; star digit];
         plus upper_cls;
         plus digit ].

(** [sep.join(parts)]. *)
Fixpoint join (sep : string) (parts : list string) : string :=
  match parts with
  | [] => EmptyString
  | [p] => p
  | p :: tl => p ++ sep ++ join sep tl
  end.

Definition nonempty (l : list string) : list string :=
  filter (fun s => negb (is_empty s)) l.

Definition to_snake_case (value : string) : string :=
  if is_empty value then EmptyString
  else
    let trimmed := strip value in
    let matches := findall WORD_BOUNDARY trimmed in
    match matches with
    | [] => sub (plus space) "_" (lower trimmed)
    | _ :: _ => join "_" (map lower matches)
    end.

(** [part[:1].upper() + part[1:].lower()]. *)
Definition capitalize (part : string) : string :=
  match part with
  | EmptyString => EmptyString
  | String c tl => String (upper_char c) (lower tl)
  end.

Definition to_title_case (value : string) : string :=
  if is_empty value then EmptyString
  else
    let parts := split (plus (Chr (fun c => (code c =? 95)%nat || is_space c))) value in
    join " " (map capitalize (nonempty parts)).

Definition to_pascal_case (value : string) : string :=
  if is_empty value then EmptyString
  else replace (to_title_case value) " " EmptyString.

End StringUtils.

(* ===================================================================== *)
(** ** agent/context_window.py *)
(* ===================================================================== *)

Module ContextWindow.

Import Py Num.

Definition MAX_SEMANTIC_TURNS : nat := 10.
Definition DECAY_FACTOR : Q := 6 # 10.
Definition MIN_ACTIVE_SCORE : Q := 2 # 10.

Record WindowState : Type := mkWindowState {
  entryId : string;
  entryType : string;
  createdAt : Z;
  decayScore : Q
}.

Record RecentMessage : Type := mkRecentMessage {
  text : string;
  ts : Z;
  score : Q;
  isReceipt : bool
}.

(** The two module globals [state] and [recent_messages]. *)
Record window : Type := mkWindow {
  state : option WindowState;
  recent_messages : list RecentMessage
}.

Definition initial : window := mkWindow None [].

Definition sum_lengths (tokens : list string) : nat :=
  fold_left (fun acc t => acc + len t) tokens 0.

Definition _compute_message_score (txt : string) : Q :=
  let trimmed := lower (strip txt) in
  if is_empty trimmed then 0%Q
  else
    let tokens :=
      StringUtils.nonempty
        (Re.split (Re.plus (Re.Chr (fun c => negb (is_alpha c || is_digit c))))
                  trimmed) in
    match tokens with
    | [] => 0%Q
    | _ :: _ =>
        let n := q_of_nat (List.length tokens) in
        let avg_length := (q_of_nat (sum_lengths tokens) / n)%Q in
        let base := qmin 1 (n / 12) in
        let lexical := qmin 1 (avg_length / 5) in
        qmin 1 (base * (6 # 10) + lexical * (4 # 10))
    end.

Definition _is_receipt_message (txt : string) : bool :=
  let lowered := lower txt in
  contains "receipt"%string lowered || contains "confirmed"%string lowered.

(** The loop of [_prune_low_signal_messages] over the messages, newest
    first: a receipt is always kept, another message while fewer than
    [MAX_SEMANTIC_TURNS] are kept. *)
Definition keep_step (preserved : list RecentMessage) (message : RecentMessage)
  : list RecentMessage :=
  if isReceipt message then preserved ++ [message]
  else if List.length preserved <? MAX_SEMANTIC_TURNS then preserved ++ [message]
  else preserved.

Definition _prune_low_signal_messages (msgs : list RecentMessage)
  : list RecentMessage :=
  let newest_first := Sorting.sort_desc ts msgs in
  let preserved := fold_left keep_step newest_first [] in
  let preserved := Sorting.sort_asc ts preserved in
  (* while len(preserved) > MAX_SEMANTIC_TURNS: preserved.pop(0) *)
  skipn (List.length preserved - MAX_SEMANTIC_TURNS) preserved.

Definition _apply_decay (now : Z) (created_entry : bool) (w : window) : window :=
  match state w with
  | None => w
  | Some st =>
      if created_entry then
        mkWindow (Some (mkWindowState (entryId st) (entryType st) now 1))
                 (recent_messages w)
      else
        let d := (decayScore st * DECAY_FACTOR)%Q in
        if qlt d MIN_ACTIVE_SCORE then mkWindow None (recent_messages w)
        else mkWindow (Some (mkWindowState (entryId st) (entryType st)
                                           (createdAt st) d))
                      (recent_messages w)
  end.

Definition register_entry (now : Z) (entry_id entry_type : string) (w : window)
  : window :=
  mkWindow (Some (mkWindowState entry_id entry_type now 1)) (recent_messages w).

Definition refresh_entry (now : Z) (entry_id entry_type : string) (w : window)
  : window :=
  let effective_type :=
    if negb (String.eqb entry_type "unknown"%string) then entry_type
    else match state w with
         | Some st => entryType st
         | None => "unknown"%string
         end in
  mkWindow (Some (mkWindowState entry_id effective_type now 1))
           (recent_messages w).

Definition clear (w : window) : window := initial.

(** The dictionary returned by [snapshot]. *)
Record Snapshot : Type := mkSnapshot {
  s_entryId : string;
  s_entryType : string;
  s_createdAt : Z;
  s_decayScore : Q;
  s_isActive : bool
}.

Definition snapshot (w : window) : option Snapshot :=
  match state w with
  | None => None
  | Some st =>
      Some (mkSnapshot (entryId st) (entryType st) (createdAt st)
                       (decayScore st) (qge (decayScore st) MIN_ACTIVE_SCORE))
  end.

Definition record_user_message (now : Z) (txt : string) (w : window) : window :=
  if is_empty txt then w
  else
    let sc := _compute_message_score txt in
    let receipt := _is_receipt_message txt in
    let message := mkRecentMessage txt now (if receipt then 1 else sc) receipt in
    let msgs := _prune_low_signal_messages (recent_messages w ++ [message]) in
    match state w with
    | None => mkWindow None msgs
    | Some st =>
        let d := qmin 1 (decayScore st * DECAY_FACTOR + score message * (5 # 10)) in
        if qlt d MIN_ACTIVE_SCORE && negb receipt then mkWindow None msgs
        else mkWindow (Some (mkWindowState (entryId st) (entryType st)
                                           (createdAt st) d)) msgs
    end.

(** [recent_messages[-MAX_SEMANTIC_TURNS:]]. *)
Definition recent (w : window) : list RecentMessage :=
  skipn (List.length (recent_messages w) - MAX_SEMANTIC_TURNS) (recent_messages w).

Definition advance_turn (now : Z) (created_entry : bool) (w : window) : window :=
  _apply_decay now created_entry w.

(** Messages in strictly increasing, or decreasing, timestamp order. *)
Definition ascending (l : list RecentMessage) : Prop :=
  StronglySorted (fun a b => (ts a < ts b)%Z) l.
Definition descending (l : list RecentMessage) : Prop :=
  StronglySorted (fun a b => (ts b < ts a)%Z) l.

(** The message that [record_user_message] appends to the ring. *)
Definition new_message (now : Z) (txt : string) : RecentMessage :=
  let receipt := _is_receipt_message txt in
  mkRecentMessage txt now (if receipt then 1 else _compute_message_score txt)
                  receipt.

(** The calls of the module's interface that change its globals, each with
    the clock reading of the call where it takes one. *)
Inductive call : Type :=
| RegisterEntry (now : Z) (entry_id entry_type : string)
| RefreshEntry (now : Z) (entry_id entry_type : string)
| ClearWindow
| RecordMessage (now : Z) (txt : string)
| AdvanceTurn (now : Z) (created_entry : bool).

Definition apply_call (w : window) (c : call) : window :=
  match c with
  | RegisterEntry now entry_id entry_type => register_entry now entry_id entry_type w
  | RefreshEntry now entry_id entry_type => refresh_entry now entry_id entry_type w
  | ClearWindow => clear w
  | RecordMessage now txt => record_user_message now txt w
  | AdvanceTurn now created_entry => advance_turn now created_entry w
  end.

(** The globals after a sequence of calls in a fresh process. *)
Definition after_calls (calls : list call) : window :=
  fold_left apply_call calls initial.

(** A message of the ring as [record_user_message] makes it: a score in
    [0, 1], the score 1 for a receipt, the flag of its text, a text that is
    not empty. *)
Definition scored (m : RecentMessage) : Prop :=
  (0 <= score m <= 1)%Q
  /\ (isReceipt m = true -> score m = 1%Q)
  /\ isReceipt m = _is_receipt_message (text m)
  /\ text m <> EmptyString.

(** The decay score of the state, when there is one, is that of an active
    window. *)
Definition live (w : window) : Prop :=
  match state w with
  | None => True
  | Some st => (MIN_ACTIVE_SCORE <= decayScore st <= 1)%Q
  end.

End ContextWindow.

(* ===================================================================== *)
(** ** agent/embeddings.py *)
(* ===================================================================== *)

Module Embeddings.

Import Py.

Definition FALLBACK_DIMENSION : nat := 384.

Definition vector := list R.

(** A custom embedder; [None] stands for an exception raised by it. *)
Definition Embedder := string -> option vector.

Definition sum_sq (v : vector) : R :=
  fold_right (fun x acc => (x * x + acc)%R) 0%R v.

(** The L2 norm [math.sqrt(sum(v * v for v in values))]. *)
Definition l2_norm (v : vector) : R := sqrt (sum_sq v).

Definition zeros (n : nat) : vector := repeat 0%R n.

Definition l2_normalize (values : vector) : vector :=
  let norm := l2_norm values in
  if Rle_dec norm 0 then
    match values with
    | [] => zeros FALLBACK_DIMENSION
    | _ :: _ => map (fun _ => 0%R) values
    end
  else map (fun v => (v / norm)%R) values.

(** [output[idx] += d]. *)
Fixpoint add_at (idx : nat) (d : R) (output : vector) : vector :=
  match output, idx with
  | [], _ => []
  | x :: tl, O => (x + d)%R :: tl
  | x :: tl, S i => x :: add_at i d tl
  end.

Definition prime : Z := 16777619.
Definition offset_basis : Z := 2166136261.

(** The loop of [_fallback_embed] over the bytes of the text; Python's
    integers do not wrap, so [hash_value] grows with every byte. *)
Fixpoint fallback_loop (raw_bytes : chars) (index hash_value : Z)
  (output : vector) : vector :=
  match raw_bytes with
  | [] => output
  | b :: tl =>
      let byte := Z.of_nat (code b) in
      let hash_value' := (Z.lxor hash_value byte * prime)%Z in
      let idx := (Z.abs (hash_value' + index * 31) mod
                  Z.of_nat FALLBACK_DIMENSION)%Z in
      fallback_loop tl (index + 1)%Z hash_value'
        (add_at (Z.to_nat idx) (IZR byte / 255 * 2 - 1)%R output)
  end.

Definition _fallback_embed (text : string) : vector :=
  l2_normalize
    (fallback_loop (of_string text) 0%Z offset_basis (zeros FALLBACK_DIMENSION)).

Definition embed_text (custom : option Embedder) (text : string) : vector :=
  if is_empty text then
    match custom with
    | Some f =>
        match f EmptyString with
        | Some ((_ :: _) as zs) => l2_normalize zs
        | _ => zeros FALLBACK_DIMENSION
        end
    | None => zeros FALLBACK_DIMENSION
    end
  else
    match custom with
    | Some f =>
        match f text with
        | Some ((_ :: _) as v) => l2_normalize v
        | _ => _fallback_embed text
        end
    | None => _fallback_embed text
    end.

End Embeddings.

(* ===================================================================== *)
(** ** agent/memory.py *)
(* ===================================================================== *)

Module Memory.

Import Py Embeddings.

Definition MAX_CACHED_ROWS : nat := 512.
Definition REMOTE_BRIEF_LIMIT : nat := 9.

Record MemoryRow : Type := mkRow {
  id : string;
  kind : string;
  text : string;
  ts : Z;
  embedding : vector
}.

Record MemoryRecord : Type := mkRecord {
  row : MemoryRow;
  score : Q
}.

(** One result of the remote retrieval stub ([_rag_results]). *)
Record RagItem : Type := mkRag {
  rag_id : string;
  rag_kind : string;
  rag_score : Q;
  rag_snippet : string
}.

(** The module globals: the row cache, the seeded retrieval results and the
    authenticated user. *)
Record store : Type := mkStore {
  _memory_cache : Dict.t MemoryRow;
  _rag_results : list RagItem;
  _user_id : option string
}.

Definition initial : store := mkStore [] [] None.

(** The argument of [Memory.upsert]; [text] defaults to the empty string. *)
Record UpsertOptions : Type := mkUpsert {
  o_id : string;
  o_kind : string;
  o_text : string;
  o_ts : option Z;
  o_embedding : option vector
}.

(** [{row.id: row for row in rows}] poured into an emptied cache. *)
Definition dict_of_rows (rows : list MemoryRow) : Dict.t MemoryRow :=
  fold_left (fun d r => Dict.set d (id r) r) rows [].

(** The cache is a dictionary: its keys are distinct and each is the
    identifier of its row. *)
Definition well_keyed (cache : Dict.t MemoryRow) : Prop :=
  NoDup (Dict.keys cache) /\ Forall (fun kv => fst kv = id (snd kv)) cache.

Definition entries (rows : list MemoryRow) : Dict.t MemoryRow :=
  map (fun r => (id r, r)) rows.

(** The [MAX_CACHED_ROWS] first rows by descending timestamp. *)
Definition newest (cache : Dict.t MemoryRow) : list MemoryRow :=
  firstn MAX_CACHED_ROWS (Sorting.sort_desc ts (Dict.values cache)).

Section WithEmbedder.
Variable custom : option Embedder.

(** The row that [upsert] builds from its options. *)
Definition make_row (now : Z) (options : UpsertOptions) : MemoryRow :=
  let ts_ := match o_ts options with Some t => t | None => now end in
  let emb :=
    match o_embedding options with
    | Some ((_ :: _) as e) => e
    | _ => embed_text custom (o_text options)
    end in
  let normalized := l2_normalize emb in
  mkRow (o_id options) (o_kind options) (o_text options) ts_ normalized.

Definition upsert_cache (now : Z) (options : UpsertOptions)
  (cache : Dict.t MemoryRow) : Dict.t MemoryRow :=
  let r := make_row now options in
  let cache1 := Dict.set cache (id r) r in
  if MAX_CACHED_ROWS <? List.length cache1 then
    let oldest :=
      firstn MAX_CACHED_ROWS (Sorting.sort_desc ts (Dict.values cache1)) in
    dict_of_rows oldest
  else cache1.

(** The cache right after [_memory_cache[row.id] = row], before the
    capacity is enforced. *)
Definition stored (now : Z) (options : UpsertOptions) (cache : Dict.t MemoryRow)
  : Dict.t MemoryRow :=
  Dict.set cache (o_id options) (make_row now options).

Definition upsert (now : Z) (options : UpsertOptions) (s : store) : store :=
  mkStore (upsert_cache now options (_memory_cache s)) (_rag_results s) (_user_id s).

Definition remove (row_id : string) (s : store) : store :=
  mkStore (filter (fun kv => negb (String.eqb (fst kv) row_id)) (_memory_cache s))
          (_rag_results s) (_user_id s).

(** A sequence of [upsert] calls, each with the clock reading of its call. *)
Definition upsert_all (calls : list (Z * UpsertOptions)) (s : store) : store :=
  fold_left (fun acc c => upsert (fst c) (snd c) acc) calls s.

(** [_rag_search]: the seeded results, cut to [limit]; nothing for a blank
    query. *)
Definition _rag_search (query : string) (limit : nat) (s : store) : list RagItem :=
  if is_empty (strip query) then [] else firstn limit (_rag_results s).

Definition dot (a b : vector) : R :=
  fold_right (fun p acc => (fst p * snd p + acc)%R) 0%R (combine a b).

(** The float that a real score is stored as in a record. *)
Variable round_score : R -> Q.

Definition _cosine_scores (query : vector) (rows : list MemoryRow)
  : list MemoryRecord :=
  let normalized_query := l2_normalize query in
  let scores :=
    map (fun r => mkRecord r (round_score (dot normalized_query (embedding r))))
        rows in
  Sorting.sort_desc_q score scores.

(** The argument of [Memory.search_top_n]. *)
Record SearchOptions : Type := mkSearch {
  q_query : string;
  q_kinds : list string;
  q_topK : Z
}.

(** The loop over the remote results: each becomes a record and is upserted
    into the cache. *)
Fixpoint remote_loop (now_ts : Z) (index : Z) (results : list RagItem)
  (s : store) : list MemoryRecord * store :=
  match results with
  | [] => ([], s)
  | result :: tl =>
      let txt := rag_snippet result in
      let emb := embed_text custom txt in
      let rid := (rag_kind result ++ ":" ++ rag_id result)%string in
      let rec_ := mkRecord (mkRow rid (rag_kind result) txt (now_ts - index)%Z emb)
                           (rag_score result) in
      let s1 := upsert now_ts (mkUpsert rid (rag_kind result) txt
                                 (Some (now_ts - index)%Z) (Some emb)) s in
      let '(recs, s2) := remote_loop now_ts (index + 1)%Z tl s1 in
      (rec_ :: recs, s2)
  end.

Definition search_top_n (now_ts : Z) (options : SearchOptions) (s : store)
  : list MemoryRecord * store :=
  let query := strip (q_query options) in
  if is_empty query then ([], s)
  else
    let top_k := Z.to_nat (Z.max 1 (Z.min (q_topK options) 20)) in
    let kinds := map lower (q_kinds options) in
    let local :=
      let query_vector := embed_text custom query in
      let rows :=
        filter (fun r =>
                  match kinds with
                  | [] => true
                  | _ :: _ => existsb (String.eqb (lower (kind r))) kinds
                  end) (Dict.values (_memory_cache s)) in
      (firstn top_k (_cosine_scores query_vector rows), s) in
    match _user_id s with
    | Some (String _ _) =>
        match _rag_search query top_k s with
        | [] => local
        | rag_results =>
            let '(remote_records, s') := remote_loop now_ts 0%Z rag_results s in
            (firstn top_k remote_records, s')
        end
    | _ => local
    end.

End WithEmbedder.

End Memory.

(* ===================================================================== *)
(** ** agent/redactor.py *)
(* ===================================================================== *)

Module Redactor.

Import Py Re.
Local Open Scope string_scope.

Record RedactionResult : Type := mkRedaction {
  masked : string;
  replacementMap : Dict.t string
}.

Record PatternConfig : Type := mkPattern {
  name : string;
  create_regex : regex;
  mask_key : nat -> string;
  is_match_valid : option (string -> bool)
}.

Definition alnum_or (extra : string) : regex :=
  Chr (fun c => is_alpha c || is_digit c || existsb (eqc c) (of_string extra)).

(** [[A-Za-z0-9._%+-]+@[A-Za-z0-9.-]+\.[A-Za-z]{2,}] *)
Definition email_regex : regex :=
  seqs [ plus (alnum_or "._%+-"); chr "@"; plus (alnum_or ".-"); chr ".";
         at_least 2 (Chr is_alpha) ].

Definition space_or_dash : regex :=
  Chr (fun c => is_space c || eqc c "-"%char).

(** [(?:\+?\d{1,3}[\s-]?)?(?:\(\d{2,3}\)|\d{2,3})[\s-]?\d{3}[\s-]?\d{4}] *)
Definition phone_regex : regex :=
  seqs [ opt (seqs [opt (chr "+"); rep 1 3 digit; opt space_or_dash]);
         Alt (seqs [chr "("; rep 2 3 digit; chr ")"]) (rep 2 3 digit);
         opt space_or_dash; rep 3 3 digit; opt space_or_dash; rep 4 4 digit ].

(** A word boundary, 13 to 19 times a digit followed by any run of spaces
    and dashes, a last digit, a word boundary. *)
Definition card_regex : regex :=
  seqs [ Bnd; rep 13 19 (Seq digit (star space_or_dash)); digit; Bnd ].

(** The digits of the match, all other characters removed, number 13 to 19. *)
Definition card_valid (m : string) : bool :=
  let n := len (sub non_digit EmptyString m) in
  ((13 <=? n) && (n <=? 19))%nat.

Definition street_words : list regex :=
  [ lit_ci "Street"; Seq (lit_ci "St") (opt (chr "."));
    lit_ci "Avenue"; Seq (lit_ci "Ave") (opt (chr "."));
    lit_ci "Road"; Seq (lit_ci "Rd") (opt (chr "."));
    lit_ci "Boulevard"; Seq (lit_ci "Blvd") (opt (chr "."));
    lit_ci "Lane"; Seq (lit_ci "Ln") (opt (chr "."));
    lit_ci "Drive"; Seq (lit_ci "Dr") (opt (chr "."));
    lit_ci "Court"; Seq (lit_ci "Ct") (opt (chr "."));
    lit_ci "Place"; Seq (lit_ci "Pl") (opt (chr ".")) ].

(** [\b\d{1,5}\s+[^\n,]+(?:Street|St\.?|...|Place|Pl\.?)\b] with [re.I] *)
Definition address_regex : regex :=
  seqs [ Bnd; rep 1 5 digit; plus space;
         plus (Chr (fun c => negb ((code c =? 10)%nat || eqc c ","%char)));
         alts street_words; Bnd ].

Definition placeholder (tag : string) (i : nat) : string :=
  "[" ++ tag ++ "_" ++ str_of_nat i ++ "]".

Definition PATTERNS : list PatternConfig :=
  [ mkPattern "email" email_regex (placeholder "EMAIL") None;
    mkPattern "phone" phone_regex (placeholder "PHONE") None;
    mkPattern "card" card_regex (placeholder "CARD") (Some card_valid);
    mkPattern "address" address_regex (placeholder "ADDR") None ].

(** [_replacer]: the state is the pair of the [nonlocal] counter [index] and
    the replacement map. *)
Definition _replacer (pattern : PatternConfig)
  (st : nat * Dict.t string) (m : rmatch) : (nat * Dict.t string) * string :=
  let '(index, replacement_map) := st in
  let value := group0 m in
  let rejected :=
    match is_match_valid pattern with
    | Some valid => negb (valid value)
    | None => false
    end in
  if rejected then (st, value)
  else
    let key := mask_key pattern index in
    ((S index, Dict.set replacement_map key value), key).

Definition mask_step (acc : string * Dict.t string) (pattern : PatternConfig)
  : string * Dict.t string :=
  let '(msk, replacement_map) := acc in
  let '((_, replacement_map'), msk') :=
    sub_with (create_regex pattern) (_replacer pattern) msk (0, replacement_map) in
  (msk', replacement_map').

Definition mask (text : string) : RedactionResult :=
  if is_empty text then mkRedaction text []
  else
    let '(msk, replacement_map) := fold_left mask_step PATTERNS (text, []) in
    mkRedaction msk replacement_map.

Definition unmask (text : string) (mapping : Dict.t string) : string :=
  if is_empty text then text
  else fold_left (fun result kv => replace result (fst kv) (snd kv)) mapping text.

(** The characters without which no pattern of the redactor matches: a
    digit or the at sign. *)
Definition digit_or_at (c : ascii) : bool := is_digit c || eqc c "@"%char.

End Redactor.

(* ===================================================================== *)
(** ** agent/riflett_intent_classifier.py *)
(* ===================================================================== *)

Module Classifier.

Import Py Re Num.
Local Open Scope string_scope.

(** [^\s*/] *)
Definition COMMAND_PATTERN : regex := seqs [Bol; star space; chr "/"].

Definition SEARCH_PHRASES : list string :=
  [ "find"; "show me"; "search for"; "when did i"; "where did i";
    "what did i write"; "look up"; "list" ].
Definition ADDITIVE_PHRASES : list string :=
  [ "also"; "update"; "another"; "forgot"; "in addition"; "plus"; "adding";
    "one more thing" ].
Definition SAVE_PHRASES : list string :=
  [ "save"; "log"; "capture"; "remember"; "write this down"; "note that";
    "journal"; "record" ].
Definition TEMPORAL_MARKERS : list string :=
  [ "today"; "tonight"; "this morning"; "this afternoon"; "this evening";
    "yesterday"; "earlier"; "just now"; "right now"; "tomorrow"; "monday";
    "tuesday"; "wednesday"; "thursday"; "friday"; "saturday"; "sunday" ].
Definition ACTION_VERBS : list string :=
  [ "finished"; "completed"; "did"; "ran"; "talked"; "spoke"; "met";
    "decided"; "started"; "launched"; "sent"; "emailed"; "called"; "worked";
    "wrote"; "built"; "shipped" ].

(** [\b(it|this|that|the goal|...|this project)\b] with [re.I] *)
Definition PRONOUN_ANCHORS : regex :=
  seqs [ Bnd;
         Grp 1 (alts (map lit_ci
           [ "it"; "this"; "that"; "the goal"; "the entry"; "that goal";
             "this entry"; "that plan"; "the plan"; "that project";
             "this project" ]));
         Bnd ].

Definition QUESTION_MARK : regex := chr "?".

(** [\b(\d{1,2}(:\d{2})?\s?(am|pm))\b] with [re.I] *)
Definition TIME_REGEX : regex :=
  seqs [ Bnd;
         Grp 1 (seqs [ rep 1 2 digit;
                       opt (Grp 2 (Seq (chr ":") (rep 2 2 digit)));
                       opt space;
                       Grp 3 (Alt (lit_ci "am") (lit_ci "pm")) ]);
         Bnd ].

Definition DUPLICATE_THRESHOLD : Q := 85 # 100.
Definition DUPLICATE_MIN_PREFIX_LENGTH : nat := 20.

Definition _contains_phrase (text : string) (phrases : list string) : bool :=
  existsb (fun phrase => contains phrase text) phrases.

Definition _has_temporal_marker (text : string) : bool :=
  _contains_phrase text TEMPORAL_MARKERS || found TIME_REGEX text.

Definition _has_save_language (text : string) : bool :=
  _contains_phrase text SAVE_PHRASES.

Definition _has_additive_language (text : string) : bool :=
  _contains_phrase text ADDITIVE_PHRASES.

Definition _has_action_language (text : string) : bool :=
  existsb (fun verb => contains verb text) ACTION_VERBS.

Definition _is_search_query (text : string) : bool :=
  _contains_phrase text SEARCH_PHRASES.

Definition Candidate : Type := (string * Q)%type.

Definition _base_candidate (label : string) (confidence : Q) : Candidate :=
  (label, confidence).

Definition _pick_duplicate (records : list Memory.MemoryRecord)
  : option Memory.MemoryRecord :=
  find (fun record => qge (Memory.score record) DUPLICATE_THRESHOLD) records.

Definition _map_kind_to_entry_type (kind : option string) : option string :=
  match kind with
  | None => None
  | Some EmptyString => None
  | Some k =>
      let normalized := lower k in
      if contains "goal" normalized then Some "goal"
      else if contains "event" normalized || contains "schedule" normalized
      then Some "schedule"
      else if contains "entry" normalized || contains "journal" normalized
      then Some "journal"
      else None
  end.

(** The [duplicateMatch] dictionary. *)
Record Duplicate : Type := mkDuplicate {
  dup_id : string;
  dup_score : Q;
  dup_text : string;
  dup_kind : string
}.

(** The dictionary returned by the classifier; a key that a branch leaves
    out reads as [None], as [dict.get] gives it. *)
Record Classification : Type := mkClassification {
  label : string;
  confidence : Q;
  reasons : list string;
  targetEntryId : option string;
  targetEntryType : option string;
  duplicateMatch : option Duplicate;
  topCandidates : list Candidate
}.

Definition snapshot_entryId (s : option ContextWindow.Snapshot) : option string :=
  option_map ContextWindow.s_entryId s.
Definition snapshot_entryType (s : option ContextWindow.Snapshot) : option string :=
  option_map ContextWindow.s_entryType s.

Definition word_count_of (trimmed : string) : nat :=
  List.length (StringUtils.nonempty (split (plus space) trimmed)).

Definition classify_riflett_intent (w : ContextWindow.window) (text : string)
  (context_records : list Memory.MemoryRecord) : Classification :=
  let trimmed := strip text in
  let lower_ := lower trimmed in
  let context_snapshot := ContextWindow.snapshot w in
  let recent := ContextWindow.recent w in
  if is_empty trimmed then
    mkClassification "conversational" (6 # 10)
      ["Empty message defaults to conversational"] None None None
      [_base_candidate "conversational" (6 # 10)]
  else if found COMMAND_PATTERN trimmed then
    mkClassification "command" (99 # 100)
      ["Slash-prefixed command detected"] None None None
      [_base_candidate "command" (99 # 100)]
  else if _is_search_query lower_ then
    let conf := (if (24 <? len lower_)%nat then 94 # 100 else 9 # 10)%Q in
    mkClassification "search_query" conf ["Search verb detected"] None None None
      [_base_candidate "search_query" conf;
       _base_candidate "conversational" (7 # 10)]
  else
    let duplicate := _pick_duplicate context_records in
    let duplicate_meta :=
      option_map (fun d => mkDuplicate (Memory.id (Memory.row d)) (Memory.score d)
                             (Memory.text (Memory.row d)) (Memory.kind (Memory.row d)))
                 duplicate in
    let has_dup := match duplicate_meta with Some _ => true | None => false end in
    let has_additive := _has_additive_language lower_ in
    let in_window :=
      match context_snapshot with
      | Some s => ContextWindow.s_isActive s
      | None => false
      end in
    let has_pronoun_anchor := found PRONOUN_ANCHORS trimmed in
    match duplicate_meta, has_additive with
    | Some dm, true =>
        mkClassification "entry_append" (91 # 100)
          ["High-similarity memory match with additive language"]
          (Some (dup_id dm)) (_map_kind_to_entry_type (Some (dup_kind dm)))
          duplicate_meta
          [_base_candidate "entry_append" (91 # 100);
           _base_candidate "entry_discuss" (8 # 10);
           _base_candidate "entry_create" (6 # 10)]
    | _, _ =>
    if in_window && has_pronoun_anchor then
      mkClassification "entry_discuss" (96 # 100)
        ["Within entry context window with pronoun reference"]
        (snapshot_entryId context_snapshot) (snapshot_entryType context_snapshot)
        duplicate_meta
        [_base_candidate "entry_discuss" (96 # 100);
         _base_candidate "entry_append" (if has_additive then 82 # 100 else 7 # 10);
         _base_candidate "entry_create" (6 # 10)]
    else
      let reasons0 :=
        if has_dup && negb has_additive
        then ["High-similarity memory match without clear additive cue"]
        else [] in
      let has_save := _has_save_language lower_ in
      let has_temporal := _has_temporal_marker lower_ in
      let has_action := _has_action_language lower_ in
      let is_question := found QUESTION_MARK trimmed in
      let word_count := word_count_of trimmed in
      if negb is_question &&
         (has_save || (has_temporal && has_action) || (25 <? word_count)%nat)
      then
        let create_confidence : Q :=
          qmin ((86 # 100) + (if has_save then 8 # 100 else 0)
                + (if has_temporal then 3 # 100 else 0)
                + (if (60 <? word_count)%nat then 3 # 100 else 0))%Q
               (97 # 100) in
        mkClassification "entry_create" create_confidence
          (reasons0 ++ ["Declarative content suitable for structured capture"]
             ++ (if has_save then ["Explicit save/log intent detected"] else [])
             ++ (if has_temporal then ["Temporal marker detected"] else [])
             ++ (if has_action then ["Concrete action verb detected"] else []))%list
          None None duplicate_meta
          [_base_candidate "entry_create" create_confidence;
           _base_candidate "entry_append" (if has_dup then 78 # 100 else 62 # 100);
           _base_candidate "conversational" (6 # 10)]
      else
        match has_additive, duplicate_meta with
        | true, Some dm =>
            mkClassification "entry_append" (88 # 100)
              (reasons0 ++ ["Additive phrasing referencing prior context"])%list
              (Some (dup_id dm)) (_map_kind_to_entry_type (Some (dup_kind dm)))
              duplicate_meta
              [_base_candidate "entry_append" (88 # 100);
               _base_candidate "entry_discuss" (72 # 100);
               _base_candidate "conversational" (65 # 100)]
        | _, _ =>
        if in_window && negb is_question then
          mkClassification "entry_discuss" (78 # 100)
            (reasons0 ++ ["Context window active; defaulting follow-up to discuss"])%list
            (snapshot_entryId context_snapshot)
            (snapshot_entryType context_snapshot) duplicate_meta
            [_base_candidate "entry_discuss" (78 # 100);
             _base_candidate "entry_create" (6 # 10);
             _base_candidate "conversational" (58 # 100)]
        else
          let recent_match :=
            match duplicate_meta with
            | Some dm =>
                (DUPLICATE_MIN_PREFIX_LENGTH <=? len (dup_text dm))%nat &&
                let duplicate_prefix :=
                  lower (prefix DUPLICATE_MIN_PREFIX_LENGTH (dup_text dm)) in
                existsb (fun message =>
                           contains duplicate_prefix
                                    (lower (ContextWindow.text message))) recent
            | None => false
            end in
          match recent_match, duplicate_meta with
          | true, Some dm =>
              mkClassification "entry_append" (8 # 10)
                (reasons0 ++ ["Recent message references similar content; favour append"])%list
                (Some (dup_id dm)) (_map_kind_to_entry_type (Some (dup_kind dm)))
                duplicate_meta
                [_base_candidate "entry_append" (8 # 10);
                 _base_candidate "entry_discuss" (7 # 10);
                 _base_candidate "conversational" (65 # 100)]
          | _, _ =>
              let conversational_confidence :=
                (if is_question then 9 # 10 else 82 # 100)%Q in
              mkClassification "conversational" conversational_confidence
                (reasons0 ++ [if is_question
                              then "Question format leaning conversational"
                              else "Defaulting to reflective conversational mode"])%list
                (if in_window then snapshot_entryId context_snapshot else None)
                (snapshot_entryType context_snapshot) duplicate_meta
                [_base_candidate "conversational" conversational_confidence;
                 _base_candidate "search_query"
                   (if is_question then 58 # 100 else 4 # 10);
                 _base_candidate "entry_create" (35 # 100)]
          end
        end
    end.

Definition to_native_label (label : string) : string :=
  StringUtils.to_title_case (replace label "_" " ").

(** Candidates listed by non-increasing confidence. *)
Fixpoint non_increasing (l : list Candidate) : Prop :=
  match l with
  | a :: (b :: _) as tl => (snd b <= snd a)%Q /\ non_increasing tl
  | _ => True
  end.

(** [RiflettIntentLabel]: the labels of the classifier. *)
Definition RiflettIntentLabel : list string :=
  [ "conversational"; "entry_create"; "entry_discuss"; "entry_append";
    "command"; "search_query" ].

Definition is_label (s : string) : bool :=
  existsb (String.eqb s) RiflettIntentLabel.

(** [lo <= x <= hi]. *)
Definition within (lo hi x : Q) : bool := Qle_bool lo x && Qle_bool x hi.

(** A candidate names a label of the list, with a confidence from 0.35 to
    0.99. *)
Definition candidate_ok (cand : Candidate) : bool :=
  is_label (fst cand) && within (35 # 100) (99 # 100) (snd cand).

(** A classification names a label of the list, as its candidates do, with
    a confidence from [floor] to 0.99. *)
Definition well_formed (floor : Q) (c : Classification) : bool :=
  is_label (label c) && forallb candidate_ok (topCandidates c)
  && within floor (99 # 100) (confidence c).

End Classifier.

(* ===================================================================== *)
(** ** agent/intent_definitions.py and agent/types.py *)
(* ===================================================================== *)

Module IntentDefinitions.

Import Py.
Local Open Scope string_scope.

Record definition : Type := mkDefinition {
  def_id : string;
  def_label : string;
  subsystem : string;
  entryType : option string;
  allowedInEntryChat : bool
}.

Definition definitions : list definition :=
  [ mkDefinition "conversational" "Conversational" "entries" (Some "journal") true;
    mkDefinition "entry_create" "Entry Create" "entries" (Some "journal") false;
    mkDefinition "entry_discuss" "Entry Discuss" "entries" (Some "journal") true;
    mkDefinition "entry_append" "Entry Append" "entries" (Some "journal") true;
    mkDefinition "command" "Command" "user_config" None false;
    mkDefinition "search_query" "Search Query" "knowledge" None true ].

(** [lookup = {definition["label"].lower(): definition ...}] *)
Definition lookup : Dict.t definition :=
  fold_left (fun d df => Dict.set d (lower (def_label df)) df) definitions [].

Definition DEFAULT_INTENT : definition :=
  mkDefinition "conversational" "Conversational" "entries" (Some "journal") true.

Definition get_intent_definition (label : string) : definition :=
  let trimmed := strip label in
  let normalized := lower trimmed in
  let safe_label :=
    if String.eqb normalized EmptyString || String.eqb normalized "label"
    then "journal entry" else normalized in
  match Dict.get lookup safe_label with
  | Some df => df
  | None =>
      mkDefinition "unknown"
        (if is_empty trimmed then def_label DEFAULT_INTENT else trimmed)
        (subsystem DEFAULT_INTENT) (entryType DEFAULT_INTENT)
        (allowedInEntryChat DEFAULT_INTENT)
  end.

(** [by_id = {definition["id"]: definition ...}] *)
Definition by_id : Dict.t definition :=
  fold_left (fun d df => Dict.set d (def_id df) df) definitions [].

Definition get_intent_by_id (intent : string) : definition :=
  match Dict.get by_id intent with
  | Some df => df
  | None =>
      mkDefinition intent intent (subsystem DEFAULT_INTENT)
        (entryType DEFAULT_INTENT) (allowedInEntryChat DEFAULT_INTENT)
  end.

Definition entry_chat_allowed_intents : list string :=
  map def_id (filter allowedInEntryChat definitions).

End IntentDefinitions.

(** adjacent/intent_service.py, which serves the definitions. *)
Module IntentService.

Import IntentDefinitions.
Local Open Scope string_scope.

(** [value or None] on an optional string: the empty string counts as absent. *)
Definition given (o : option string) : option string :=
  match o with
  | Some (String _ _ as s) => Some s
  | _ => None
  end.

(** [get_definition(payload)]; the arguments are [payload.get("label")] and
    [payload.get("id")]. *)
Definition get_definition (label intent_id : option string) : definition :=
  match given intent_id with
  | Some i => get_intent_by_id i
  | None =>
      match given label with
      | Some l => get_intent_definition l
      | None => get_intent_definition "Conversational"
      end
  end.

Definition map_intent_to_entry_type (intent_id : string) : string :=
  match given (entryType (get_intent_by_id intent_id)) with
  | Some t => t
  | None => "journal"
  end.

Definition is_entry_chat_allowed (intent_id : string) : bool :=
  existsb (String.eqb intent_id) entry_chat_allowed_intents.

End IntentService.

Module Types.

Record RoutedIntent : Type := mkRoutedIntent {
  label : string;
  rawLabel : string;
  confidence : Q;
  secondBest : option string;
  secondConfidence : option Q;
  slots : Dict.t string;
  topK : list (string * Q);
  modelVersion : option string;
  matchedTokens : option (list (string * list string));
  tokens : option (list string)
}.

(** [RouteDecision]: [kind] is the constructor, the optional fields that a
    kind does not set are absent. *)
Inductive RouteDecision : Type :=
| Commit (primary : string) (maybeSecondary : option string)
| Clarify (question : string)
| Fallback.

Definition kind (d : RouteDecision) : string :=
  match d with
  | Commit _ _ => "commit"
  | Clarify _ => "clarify"
  | Fallback => "fallback"
  end%string.

End Types.

(* ===================================================================== *)
(** ** agent/intent_routing.py *)
(* ===================================================================== *)

Module IntentRouting.

Import Py Num Types.
Local Open Scope string_scope.

Definition ROUTE_AT_THRESHOLD : Q := 75 # 100.
Definition CLARIFY_LOWER_THRESHOLD : Q := 45 # 100.
Definition SECONDARY_INTENT_THRESHOLD : Q := 6 # 10.

Definition _clamp (value : Q) : Q :=
  if qlt value 0 then 0%Q
  else if qlt 1 value then 1%Q
  else value.

(** The dictionary built by the pipeline for the classifier's answer. *)
Record NativeIntent : Type := mkNative {
  n_label : string;
  n_confidence : Q;
  n_top3 : list (string * Q);
  n_topK : list (string * Q);
  n_modelVersion : option string;
  n_matchedTokens : list (string * list string);
  n_tokens : option (list string)
}.

Fixpoint dedupe (seen : list string) (items : list (string * Q))
  : list (string * Q) :=
  match items with
  | [] => []
  | (lbl, conf) :: tl =>
      if existsb (String.eqb lbl) seen then dedupe seen tl
      else (lbl, _clamp conf) :: dedupe (lbl :: seen) tl
  end.

Definition _normalize_top_k (native_top_k : list (string * Q))
  : list (string * Q) :=
  Sorting.sort_desc_q snd (dedupe [] native_top_k).

Definition build_routed_intent (native_intent : NativeIntent)
  (slots_ : option (Dict.t string)) : RoutedIntent :=
  let top_k :=
    _normalize_top_k
      (match n_topK native_intent with
       | [] => n_top3 native_intent
       | l => l
       end) in
  let primary :=
    match top_k with
    | p :: _ => p
    | [] => (n_label native_intent, _clamp (n_confidence native_intent))
    end in
  let second :=
    find (fun candidate => negb (String.eqb (fst candidate) (fst primary))) top_k in
  let primary_definition := IntentDefinitions.get_intent_definition (fst primary) in
  let second_definition :=
    option_map (fun s => IntentDefinitions.get_intent_definition (fst s)) second in
  let matched_tokens_lookup :=
    fold_left (fun d item => Dict.set d (fst item) (snd item))
              (n_matchedTokens native_intent) [] in
  let resolved_top_k := match top_k with [] => [primary] | l => l end in
  let matched_tokens :=
    map (fun candidate =>
           let df := IntentDefinitions.get_intent_definition (fst candidate) in
           let toks :=
             match Dict.get matched_tokens_lookup
                            (IntentDefinitions.def_label df) with
             | Some ((_ :: _) as t) => t
             | _ =>
                 match Dict.get matched_tokens_lookup (fst candidate) with
                 | Some t => t
                 | None => []
                 end
             end in
           (StringUtils.to_pascal_case (IntentDefinitions.def_label df), toks))
        resolved_top_k in
  mkRoutedIntent
    (StringUtils.to_pascal_case (IntentDefinitions.def_label primary_definition))
    (IntentDefinitions.def_label primary_definition)
    (_clamp (snd primary))
    (option_map (fun df => StringUtils.to_pascal_case (IntentDefinitions.def_label df))
                second_definition)
    (option_map (fun s => _clamp (snd s)) second)
    (match slots_ with Some s => s | None => [] end)
    resolved_top_k
    (n_modelVersion native_intent)
    (Some matched_tokens)
    (n_tokens native_intent).

Definition route_intent (intent : RoutedIntent) : RouteDecision :=
  if qge (confidence intent) ROUTE_AT_THRESHOLD then
    let maybe_secondary :=
      if qge (match secondConfidence intent with Some c => c | None => 0%Q end)
             SECONDARY_INTENT_THRESHOLD
      then secondBest intent else None in
    Commit (label intent) maybe_secondary
  else if qge (confidence intent) CLARIFY_LOWER_THRESHOLD then
    let human_label := replace (StringUtils.to_snake_case (label intent)) "_" " " in
    Clarify ("Did you want to " ++ human_label ++ "?")
  else Fallback.

Definition should_consider_secondary (intent : RoutedIntent) : bool :=
  qge (match secondConfidence intent with Some c => c | None => 0%Q end)
      SECONDARY_INTENT_THRESHOLD.

End IntentRouting.

(* ===================================================================== *)
(** ** Exceptions and [datetime] *)
(* ===================================================================== *)

Module Exc.

(** The outcome of a call that may raise. *)
Inductive result (A : Type) : Type :=
| Ok (a : A)
| Raise (exc : string).

Arguments Ok {A} a.
Arguments Raise {A} exc.

Definition bind (A B : Type) (r : result A) (f : A -> result B) : result B :=
  match r with
  | Ok a => f a
  | Raise e => Raise e
  end.

Definition returns (A : Type) (r : result A) : bool :=
  match r with Ok _ => true | Raise _ => false end.

(** What becomes of a call that is awaited: it is done, or it waits for
    ever, as a call does that awaits a lock which is never released. *)
Inductive awaited (A : Type) : Type :=
| Done (a : A)
| Waits.

Arguments Done {A} a.
Arguments Waits {A}.

Definition await (A B : Type) (a : awaited A) (k : A -> awaited B) : awaited B :=
  match a with
  | Done x => k x
  | Waits => Waits
  end.

End Exc.

Notation "'do' x <- r ; k" := (Exc.bind r (fun x => k))
  (at level 10, x name, r at level 100, k at level 200).

Module DateTime.

Import Py Exc.
Local Open Scope Z_scope.

(** An aware [datetime] in UTC: the day is counted from 1970-01-01, which is
    what [date.toordinal] is up to a constant.  The pipeline's clock is
    [datetime.now(timezone.utc)]. *)
Record datetime : Type := mkDateTime {
  day : Z;
  hour : Z;
  minute : Z;
  second : Z;
  microsecond : Z
}.

(** [days_from_civil] and [civil_from_days]: the proleptic Gregorian
    calendar of [datetime]. *)
Definition days_from_civil (y m d : Z) : Z :=
  let y' := if m <=? 2 then y - 1 else y in
  let era := y' / 400 in
  let yoe := y' - era * 400 in
  let mp := if 2 <? m then m - 3 else m + 9 in
  let doy := (153 * mp + 2) / 5 + d - 1 in
  let doe := yoe * 365 + yoe / 4 - yoe / 100 + doy in
  era * 146097 + doe - 719468.

Definition civil_from_days (z : Z) : Z * Z * Z :=
  let z' := z + 719468 in
  let era := z' / 146097 in
  let doe := z' - era * 146097 in
  let yoe := (doe - doe / 1460 + doe / 36524 - doe / 146096) / 365 in
  let y := yoe + era * 400 in
  let doy := doe - (365 * yoe + yoe / 4 - yoe / 100) in
  let mp := (5 * doy + 2) / 153 in
  let d := doy - (153 * mp + 2) / 5 + 1 in
  let m := if mp <? 10 then mp + 3 else mp - 9 in
  (if m <=? 2 then y + 1 else y, m, d).

(** [date.min] and [date.max]: 0001-01-01 and 9999-12-31. *)
Definition MIN_DAY : Z := -719162.
Definition MAX_DAY : Z := 2932896.

Definition is_leap (y : Z) : bool :=
  ((y mod 4 =? 0) && negb (y mod 100 =? 0)) || (y mod 400 =? 0).

Definition days_in_month (y m : Z) : Z :=
  if m =? 2 then (if is_leap y then 29 else 28)
  else if (m =? 4) || (m =? 6) || (m =? 9) || (m =? 11) then 30
  else 31.

(** [datetime(year, month, day, tzinfo=timezone.utc)]. *)
Definition make_date (y m d : Z) : result datetime :=
  if (1 <=? y) && (y <=? 9999) && (1 <=? m) && (m <=? 12) &&
     (1 <=? d) && (d <=? days_in_month y m)
  then Ok (mkDateTime (days_from_civil y m d) 0 0 0 0)
  else Raise "ValueError"%string.

Definition year (t : datetime) : Z := fst (fst (civil_from_days (day t))).

(** [datetime.weekday()]: Monday is 0 and Sunday is 6. *)
Definition weekday (t : datetime) : Z := (day t + 3) mod 7.

(** [t + timedelta(days=d, seconds=s)]. *)
Definition add_delta (d s : Z) (t : datetime) : result datetime :=
  let total := hour t * 3600 + minute t * 60 + second t + s in
  let day' := day t + d + total / 86400 in
  let r := total mod 86400 in
  if (MIN_DAY <=? day') && (day' <=? MAX_DAY)
  then Ok (mkDateTime day' (r / 3600) ((r mod 3600) / 60) (r mod 60) (microsecond t))
  else Raise "OverflowError"%string.

Definition add_days (d : Z) (t : datetime) : result datetime := add_delta d 0 t.
Definition add_hours (h : Z) (t : datetime) : result datetime :=
  add_delta 0 (h * 3600) t.

(** [t.replace(hour=h, minute=m, second=0, microsecond=0)]. *)
Definition replace_time (h m : Z) (t : datetime) : datetime :=
  mkDateTime (day t) h m 0 0.

Definition micros (t : datetime) : Z :=
  (((day t * 24 + hour t) * 60 + minute t) * 60 + second t) * 1000000
  + microsecond t.

(** [a < b]. *)
Definition ltb (a b : datetime) : bool := micros a <? micros b.

(** A well-formed value: a day of the calendar and a time of day. *)
Definition valid (t : datetime) : Prop :=
  MIN_DAY <= day t <= MAX_DAY /\ 0 <= hour t < 24 /\ 0 <= minute t < 60
  /\ 0 <= second t < 60 /\ 0 <= microsecond t < 1000000.

Definition pad (width : nat) (z : Z) : string :=
  let s := str_of_nat (Z.to_nat z) in
  (to_string (repeat "0"%char (width - len s)) ++ s)%string.

(** [t.isoformat()] for an aware UTC value. *)
Definition isoformat (t : datetime) : string :=
  let '(y, m, d) := civil_from_days (day t) in
  (pad 4 y ++ "-" ++ pad 2 m ++ "-" ++ pad 2 d ++ "T" ++
   pad 2 (hour t) ++ ":" ++ pad 2 (minute t) ++ ":" ++ pad 2 (second t) ++
   (if (microsecond t =? 0)%Z then EmptyString else "." ++ pad 6 (microsecond t)) ++
   "+00:00")%string.

End DateTime.

(* ===================================================================== *)
(** ** agent/slot_filler.py *)
(* ===================================================================== *)

Module SlotFiller.

Import Py Re Exc DateTime Types.
Local Open Scope string_scope.

Definition WEEKDAY_ORDER : Dict.t Z :=
  [ ("sunday", 0%Z); ("monday", 1%Z); ("tuesday", 2%Z); ("wednesday", 3%Z);
    ("thursday", 4%Z); ("friday", 5%Z); ("saturday", 6%Z) ].

Definition MONTHS : list string :=
  [ "january"; "february"; "march"; "april"; "may"; "june"; "july"; "august";
    "september"; "october"; "november"; "december" ].

(** [MONTHS.index(name)], which raises when the name is not in the list. *)
Fixpoint index_of (name : string) (l : list string) (i : Z) : result Z :=
  match l with
  | [] => Raise "ValueError"
  | x :: tl => if String.eqb x name then Ok i else index_of name tl (i + 1)%Z
  end.

Definition _clamp_value (value max_value : Z) : Z :=
  if (value <? 0)%Z then 0%Z
  else if (max_value <? value)%Z then max_value
  else value.

Definition _minutes_to_iso (date : datetime) : string :=
  replace (isoformat date) "+00:00" "Z".

Definition int_of (s : string) : Z := int_of_chars (of_string s).

Definition word (s : string) : regex := seqs [Bnd; lit_ci s; Bnd].

(** [\b(next|this)?\s*(sunday|monday|...|saturday)\b] with [re.I] *)
Definition weekday_regex : regex :=
  seqs [ Bnd; opt (Grp 1 (Alt (lit_ci "next") (lit_ci "this"))); star space;
         Grp 2 (alts (map lit_ci
           [ "sunday"; "monday"; "tuesday"; "wednesday"; "thursday"; "friday";
             "saturday" ]));
         Bnd ].

Definition _find_weekday (text : string) (now : datetime)
  : result (option datetime) :=
  match search weekday_regex text with
  | None => Ok None
  | Some m =>
      let hint := group 1 m in
      let weekday_raw := match group 2 m with Some s => s | None => EmptyString end in
      match Dict.get WEEKDAY_ORDER (lower weekday_raw) with
      | None => Ok None
      | Some weekday_idx =>
          let today_idx := weekday now in
          let days_ahead := ((weekday_idx - today_idx + 7) mod 7)%Z in
          let hint_is (h : string) :=
            match hint with
            | Some s => negb (is_empty s) && String.eqb (lower s) h
            | None => false
            end in
          let no_hint :=
            match hint with Some s => is_empty s | None => true end in
          let days_ahead :=
            if (days_ahead =? 0)%Z && hint_is "next" then 7%Z
            else if (days_ahead =? 0)%Z && hint_is "this" then 0%Z
            else if (days_ahead =? 0)%Z && no_hint then 7%Z
            else days_ahead in
          do target <- add_days days_ahead now;
          Ok (Some target)
      end
  end.

Definition _find_relative_day (text : string) (now : datetime)
  : result (option datetime) :=
  if found (word "today") text then Ok (Some now)
  else if found (word "tomorrow") text then
    do t <- add_days 1 now; Ok (Some t)
  else if found (word "day after tomorrow") text then
    do t <- add_days 2 now; Ok (Some t)
  else Ok None.

(** [\b(\d{4})-(\d{2})-(\d{2})\b] *)
Definition iso_date_regex : regex :=
  seqs [ Bnd; Grp 1 (rep 4 4 digit); chr "-"; Grp 2 (rep 2 2 digit); chr "-";
         Grp 3 (rep 2 2 digit); Bnd ].

(** [\b(\d{1,2})\/(\d{1,2})(?:\/(\d{2,4}))?\b] *)
Definition slash_date_regex : regex :=
  seqs [ Bnd; Grp 1 (rep 1 2 digit); chr "/"; Grp 2 (rep 1 2 digit);
         opt (Seq (chr "/") (Grp 3 (rep 2 4 digit))); Bnd ].

Definition month_name (short rest_ : string) : regex :=
  Seq (lit_ci short) (opt (lit_ci rest_)).

(** [\b(jan(?:uary)?|feb(?:ruary)?|...|dec(?:ember)?)\s+(\d{1,2})(?:,?\s*(\d{4}))?\b]
    with [re.I] *)
Definition month_date_regex : regex :=
  seqs [ Bnd;
         Grp 1 (alts [ month_name "jan" "uary"; month_name "feb" "ruary";
                       month_name "mar" "ch"; month_name "apr" "il";
                       lit_ci "may"; month_name "jun" "e"; month_name "jul" "y";
                       month_name "aug" "ust"; month_name "sep" "tember";
                       month_name "oct" "ober"; month_name "nov" "ember";
                       month_name "dec" "ember" ]);
         plus space; Grp 2 (rep 1 2 digit);
         opt (seqs [opt (chr ","); star space; Grp 3 (rep 4 4 digit)]);
         Bnd ].

Definition group_or_empty (n : nat) (m : rmatch) : string :=
  match group n m with Some s => s | None => EmptyString end.

Definition _find_explicit_date (text : string) (now : datetime)
  : result (option datetime) :=
  match search iso_date_regex text with
  | Some m =>
      do d <- make_date (int_of (group_or_empty 1 m)) (int_of (group_or_empty 2 m))
                        (int_of (group_or_empty 3 m));
      Ok (Some d)
  | None =>
      match search slash_date_regex text with
      | Some m =>
          let year_val :=
            match group 3 m with
            | Some year_raw =>
                if (len year_raw =? 2)%nat then int_of ("20" ++ year_raw)
                else int_of year_raw
            | None => year now
            end in
          do d <- make_date year_val (int_of (group_or_empty 1 m))
                            (int_of (group_or_empty 2 m));
          Ok (Some d)
      | None =>
          match search month_date_regex text with
          | Some m =>
              do month_idx <- index_of (lower (group_or_empty 1 m)) MONTHS 0%Z;
              let year_val :=
                match group 3 m with
                | Some year_raw => int_of year_raw
                | None => year now
                end in
              do d <- make_date year_val (month_idx + 1)%Z
                                (int_of (group_or_empty 2 m));
              Ok (Some d)
          | None => Ok None
          end
      end
  end.

(** [\b(?:at|@)?\s*(\d{1,2})(?::(\d{2}))?\s*(am|pm)?\b] with [re.I] *)
Definition time_regex : regex :=
  seqs [ Bnd; opt (Alt (lit_ci "at") (chr "@")); star space;
         Grp 1 (rep 1 2 digit); opt (Seq (chr ":") (Grp 2 (rep 2 2 digit)));
         star space; opt (Grp 3 (Alt (lit_ci "am") (lit_ci "pm"))); Bnd ].

(** [_apply_time]: the date with the clock time of the text, when there is
    one; the flag [timeApplied] is the presence of the answer. *)
Definition _apply_time (text : string) (seed : option datetime) (now : datetime)
  : option datetime :=
  match search time_regex text with
  | None => None
  | Some m =>
      let hours := _clamp_value (int_of (group_or_empty 1 m)) 23 in
      let minutes :=
        _clamp_value (match group 2 m with Some s => int_of s | None => 0%Z end) 59 in
      let hours :=
        match group 3 m with
        | Some meridiem_raw =>
            let meridiem := lower meridiem_raw in
            let hours :=
              if String.eqb meridiem "pm" && (hours <? 12)%Z then (hours + 12)%Z
              else hours in
            if String.eqb meridiem "am" && (hours =? 12)%Z then 0%Z else hours
        | None => hours
        end in
      let base := match seed with Some s => s | None => now end in
      Some (replace_time hours minutes base)
  end.

Definition _ensure_past_is_future (date now : datetime) : result datetime :=
  if ltb date now then add_days 7 date else Ok date.

(** [for\s+(\d{1,2})\s*(minutes?|hours?)] with [re.I] *)
Definition duration_regex : regex :=
  seqs [ lit_ci "for"; plus space; Grp 1 (rep 1 2 digit); star space;
         Grp 2 (Alt (Seq (lit_ci "minute") (opt (chr_ci "s")))
                    (Seq (lit_ci "hour") (opt (chr_ci "s")))) ].

(** [(?:goal|aim|plan)\s+(?:to|is to)?\s*(.+)$] with [re.I] *)
Definition goal_title_regex : regex :=
  seqs [ alts [lit_ci "goal"; lit_ci "aim"; lit_ci "plan"]; plus space;
         opt (Alt (lit_ci "to") (lit_ci "is to")); star space;
         Grp 1 (plus (Chr (fun c => negb (code c =? 10)%nat))); Eol ].

(** [(?:about|on)\s+([^.!?]+)] with [re.I] *)
Definition journal_title_regex : regex :=
  seqs [ Alt (lit_ci "about") (lit_ci "on"); plus space;
         Grp 1 (plus (none_of ".!?")) ].

(** [s.split(sep)[0]] for a one-character separator. *)
Fixpoint before_char (sep : ascii) (s : string) : string :=
  match s with
  | EmptyString => EmptyString
  | String c tl => if eqc c sep then EmptyString else String c (before_char sep tl)
  end.

Definition first_some (A : Type) (a b : option A) : option A :=
  match a with Some _ => a | None => b end.

Definition _derive_slots (text : string) (base_intent : RoutedIntent)
  (now : datetime) : result (Dict.t string) :=
  let result_slots := slots base_intent in
  let normalized_label :=
    lower (if is_empty (rawLabel base_intent) then label base_intent
           else rawLabel base_intent) in
  do weekday_ <- _find_weekday text now;
  do relative <- _find_relative_day text now;
  do explicit <- _find_explicit_date text now;
  let candidate_date := first_some explicit (first_some relative weekday_) in
  let candidate_date :=
    match candidate_date with
    | None => if found (word "tonight") text
              then Some (replace_time 20 0 now) else None
    | Some _ => candidate_date
    end in
  let time_applied :=
    _apply_time text (first_some candidate_date (Some now)) now in
  let candidate_date := first_some time_applied candidate_date in
  do result_slots <-
    match candidate_date with
    | None => Ok result_slots
    | Some cd =>
        do adjusted <-
          (if contains "schedule" (lower (label base_intent))
           then _ensure_past_is_future cd now else Ok cd);
        let iso := _minutes_to_iso adjusted in
        if contains "schedule" normalized_label then
          let result_slots := Dict.set result_slots "start" iso in
          match time_applied with
          | Some _ => Ok result_slots
          | None =>
              do end_ <- add_hours 1 adjusted;
              Ok (Dict.set result_slots "end" (_minutes_to_iso end_))
          end
        else if contains "goal" normalized_label then
          let date_part := before_char "T" iso in
          if is_empty date_part then Ok result_slots
          else Ok (Dict.set result_slots "due" date_part)
        else if contains "journal" normalized_label then
          Ok (Dict.set result_slots "ts" iso)
        else Ok result_slots
    end;
  let result_slots :=
    match search duration_regex text with
    | Some m =>
        let qty := int_of (group_or_empty 1 m) in
        let unit :=
          if startswith (lower (group_or_empty 2 m)) "hour" then 60%Z else 1%Z in
        Dict.set result_slots "duration_minutes" (str_of_Z (qty * unit)%Z)
    | None => result_slots
    end in
  let result_slots :=
    if negb (Dict.mem result_slots "title") && contains "goal" normalized_label then
      match search goal_title_regex text with
      | Some m =>
          if is_empty (group_or_empty 1 m) then result_slots
          else Dict.set result_slots "title"
                 (StringUtils.to_title_case (strip (group_or_empty 1 m)))
      | None => result_slots
      end
    else result_slots in
  let result_slots :=
    if negb (Dict.mem result_slots "title") && contains "journal" normalized_label then
      match search journal_title_regex text with
      | Some m =>
          if is_empty (group_or_empty 1 m) then result_slots
          else Dict.set result_slots "title"
                 (StringUtils.to_title_case (strip (group_or_empty 1 m)))
      | None => result_slots
      end
    else result_slots in
  Ok result_slots.

Definition with_slots (intent : RoutedIntent) (s : Dict.t string) : RoutedIntent :=
  mkRoutedIntent (label intent) (rawLabel intent) (confidence intent)
    (secondBest intent) (secondConfidence intent) s (topK intent)
    (modelVersion intent) (matchedTokens intent) (tokens intent).

(** [fill(text, intent, options)]; [now] is [options["now"]] or the clock. *)
Definition fill (text : string) (intent : RoutedIntent) (now : datetime)
  : result RoutedIntent :=
  do s <- _derive_slots text intent now;
  Ok (with_slots intent s).

(** The label that [_derive_slots] reads: [(rawLabel or label).lower()]. *)
Definition normalized_label (i : RoutedIntent) : string :=
  lower (if is_empty (rawLabel i) then label i else rawLabel i).

(** The labels for which a date or a title is written into a slot. *)
Definition dated (i : RoutedIntent) : bool :=
  contains "schedule" (normalized_label i) || contains "goal" (normalized_label i)
  || contains "journal" (normalized_label i).

(** The slots that [_derive_slots] may overwrite. *)
Definition derived_keys : list string :=
  [ "start"; "end"; "due"; "ts"; "duration_minutes" ].

(** [rs] holds every given slot that is not one of [derived_keys], with its
    value. *)
Definition keeps (given_ rs : Dict.t string) : Prop :=
  forall k v, Dict.get given_ k = Some v -> ~ In k derived_keys ->
              Dict.get rs k = Some v.

(** The two exceptions of [datetime]. *)
Definition date_error (e : string) : Prop :=
  e = "ValueError" \/ e = "OverflowError".

End SlotFiller.

(* ===================================================================== *)
(** ** agent/user_config.py, agent/telemetry.py, agent/goal_context.py *)
(* ===================================================================== *)

Module UserConfig.

Import DateTime Exc.

(** [PersonalizationRuntime]; [resolved_at] is kept as the time that its ISO
    string denotes, and the settings and persona as their names. *)
Record PersonalizationRuntime : Type := mkRuntime {
  user_settings : option string;
  persona : option string;
  cadence : string;
  tone : string;
  spiritual_on : bool;
  bluntness : Z;
  privacy_gates : Dict.t bool;
  crisis_rules : Dict.t string;
  resolved_at : datetime
}.

(** A patch: the fields that the caller overrides.  A field that is [None],
    and a dictionary that is empty, stand for a key that the patch does not
    have, so the patch with no field at all is the empty dict. *)
Record Patch : Type := mkPatch {
  p_user_settings : option string;
  p_persona : option string;
  p_cadence : option string;
  p_tone : option string;
  p_spiritual_on : option bool;
  p_bluntness : option Z;
  p_privacy_gates : Dict.t bool;
  p_crisis_rules : Dict.t string;
  p_resolved_at : option datetime
}.

Definition _default_runtime (now : datetime) : PersonalizationRuntime :=
  mkRuntime None None "none" "neutral" false 5%Z [] [] now.

Definition or_else (A : Type) (o : option A) (d : A) : A :=
  match o with Some a => a | None => d end.

Definition merge_dict (A : Type) (base patch : Dict.t A) : Dict.t A :=
  fold_left (fun d kv => Dict.set d (fst kv) (snd kv)) patch base.

Definition _merge_configs (now : datetime) (current : PersonalizationRuntime)
  (patch : Patch) : PersonalizationRuntime :=
  mkRuntime
    (match p_user_settings patch with
     | Some s => Some s
     | None => user_settings current
     end)
    (match p_persona patch with Some s => Some s | None => persona current end)
    (or_else (p_cadence patch) (cadence current))
    (or_else (p_tone patch) (tone current))
    (or_else (p_spiritual_on patch) (spiritual_on current))
    (or_else (p_bluntness patch) (bluntness current))
    (merge_dict (privacy_gates current) (p_privacy_gates patch))
    (merge_dict (crisis_rules current) (p_crisis_rules patch))
    (or_else (p_resolved_at patch) now).

(** [bool(patch)]: a dict is true when it has a key. *)
Definition has_keys (patch : Patch) : bool :=
  match p_user_settings patch, p_persona patch, p_cadence patch, p_tone patch,
        p_spiritual_on patch, p_bluntness patch, p_privacy_gates patch,
        p_crisis_rules patch, p_resolved_at patch with
  | None, None, None, None, None, None, [], [], None => false
  | _, _, _, _, _, _, _, _, _ => true
  end.

(** [async with _lock]: [_lock = asyncio.Lock()] is not reentrant.  [locked]
    says whether the lock is held when the call reaches this line.  A call
    that finds the lock held waits for its release; the module's calls run in
    one task, so the holder is the caller that awaits this very call, and
    the release never comes. *)
Definition with_lock (A : Type) (locked : bool) (body : awaited A) : awaited A :=
  if locked then Waits else body.

(** [UserConfig.snapshot]: under the lock, the cached configuration, created
    on first use. *)
Definition snapshot (locked : bool) (now : datetime)
  (cache : option PersonalizationRuntime)
  : awaited (PersonalizationRuntime * option PersonalizationRuntime) :=
  with_lock locked
    (Done match cache with
          | Some c => (c, cache)
          | None => let d := _default_runtime now in (d, Some d)
          end).

(** [UserConfig.update]: it takes the lock and, holding it, awaits
    [UserConfig.snapshot], which takes the same lock. *)
Definition update (locked : bool) (now : datetime) (patch : Patch)
  (cache : option PersonalizationRuntime)
  : awaited (option PersonalizationRuntime) :=
  with_lock locked
    (await (snapshot true now cache)
       (fun current => Done (Some (_merge_configs now (fst current) patch)))).

(** The remote fetch is a stub: the cached snapshot. *)
Definition load_user_config (locked : bool) (now : datetime)
  (cache : option PersonalizationRuntime) :=
  snapshot locked now cache.

End UserConfig.

Module Telemetry.

Import Types.

Definition MAX_TRACES : nat := 100.

Record Retrieval : Type := mkRetrieval {
  r_id : string;
  r_kind : string;
  r_compositeScore : Q;
  r_scoring : Dict.t Q
}.

Record Trace : Type := mkTrace {
  t_id : string;
  t_ts : Z;
  maskedUserText : string;
  intentLabel : string;
  intentConfidence : Q;
  t_decision : RouteDecision;
  retrieval : list Retrieval;
  redactionSummary : Dict.t nat;
  latencyMs : Z
}.

Record Params : Type := mkParams {
  p_maskedUserText : string;
  p_intentLabel : string;
  p_intentConfidence : Q;
  p_decision : RouteDecision;
  p_retrieval : list Retrieval;
  p_redactionSummary : Dict.t nat;
  p_startedAt : Z
}.

Definition _save_traces (traces : list Trace) : list Trace :=
  firstn MAX_TRACES (Sorting.sort_desc t_ts traces).

(** [Telemetry.record]: [trace_id] is the identifier drawn by [nanoid], [now]
    the clock in milliseconds. *)
Definition record (trace_id : string) (now : Z) (params : Params)
  (store : list Trace) : string * list Trace :=
  let trace :=
    mkTrace trace_id now (p_maskedUserText params) (p_intentLabel params)
      (p_intentConfidence params) (p_decision params) (p_retrieval params)
      (p_redactionSummary params) (now - p_startedAt params)%Z in
  (trace_id, _save_traces (trace :: store)).

End Telemetry.

(* ===================================================================== *)
(** ** agent/pipeline.py *)
(* ===================================================================== *)

Module Pipeline.

Import Py Num Exc Types.
Local Open Scope string_scope.

Definition GOAL_KEYWORDS : list string :=
  [ "goal"; "goals"; "milestone"; "milestones"; "project"; "habit"; "plan" ].
Definition CONFIG_REFRESH_WINDOW_MS : Z := (5 * 60 * 1000)%Z.

Definition _needs_refresh (now : DateTime.datetime)
  (config : UserConfig.PersonalizationRuntime) : bool :=
  match UserConfig.user_settings config, UserConfig.persona config with
  | None, None => true
  | _, _ =>
      (CONFIG_REFRESH_WINDOW_MS * 1000 <?
       DateTime.micros now - DateTime.micros (UserConfig.resolved_at config))%Z
  end.

Definition _should_load_goal_context (text : string) (routed_intent : RoutedIntent)
  (classification : Classifier.Classification) : bool :=
  let normalized := lower text in
  if existsb (fun keyword => contains keyword normalized) GOAL_KEYWORDS then true
  else if contains "goal" (lower (label routed_intent)) then true
  else if contains "goal"
            (lower (match Classifier.duplicateMatch classification with
                    | Some d => Classifier.dup_kind d
                    | None => EmptyString
                    end)) then true
  else String.eqb
         (lower (match Classifier.targetEntryType classification with
                 | Some t => t
                 | None => EmptyString
                 end)) "goal".

Definition _clamp01 (value : Q) : Q :=
  if qlt value 0 then 0%Q
  else if qlt 1 value then 1%Q
  else value.

Definition priority_weight_by_kind : Dict.t Q :=
  [ ("goal", 1%Q); ("schedule", (75 # 100)%Q); ("entry", (55 # 100)%Q);
    ("event", (45 # 100)%Q); ("pref", (35 # 100)%Q) ].

Definition relationship_weight_by_kind : Dict.t Q :=
  [ ("goal", (85 # 100)%Q); ("schedule", (7 # 10)%Q); ("entry", (5 # 10)%Q);
    ("event", (4 # 10)%Q); ("pref", (35 # 100)%Q) ].

Record ScoredMemoryRecord : Type := mkScored {
  record : Memory.MemoryRecord;
  compositeScore : Q;
  scoring : Dict.t Q
}.

Record ContextOptions : Type := mkContextOptions {
  c_userTimeZone : option string;
  c_coachingSuggestion : option string
}.

(** [round(x, 3)]: to the nearest thousandth, a tie to the even one. *)
Definition round3 (x : Q) : Q :=
  let scaled := (x * 1000)%Q in
  let fl := (Qnum scaled / Zpos (Qden scaled))%Z in
  let frac := (scaled - inject_Z fl)%Q in
  let up :=
    if Qle_bool (1 # 2) frac
    then (if Qeq_bool frac (1 # 2) then Z.odd fl else true)
    else false in
  ((if up then fl + 1 else fl)%Z # 1000)%Q.

Definition get_or (A : Type) (d : Dict.t A) (k : string) (default : A) : A :=
  match Dict.get d k with Some v => v | None => default end.

Definition qabs_z (z : Z) : Z := Z.abs z.

Section WithMath.

(** [math.sqrt] and [math.exp] on floats. *)
Variable sqrt_f : Q -> Q.
Variable exp_f : Q -> Q.

Definition _logistic (value : Q) : Q := (1 / (1 + exp_f (- value)))%Q.

Definition q_of_Z (z : Z) : Q := inject_Z z.

Definition score_context_records (now_hour : Z)
  (records : list Memory.MemoryRecord) (options : option ContextOptions)
  : list ScoredMemoryRecord :=
  match records with
  | [] => []
  | _ :: _ =>
      let timestamps := map (fun r => Memory.ts (Memory.row r)) records in
      let n := q_of_nat (List.length timestamps) in
      let mean_ts := (q_of_Z (fold_left Z.add timestamps 0%Z) / n)%Q in
      let variance :=
        (fold_left (fun acc t => acc + (q_of_Z t - mean_ts) * (q_of_Z t - mean_ts))
                   timestamps 0 / n)%Q in
      let std_ts :=
        let s := sqrt_f variance in if Qeq_bool s 0 then 1%Q else s in
      let scored :=
        map (fun r =>
          let k := Memory.kind (Memory.row r) in
          let recency_z := ((q_of_Z (Memory.ts (Memory.row r)) - mean_ts) / std_ts)%Q in
          let recency_score := _logistic recency_z in
          let priority := get_or priority_weight_by_kind k (4 # 10)%Q in
          let semantic := _clamp01 ((Memory.score r + 1) / 2)%Q in
          let affect := (5 # 10)%Q in
          let relationship := get_or relationship_weight_by_kind k (4 # 10)%Q in
          let time_of_day_score :=
            match options with
            | Some (mkContextOptions (Some (String _ _)) _) =>
                let record_hour := ((Memory.ts (Memory.row r) / 1000 / 3600) mod 24)%Z in
                let diff := Z.abs (record_hour - now_hour) in
                let hour_diff := Z.min diff (24 - diff) in
                qmax 0 (1 - q_of_Z hour_diff / 12)%Q
            | _ => (5 # 10)%Q
            end in
          let suggestion_type :=
            match options with
            | Some o => c_coachingSuggestion o
            | None => None
            end in
          let coaching_score :=
            match suggestion_type with
            | Some t =>
                if String.eqb t "goal_check"
                then (if String.eqb k "goal" then 1 else 35 # 100)%Q
                else if String.eqb t "reflection"
                then (if String.eqb k "entry" then 1 else 35 # 100)%Q
                else if is_empty t then (5 # 10)%Q else (6 # 10)%Q
            | None => (5 # 10)%Q
            end in
          let normalized_time := _clamp01 time_of_day_score in
          let normalized_coaching := _clamp01 coaching_score in
          let composite :=
            ((3 # 10) * recency_score + (25 # 100) * priority
             + (15 # 100) * semantic + (1 # 10) * affect
             + (1 # 10) * relationship + (5 # 100) * normalized_time
             + (5 # 100) * normalized_coaching)%Q in
          mkScored r composite
            [ ("recency", round3 recency_score); ("priority", round3 priority);
              ("semantic", round3 semantic); ("affect", round3 affect);
              ("relationship", round3 relationship);
              ("timeOfDay", round3 normalized_time);
              ("coaching", round3 normalized_coaching) ])
          records in
      Sorting.sort_desc_q compositeScore scored
  end.

Definition _summarize_redactions (mapping : Dict.t string) : Dict.t nat :=
  fold_left (fun d kv => Dict.set d (fst kv) (len (snd kv))) mapping [].

(** [if override:] holds for a patch that has a key.  The lock of
    [UserConfig] is free when the pipeline calls it. *)
Definition _ensure_user_config (now : DateTime.datetime)
  (override : option UserConfig.Patch)
  (cache : option UserConfig.PersonalizationRuntime)
  : awaited (UserConfig.PersonalizationRuntime
             * option UserConfig.PersonalizationRuntime) :=
  match override with
  | Some patch =>
      if UserConfig.has_keys patch then
        await (UserConfig.update false now patch cache)
          (fun cache' => UserConfig.snapshot false now cache')
      else
        await (UserConfig.snapshot false now cache)
          (fun '(snap, cache') =>
             if _needs_refresh now snap
             then UserConfig.load_user_config false now cache'
             else Done (snap, cache'))
  | None =>
      await (UserConfig.snapshot false now cache)
        (fun '(snap, cache') =>
           if _needs_refresh now snap
           then UserConfig.load_user_config false now cache'
           else Done (snap, cache'))
  end.

(** The options of [handle_utterance]. *)
Record HandleUtteranceOptions : Type := mkOptions {
  kindsOverride : option (list string);
  o_topK : option Z;
  userTimeZone : option string;
  coachingSuggestion : option string;
  userConfig : option UserConfig.Patch
}.

(** [{}]: no option given. *)
Definition no_options : HandleUtteranceOptions :=
  mkOptions None None None None None.

(** What one run reads from outside: the clock at its readings and the
    identifier drawn for the trace. *)
Record readings : Type := mkReadings {
  started_at : Z;
  search_ts : Z;
  now_hour : Z;
  slot_now : DateTime.datetime;
  config_now : DateTime.datetime;
  trace_now : Z;
  nanoid : string
}.

(** The state shared between runs: the globals of the collaborating
    modules. *)
Record world : Type := mkWorld {
  memory : Memory.store;
  window : ContextWindow.window;
  config_cache : option UserConfig.PersonalizationRuntime;
  trace_store : list Telemetry.Trace;
  goal_context : list string
}.

(** The state of a freshly started process. *)
Definition initial_world : world :=
  mkWorld Memory.initial ContextWindow.initial None [] [].

Record ClassificationMeta : Type := mkMeta {
  cm_id : string;
  cm_label : string;
  cm_confidence : Q;
  cm_reasons : list string;
  cm_targetEntryId : option string;
  cm_targetEntryType : option string;
  cm_duplicateMatch : option Classifier.Duplicate;
  cm_topCandidates : list (string * Q)
}.

Record EnrichedPayload : Type := mkPayload {
  userText : string;
  intent : RoutedIntent;
  contextSnippets : list string;
  payloadConfig : UserConfig.PersonalizationRuntime;
  goalContext : option (list string);
  classification : ClassificationMeta
}.

Record Output : Type := mkOutput {
  decision : RouteDecision;
  routedIntent : RoutedIntent;
  nativeIntent : IntentRouting.NativeIntent;
  payload : EnrichedPayload;
  redaction : Redactor.RedactionResult;
  contextRecords : list ScoredMemoryRecord;
  traceId : option string
}.

Variable custom : option Embeddings.Embedder.
Variable round_score : R -> Q.

Definition truthy (o : option string) : option string :=
  match o with
  | Some (String _ _ as s) => Some s
  | _ => None
  end.

Definition native_candidates (l : list Classifier.Candidate) : list (string * Q) :=
  map (fun c => (Classifier.to_native_label (fst c), snd c)) l.

Definition handle_utterance (rd : readings) (text : string)
  (options : HandleUtteranceOptions) (w : world)
  : awaited (result (Output * world)) :=
  let trimmed := strip text in
  if is_empty trimmed then Done (Raise "ValueError: Utterance text is empty")
  else
    let search_kinds :=
      match kindsOverride options with
      | Some ((_ :: _) as ks) => ks
      | _ => ["entry"; "goal"; "event"; "pref"]
      end in
    let '(context_records, memory') :=
      Memory.search_top_n custom round_score (search_ts rd)
        (Memory.mkSearch trimmed search_kinds
           (match o_topK options with Some k => k | None => 5%Z end))
        (memory w) in
    let context_options :=
      match truthy (userTimeZone options), truthy (coachingSuggestion options) with
      | None, None => None
      | tz, cs => Some (mkContextOptions tz cs)
      end in
    let scored_context_records :=
      score_context_records (now_hour rd) context_records context_options in
    let telemetry_retrieval :=
      map (fun r =>
             Telemetry.mkRetrieval (Memory.id (Memory.row (record r)))
               (Memory.kind (Memory.row (record r)))
               (round3 (compositeScore r)) (scoring r))
          scored_context_records in
    let cls :=
      Classifier.classify_riflett_intent (window w) trimmed
        (map record scored_context_records) in
    let native_intent :=
      IntentRouting.mkNative
        (Classifier.to_native_label (Classifier.label cls))
        (Classifier.confidence cls)
        (native_candidates (firstn 3 (Classifier.topCandidates cls)))
        (native_candidates (Classifier.topCandidates cls))
        (Some "riflett-heuristic-2025-11-07") [] (Some []) in
    let base_routed := IntentRouting.build_routed_intent native_intent None in
    match SlotFiller.fill trimmed base_routed (slot_now rd) with
    | Raise e => Done (Raise e)
    | Ok with_slots =>
    let redaction_ := Redactor.mask trimmed in
    await (_ensure_user_config (config_now rd) (userConfig options)
             (config_cache w))
    (fun '(runtime_user_config, cache') =>
    let goal_context_ :=
      if _should_load_goal_context trimmed with_slots cls
      then Some (firstn 5 (goal_context w)) else None in
    let payload_ :=
      mkPayload (Redactor.masked redaction_) with_slots
        (map (fun r => Memory.text (Memory.row (record r))) scored_context_records)
        runtime_user_config goal_context_
        (mkMeta (Classifier.label cls)
           (Classifier.to_native_label (Classifier.label cls))
           (Classifier.confidence cls) (Classifier.reasons cls)
           (Classifier.targetEntryId cls) (Classifier.targetEntryType cls)
           (Classifier.duplicateMatch cls)
           (native_candidates (Classifier.topCandidates cls))) in
    let decision_ := IntentRouting.route_intent with_slots in
    let '(trace_id, traces') :=
      Telemetry.record (nanoid rd) (trace_now rd)
        (Telemetry.mkParams (Redactor.masked redaction_) (label with_slots)
           (confidence with_slots) decision_ telemetry_retrieval
           (_summarize_redactions (Redactor.replacementMap redaction_))
           (started_at rd))
        (trace_store w) in
    Done (Ok (mkOutput decision_ with_slots native_intent payload_ redaction_
                scored_context_records (Some trace_id),
              mkWorld memory' (window w) cache' traces' (goal_context w))))
    end.

End WithMath.

(** The names under which the pipeline hands the six labels to the router,
    and the labels that the router gives them. *)
Definition routed_labels : list string :=
  [ "Conversational"; "EntryCreate"; "EntryDiscuss"; "EntryAppend"; "Command";
    "SearchQuery" ].

End Pipeline.

(* ===================================================================== *)
(** ** Reading patterns: what a match needs, where a word stands *)
(* ===================================================================== *)

Module ReAnalysis.

Import Py Re.

(** The 256 characters. *)
Definition all_ascii : list ascii := map ascii_of_nat (seq 0 256).

(** [needs P r]: a sufficient condition, read off the pattern, for every
    match of [r] to hold a character of the class [P]. *)
Fixpoint needs (P : ascii -> bool) (r : regex) : bool :=
  match r with
  | Eps => false
  | Chr p => forallb (fun c => implb (p c) (P c)) all_ascii
  | Seq r1 r2 => needs P r1 || needs P r2
  | Alt r1 r2 => needs P r1 && needs P r2
  | Rep r' lo _ => (0 <? lo) && needs P r'
  | Grp _ r' => needs P r'
  | Bnd => false
  | Bol => false
  | Eol => false
  | Look r' => needs P r'
  end.

(** No character of the text is in the class. *)
Definition free_of (P : ascii -> bool) (l : chars) : bool :=
  forallb (fun c => negb (P c)) l.

(** [st1] is a later position of the text in which [st] stands. *)
Definition later (st st1 : mstate) : Prop :=
  exists pre, rest st = pre ++ rest st1.

End ReAnalysis.

Module WordSearch.

Import Py Re.

(** [l] starts with the characters [cs], up to case. *)
Fixpoint ci_prefix (cs l : chars) : bool :=
  match cs, l with
  | [], _ => true
  | c :: cs', x :: l' => eqc_ci c x && ci_prefix cs' l'
  | _ :: _, [] => false
  end.

(** The character before the position reached after [cs]. *)
Fixpoint last_seen (cs l : chars) (pv : option ascii) : option ascii :=
  match cs, l with
  | _ :: cs', x :: l' => last_seen cs' l' (Some x)
  | _, _ => pv
  end.

(** The word [cs] stands at the position with [pv] before it and [l] after
    it: a word boundary, the characters up to case, a word boundary. *)
Definition word_at (cs : chars) (pv : option ascii) (l : chars) : bool :=
  xorb (is_word_opt pv) (is_word_opt (hd_error l))
  && ci_prefix cs l
  && xorb (is_word_opt (last_seen cs l pv))
          (is_word_opt (hd_error (skipn (List.length cs) l))).

(** The word stands at some position of the text. *)
Fixpoint occurs (cs : chars) (pv : option ascii) (l : chars) : bool :=
  word_at cs pv l ||
  match l with
  | [] => false
  | c :: tl => occurs cs (Some c) tl
  end.

(** The two words of [_find_relative_day] that overlap. *)
Definition day_after_tomorrow : chars := of_string "day after tomorrow".
Definition tomorrow : chars := of_string "tomorrow".

End WordSearch.

(* ===================================================================== *)
(** ** Inputs used in the statements *)
(* ===================================================================== *)

Module Examples.

Import Types.
Local Open Scope string_scope.

(** ContextWindow: a receipt followed by ten ordinary messages, one per
    millisecond. *)
Definition receipt_then_ten : list (Z * string) :=
  [ (1%Z, "payment confirmed"); (2%Z, "one"); (3%Z, "two"); (4%Z, "three");
    (5%Z, "four"); (6%Z, "five"); (7%Z, "six"); (8%Z, "seven");
    (9%Z, "eight"); (10%Z, "nine"); (11%Z, "ten") ].

(** A sequence of [record_user_message] calls, each with its clock. *)
Definition replay (calls : list (Z * string)) (w : ContextWindow.window)
  : ContextWindow.window :=
  fold_left (fun acc c => ContextWindow.record_user_message (fst c) (snd c) acc)
            calls w.

Definition four_idle_turns (t1 t2 t3 t4 : Z) (w : ContextWindow.window)
  : ContextWindow.window :=
  ContextWindow.advance_turn t4 false
    (ContextWindow.advance_turn t3 false
       (ContextWindow.advance_turn t2 false
          (ContextWindow.advance_turn t1 false w))).

(** Redactor: an e-mail address inside a street address. *)
Definition nested_text : string := "12 bob@x.com Street".

(** Memory: [n] rows, the row [i] with timestamp [i]. *)
Definition numbered (i : nat) : Z * Memory.UpsertOptions :=
  (0%Z, Memory.mkUpsert (Py.str_of_nat i) "entry" "note" (Some (Z.of_nat i))
          (Some [1%R])).
Definition numbered_calls (n : nat) : list (Z * Memory.UpsertOptions) :=
  map numbered (seq 0 n).

(** Routing: an intent with a given confidence. *)
Definition sample_intent (c : Q) : RoutedIntent :=
  mkRoutedIntent "EntryCreate" "Entry Create" c (Some "EntryAppend")
    (Some (62 # 100)%Q) [] [] None None None.

(** SlotFiller. *)
Definition call_text : string := "schedule a call next friday at 3pm".

Definition schedule_labeled (i : RoutedIntent) : Prop :=
  Py.contains "schedule"
    (Py.lower (if Py.is_empty (rawLabel i) then label i else rawLabel i)) = true.

Definition schedule_intent : RoutedIntent :=
  mkRoutedIntent "ScheduleCreate" "Schedule Create" (9 # 10) None None [] []
    None None None.

(** Monday 2024-01-01, 10:00 UTC. *)
Definition monday_morning : DateTime.datetime :=
  DateTime.mkDateTime 19723 10 0 0 0.

(** The claim about [call_text]: [start] names a Friday at 15:00 and [end]
    the time one hour after it. *)
Definition friday_start_and_end (s : Dict.t string) : Prop :=
  exists start_ end_ : DateTime.datetime,
    DateTime.weekday start_ = 4%Z
    /\ DateTime.hour start_ = 15%Z
    /\ Dict.get s "start" = Some (SlotFiller._minutes_to_iso start_)
    /\ DateTime.add_hours 1 start_ = Exc.Ok end_
    /\ Dict.get s "end" = Some (SlotFiller._minutes_to_iso end_).

(** Pipeline. *)
Definition mom_text : string := "remember to call mom tomorrow".

(** The readings of a run on Monday 2024-01-01 at 10:00 UTC. *)
Definition monday_run : Pipeline.readings :=
  Pipeline.mkReadings 1704103200000 1704103200001 10 monday_morning
    monday_morning 1704103200002 "V1StGXR8Z5jd".

(** Stand-ins for [math.sqrt], [math.exp] and the rounding of a score; no
    statement below depends on which functions they are. *)
Definition any_sqrt (x : Q) : Q := x.
Definition any_exp (x : Q) : Q := x.
Definition any_round (x : R) : Q := 0%Q.

(** ContextWindow: a full ring, the receipt and the nine messages after it. *)
Definition full_ring : ContextWindow.window :=
  replay (firstn 10 receipt_then_ten) ContextWindow.initial.

(** Memory: a full cache, a row older than every row of it, and a search. *)
Definition full_store : Memory.store :=
  Memory.upsert_all None (numbered_calls 512) Memory.initial.
Definition stale_row : Memory.UpsertOptions :=
  Memory.mkUpsert "old" "entry" "note" (Some (-1)%Z) (Some [1%R]).
Definition any_search : Memory.SearchOptions :=
  Memory.mkSearch "call mom" [] 5.

(** Classifier and SlotFiller: texts and an intent that carries a slot. *)
Definition question_text : string := "is this ok?".
Definition time_text : string := "at 3pm".
Definition minutes_text : string := "call mom for 45 minutes".
Definition bad_date_text : string := "meet on 2024-02-30".
Definition day_after_text : string := "call mom the day after tomorrow".
Definition mood_intent : RoutedIntent :=
  mkRoutedIntent "EntryCreate" "Entry Create" (9 # 10) None None
    [("mood", "calm")] [] None None None.

(** Intent definitions: the second row of the table. *)
Definition entry_create : IntentDefinitions.definition :=
  IntentDefinitions.mkDefinition "entry_create" "Entry Create" "entries"
    (Some "journal") false.

End Examples.

(* ===================================================================== *)
(** * Properties *)
(* ===================================================================== *)

(** Runs a closed call and puts its value in its place. *)
Ltac run_closed t :=
  let v := eval vm_compute in t in
  replace t with v by (vm_compute; reflexivity).

Ltac has_var t := match t with context [?x] => is_var x end.
Ltac closed t := tryif has_var t then fail else idtac.

(** Runs the calls on the text that depend on no variable of the goal. *)
Ltac run_calls :=
  repeat match goal with
  | |- context [Re.search ?r ?s] =>
      closed (Re.search r s); run_closed (Re.search r s)
  | |- context [Re.found ?r ?s] =>
      closed (Re.found r s); run_closed (Re.found r s)
  | |- context [Re.group ?n ?m] =>
      closed (Re.group n m); run_closed (Re.group n m)
  | |- context [SlotFiller.group_or_empty ?n ?m] =>
      closed (SlotFiller.group_or_empty n m);
      run_closed (SlotFiller.group_or_empty n m)
  | |- context [Dict.get ?d ?k] =>
      closed (Dict.get d k); run_closed (Dict.get d k)
  | |- context [Py.lower ?s] => closed (Py.lower s); run_closed (Py.lower s)
  | |- context [Py.is_empty ?s] =>
      closed (Py.is_empty s); run_closed (Py.is_empty s)
  | |- context [String.eqb ?a ?b] =>
      closed (String.eqb a b); run_closed (String.eqb a b)
  | |- context [SlotFiller.int_of ?s] =>
      closed (SlotFiller.int_of s); run_closed (SlotFiller.int_of s)
  | |- context [SlotFiller._clamp_value ?a ?b] =>
      closed (SlotFiller._clamp_value a b);
      run_closed (SlotFiller._clamp_value a b)
  | |- context [Py.contains ?a ?b] =>
      closed (Py.contains a b); run_closed (Py.contains a b)
  end.

Ltac step :=
  cbv beta iota zeta delta [andb orb negb Exc.bind SlotFiller.first_some].

Ltac split_ifs :=
  repeat match goal with
  | |- context [if ?b then _ else _] => destruct b
  end.

Module NumFacts.

Import Num.

Lemma qge_true (a b : Q) : qge a b = true <-> (b <= a)%Q.
Proof. unfold qge. apply Qle_bool_iff. Qed.

Lemma qge_false (a b : Q) : qge a b = false <-> (a < b)%Q.
Proof.
  unfold qge. split; intro H.
  - apply Qnot_le_lt. intro Hle. apply Qle_bool_iff in Hle. congruence.
  - destruct (Qle_bool b a) eqn:E; [|reflexivity].
    apply Qle_bool_iff in E. exfalso. exact (Qlt_not_le _ _ H E).
Qed.

End NumFacts.

Module SortingFacts.

Import Sorting.

Section Stable.
Variable A : Type.
Variable before : A -> A -> bool.

Lemma insert_perm (x : A) (l : list A) : Permutation (insert before x l) (x :: l).
Proof.
  induction l as [|y tl IH]; simpl.
  - apply Permutation_refl.
  - destruct (before x y).
    + apply Permutation_refl.
    + eapply Permutation_trans; [apply perm_skip; exact IH|apply perm_swap].
Qed.

Lemma sort_perm (l : list A) : Permutation (sort before l) l.
Proof.
  induction l as [|x tl IH]; simpl.
  - apply perm_nil.
  - eapply Permutation_trans; [apply insert_perm|apply perm_skip; exact IH].
Qed.

Lemma sort_length (l : list A) : List.length (sort before l) = List.length l.
Proof. apply Permutation_length, sort_perm. Qed.

Lemma insert_last (x : A) (l : list A) :
  Forall (fun y => before x y = false) l -> insert before x l = l ++ [x].
Proof.
  induction 1 as [|y tl Hy Htl IH]; simpl.
  - reflexivity.
  - rewrite Hy, IH. reflexivity.
Qed.

(** A list whose every element has to go behind the elements after it is
    sorted into its reverse. *)
Lemma sort_reverses (l : list A) :
  StronglySorted (fun x y => before x y = false) l -> sort before l = rev l.
Proof.
  induction 1 as [|x tl Hs IH Hall]; simpl.
  - reflexivity.
  - rewrite IH. apply insert_last.
    apply Forall_rev. exact Hall.
Qed.

Hypothesis before_total : forall x y, before x y = false -> before y x = true.
Hypothesis before_trans :
  forall x y z, before x y = true -> before y z = true -> before x z = true.

Lemma insert_sorted (x : A) (l : list A) :
  StronglySorted (ordered before) l ->
  StronglySorted (ordered before) (insert before x l).
Proof.
  induction 1 as [|y tl Hs IH Hall]; simpl.
  - constructor; constructor.
  - destruct (before x y) eqn:E.
    + constructor.
      * constructor; assumption.
      * constructor; [exact E|].
        eapply Forall_impl; [|exact Hall].
        intros z Hz. exact (before_trans E Hz).
    + constructor; [exact IH|].
      apply (Permutation_Forall (x := x :: tl)).
      * apply Permutation_sym, insert_perm.
      * constructor; [apply before_total; exact E|exact Hall].
Qed.

Lemma sort_sorted (l : list A) : StronglySorted (ordered before) (sort before l).
Proof.
  induction l as [|x tl IH]; simpl.
  - constructor.
  - apply insert_sorted, IH.
Qed.

End Stable.

Lemma sorted_impl (A : Type) (R S : A -> A -> Prop) (l : list A) :
  (forall a b, R a b -> S a b) -> StronglySorted R l -> StronglySorted S l.
Proof.
  intros HRS H. induction H as [|x tl Hs IH Hall].
  - constructor.
  - constructor; [exact IH|].
    eapply Forall_impl; [|exact Hall]. intros b Hb. apply HRS. exact Hb.
Qed.

Lemma sorted_skipn (A : Type) (R : A -> A -> Prop) (n : nat) (l : list A) :
  StronglySorted R l -> StronglySorted R (skipn n l).
Proof.
  revert l. induction n as [|n IH]; intros l H; simpl.
  - exact H.
  - destruct l as [|x tl]; [constructor|].
    apply IH. inversion H; assumption.
Qed.

Lemma sorted_rev (A : Type) (R : A -> A -> Prop) (l : list A) :
  StronglySorted R l -> StronglySorted (fun a b => R b a) (rev l).
Proof.
  induction 1 as [|x tl Hs IH Hall]; simpl.
  - constructor.
  - revert IH. generalize (rev tl) (@Forall_rev _ _ _ Hall). clear.
    intros l Hall Hs. induction Hs as [|y tl Hs IH Hy]; simpl.
    + constructor; constructor.
    + inversion Hall; subst. constructor.
      * apply IH. assumption.
      * apply Forall_app. split; [exact Hy|].
        constructor; [assumption|constructor].
Qed.

Lemma sorted_app (A : Type) (R : A -> A -> Prop) (a b : list A) :
  StronglySorted R a -> StronglySorted R b ->
  (forall x y, In x a -> In y b -> R x y) -> StronglySorted R (a ++ b).
Proof.
  intros Ha Hb Hab. induction Ha as [|x tl Hs IH Hall]; simpl.
  - exact Hb.
  - constructor.
    + apply IH. intros u v Hu Hv. apply Hab; [right; exact Hu|exact Hv].
    + apply Forall_app. split; [exact Hall|].
      apply Forall_forall. intros y Hy. apply Hab; [left; reflexivity|exact Hy].
Qed.

Lemma sorted_app_inv (A : Type) (R : A -> A -> Prop) (a b : list A) :
  StronglySorted R (a ++ b) -> forall x y, In x a -> In y b -> R x y.
Proof.
  induction a as [|h tl IH]; simpl; intros Hs x y Hx Hy.
  - contradiction.
  - inversion Hs as [|? ? Htl Hall]; subst.
    destruct Hx as [->|Hx].
    + rewrite Forall_forall in Hall. apply Hall. apply in_or_app. right. exact Hy.
    + exact (IH Htl x y Hx Hy).
Qed.

Lemma sorted_firstn (A : Type) (R : A -> A -> Prop) (n : nat) (l : list A) :
  StronglySorted R l -> StronglySorted R (firstn n l).
Proof.
  revert l. induction n as [|n IH]; intros l H; simpl.
  - constructor.
  - destruct l as [|x tl]; [constructor|].
    inversion H as [|? ? Htl Hall]; subst. constructor; [apply IH; assumption|].
    apply Forall_forall. intros y Hy.
    rewrite Forall_forall in Hall. apply Hall.
    rewrite <- (firstn_skipn n tl). apply in_or_app. left. exact Hy.
Qed.

Lemma sorted_filter (A : Type) (R : A -> A -> Prop) (f : A -> bool) (l : list A) :
  StronglySorted R l -> StronglySorted R (filter f l).
Proof.
  induction 1 as [|x tl Hs IH Hall]; simpl.
  - constructor.
  - destruct (f x); [|exact IH]. constructor; [exact IH|].
    apply Forall_forall. intros y Hy. apply filter_In in Hy.
    rewrite Forall_forall in Hall. apply Hall. exact (proj1 Hy).
Qed.

Lemma sort_desc_perm (A : Type) (key : A -> Z) (l : list A) :
  Permutation (sort_desc key l) l.
Proof. apply sort_perm. Qed.

Lemma sort_desc_length (A : Type) (key : A -> Z) (l : list A) :
  List.length (sort_desc key l) = List.length l.
Proof. apply sort_length. Qed.

Lemma sort_asc_length (A : Type) (key : A -> Z) (l : list A) :
  List.length (sort_asc key l) = List.length l.
Proof. apply sort_length. Qed.

(** In a list sorted by descending key, no element after a cut has a larger
    key than an element before it. *)
Lemma sort_desc_split (A : Type) (key : A -> Z) (l : list A) (n : nat) :
  forall x y,
    In x (firstn n (sort_desc key l)) -> In y (skipn n (sort_desc key l)) ->
    (key y <= key x)%Z.
Proof.
  intros x y Hx Hy.
  assert (Hs : StronglySorted (ordered (fun a b => (key b <=? key a)%Z))
                 (firstn n (sort_desc key l) ++ skipn n (sort_desc key l))).
  { rewrite firstn_skipn. apply sort_sorted.
    - intros a b H. apply Z.leb_gt in H. apply Z.leb_le. lia.
    - intros a b c H1 H2. apply Z.leb_le in H1, H2. apply Z.leb_le. lia. }
  apply Z.leb_le. exact (sorted_app_inv _ _ Hs x y Hx Hy).
Qed.

Lemma in_firstn (A : Type) (l : list A) (n : nat) (x : A) :
  In x (firstn n l) -> In x l.
Proof.
  intro H. rewrite <- (firstn_skipn n l). apply in_or_app. left. exact H.
Qed.

Lemma nodup_firstn (A : Type) (l : list A) (n : nat) : NoDup l -> NoDup (firstn n l).
Proof.
  intro H. rewrite <- (firstn_skipn n l) in H. exact (NoDup_app_remove_r _ _ H).
Qed.

End SortingFacts.

Module DictFacts.

Section WithValue.
Variable V : Type.

Lemma set_keys_mem (d : Dict.t V) (k : string) (v : V) :
  In k (Dict.keys d) -> Dict.keys (Dict.set d k v) = Dict.keys d.
Proof.
  induction d as [|[k0 v0] tl IH]; simpl; intro H.
  - contradiction.
  - destruct (String.eqb k0 k) eqn:E; simpl.
    + reflexivity.
    + f_equal. apply IH. destruct H as [H|H]; [|exact H].
      apply String.eqb_neq in E. contradiction.
Qed.

Lemma set_keys_new (d : Dict.t V) (k : string) (v : V) :
  ~ In k (Dict.keys d) -> Dict.set d k v = d ++ [(k, v)].
Proof.
  induction d as [|[k0 v0] tl IH]; simpl; intro H.
  - reflexivity.
  - destruct (String.eqb k0 k) eqn:E.
    + apply String.eqb_eq in E. exfalso. apply H. left. exact E.
    + f_equal. apply IH. intro Hin. apply H. right. exact Hin.
Qed.

Lemma set_nodup (d : Dict.t V) (k : string) (v : V) :
  NoDup (Dict.keys d) -> NoDup (Dict.keys (Dict.set d k v)).
Proof.
  intro H. destruct (in_dec string_dec k (Dict.keys d)) as [Hin|Hnin].
  - rewrite set_keys_mem by exact Hin. exact H.
  - rewrite set_keys_new by exact Hnin. unfold Dict.keys. rewrite map_app. simpl.
    apply NoDup_app.
    + exact H.
    + constructor; [intros []|constructor].
    + intros x Hx [Hk|[]]. subst x. contradiction.
Qed.

Lemma set_entries (d : Dict.t V) (k : string) (v : V) (P : string * V -> Prop) :
  Forall P d -> P (k, v) -> Forall P (Dict.set d k v).
Proof.
  intros Hd Hkv. induction d as [|[k0 v0] tl IH]; simpl.
  - constructor; [exact Hkv|constructor].
  - inversion Hd; subst. destruct (String.eqb k0 k) eqn:E.
    + apply String.eqb_eq in E. subst k0. constructor; assumption.
    + constructor; [assumption|apply IH; assumption].
Qed.

Lemma get_set_other (d : Dict.t V) (k k' : string) (v : V) :
  k <> k' -> Dict.get (Dict.set d k v) k' = Dict.get d k'.
Proof.
  intro Hne. induction d as [|[k0 v0] tl IH]; simpl.
  - destruct (String.eqb k k') eqn:E;
      [apply String.eqb_eq in E; contradiction|reflexivity].
  - destruct (String.eqb k0 k) eqn:E0; simpl.
    + apply String.eqb_eq in E0. subst k0.
      destruct (String.eqb k k') eqn:E;
        [apply String.eqb_eq in E; contradiction|reflexivity].
    + destruct (String.eqb k0 k'); [reflexivity|exact IH].
Qed.

End WithValue.

End DictFacts.

(* ===================================================================== *)
(** ** ContextWindow *)
(* ===================================================================== *)

Module ContextWindowFacts.

Import ContextWindow Examples SortingFacts.

(** The ring never holds more than [MAX_SEMANTIC_TURNS] messages. *)
Lemma prune_length (msgs : list RecentMessage) :
  List.length (_prune_low_signal_messages msgs) <= MAX_SEMANTIC_TURNS.
Proof.
  unfold _prune_low_signal_messages. rewrite length_skipn. lia.
Qed.

(** The ring is in timestamp order. *)
Lemma prune_sorted (msgs : list RecentMessage) :
  StronglySorted (fun a b => (ts a <= ts b)%Z) (_prune_low_signal_messages msgs).
Proof.
  unfold _prune_low_signal_messages.
  set (kept := Sorting.sort_asc ts _).
  assert (Hs : StronglySorted (fun a b => (ts a <= ts b)%Z) kept).
  { unfold kept, Sorting.sort_asc.
    apply (sorted_impl (R := Sorting.ordered (fun x y => (ts x <=? ts y)%Z))).
    - intros a b H. apply Z.leb_le. exact H.
    - apply sort_sorted.
      + intros a b H. apply Z.leb_gt in H. apply Z.leb_le. lia.
      + intros a b c H1 H2. apply Z.leb_le in H1, H2. apply Z.leb_le. lia. }
  apply sorted_skipn. exact Hs.
Qed.

(** What the loop keeps: the ten newest messages, and the receipts among
    the older ones. *)
Lemma kept_by_loop (l acc : list RecentMessage) :
  fold_left keep_step l acc =
  acc ++ firstn (MAX_SEMANTIC_TURNS - List.length acc) l
      ++ filter isReceipt (skipn (MAX_SEMANTIC_TURNS - List.length acc) l).
Proof.
  revert acc. induction l as [|m tl IH]; intro acc.
  - rewrite firstn_nil, skipn_nil. cbn [fold_left filter app].
    rewrite app_nil_r. reflexivity.
  - cbn [fold_left]. rewrite IH. unfold keep_step.
    destruct (List.length acc <? MAX_SEMANTIC_TURNS) eqn:E.
    + apply Nat.ltb_lt in E.
      assert (Hk : (if isReceipt m then acc ++ [m] else acc ++ [m]) = acc ++ [m])
        by (destruct (isReceipt m); reflexivity).
      rewrite Hk. rewrite length_app. cbn [List.length].
      replace (MAX_SEMANTIC_TURNS - List.length acc)
        with (S (MAX_SEMANTIC_TURNS - (List.length acc + 1))) by lia.
      cbn [firstn skipn]. rewrite <- !app_assoc. reflexivity.
    + apply Nat.ltb_ge in E.
      replace (MAX_SEMANTIC_TURNS - List.length acc) with 0 by lia.
      cbn [firstn skipn filter].
      destruct (isReceipt m).
      * rewrite length_app. cbn [List.length].
        replace (MAX_SEMANTIC_TURNS - (List.length acc + 1)) with 0 by lia.
        cbn [firstn skipn app]. rewrite <- app_assoc. reflexivity.
      * replace (MAX_SEMANTIC_TURNS - List.length acc) with 0 by lia.
        reflexivity.
Qed.

(** On a ring in strict timestamp order the pruning keeps the ten newest
    messages and nothing else: the receipts that the loop kept beyond the
    cap are the oldest of the kept messages, and the final loop pops them. *)
Lemma prune_keeps_the_ten_newest (msgs : list RecentMessage) :
  ascending msgs ->
  _prune_low_signal_messages msgs =
  skipn (List.length msgs - MAX_SEMANTIC_TURNS) msgs.
Proof.
  intro Hasc. unfold _prune_low_signal_messages.
  assert (Hd : Sorting.sort_desc ts msgs = rev msgs).
  { unfold Sorting.sort_desc. apply sort_reverses.
    eapply sorted_impl; [|exact Hasc].
    intros a b H. simpl in H. apply Z.leb_gt. exact H. }
  rewrite Hd, kept_by_loop. cbn [List.length app]. rewrite Nat.sub_0_r.
  set (new := firstn MAX_SEMANTIC_TURNS (rev msgs)).
  set (old := filter isReceipt (skipn MAX_SEMANTIC_TURNS (rev msgs))).
  assert (Hrev : descending (rev msgs)) by (apply sorted_rev; exact Hasc).
  assert (Hkept : descending (new ++ old)).
  { apply sorted_app.
    - apply sorted_firstn. exact Hrev.
    - apply sorted_filter, sorted_skipn. exact Hrev.
    - intros x y Hx Hy. apply filter_In in Hy. destruct Hy as [Hy _].
      rewrite <- (firstn_skipn MAX_SEMANTIC_TURNS (rev msgs)) in Hrev.
      exact (sorted_app_inv _ _ Hrev x y Hx Hy). }
  assert (Ha : Sorting.sort_asc ts (new ++ old) = rev (new ++ old)).
  { unfold Sorting.sort_asc. apply sort_reverses.
    eapply sorted_impl; [|exact Hkept].
    intros a b H. simpl in H. apply Z.leb_gt. exact H. }
  rewrite Ha, rev_app_distr.
  assert (Hnew : rev new = skipn (List.length msgs - MAX_SEMANTIC_TURNS) msgs).
  { unfold new. rewrite firstn_rev, rev_involutive. reflexivity. }
  rewrite length_app, length_rev.
  destruct (Nat.le_gt_cases MAX_SEMANTIC_TURNS (List.length msgs)) as [Hge|Hlt].
  - assert (Hlen : List.length (rev new) = MAX_SEMANTIC_TURNS).
    { rewrite length_rev. unfold new. rewrite length_firstn, length_rev. lia. }
    replace (List.length old + List.length (rev new) - MAX_SEMANTIC_TURNS)
      with (List.length (rev old)) by (rewrite length_rev; lia).
    rewrite skipn_app, skipn_all, Nat.sub_diag.
    cbn [skipn app]. exact Hnew.
  - assert (Hold : old = []).
    { unfold old. rewrite skipn_all2; [reflexivity|]. rewrite length_rev. lia. }
    rewrite Hold. cbn [rev app List.length Nat.add].
    replace (List.length (rev new) - MAX_SEMANTIC_TURNS) with 0
      by (rewrite length_rev; unfold new; rewrite length_firstn, length_rev; lia).
    cbn [skipn]. exact Hnew.
Qed.

(** X4. A message recorded at a time later than all messages of the ring
    leaves the ten newest messages in the ring, receipts or not. *)
Lemma record_keeps_the_ten_newest (now : Z) (txt : string) (w : window) :
  ascending (recent_messages w) ->
  Forall (fun m => (ts m < now)%Z) (recent_messages w) ->
  txt <> EmptyString ->
  recent_messages (record_user_message now txt w) =
  skipn (List.length (recent_messages w ++ [new_message now txt])
         - MAX_SEMANTIC_TURNS)
        (recent_messages w ++ [new_message now txt]).
Proof.
  intros Hasc Hnow Htxt.
  assert (Hring : recent_messages (record_user_message now txt w) =
                  _prune_low_signal_messages
                    (recent_messages w ++ [new_message now txt])).
  { unfold record_user_message, new_message.
    destruct txt as [|c tl]; [contradiction|]. cbn [Py.is_empty].
    destruct (state w) as [st|]; [|reflexivity].
    match goal with |- context [if ?b then _ else _] => destruct b end;
      reflexivity. }
  rewrite Hring. apply prune_keeps_the_ten_newest.
  apply sorted_app.
  - exact Hasc.
  - constructor; constructor.
  - intros x y Hx [<-|[]]. rewrite Forall_forall in Hnow.
    exact (Hnow x Hx).
Qed.

(** The ring is full and its oldest message is a receipt: the eleventh
    message takes its place. *)
Lemma record_keeps_the_ten_newest_witness :
  ascending (recent_messages Examples.full_ring)
  /\ Forall (fun m => (ts m < 11)%Z) (recent_messages Examples.full_ring)
  /\ List.length (recent_messages Examples.full_ring) = MAX_SEMANTIC_TURNS
  /\ map text (recent_messages Examples.full_ring)
     = ["payment confirmed"; "one"; "two"; "three"; "four"; "five"; "six";
        "seven"; "eight"; "nine"]%string
  /\ recent_messages (record_user_message 11 "ten" Examples.full_ring)
     = skipn 1 (recent_messages Examples.full_ring ++ [new_message 11 "ten"])
  /\ map text (recent_messages (record_user_message 11 "ten" Examples.full_ring))
     = ["one"; "two"; "three"; "four"; "five"; "six"; "seven"; "eight";
        "nine"; "ten"]%string.
Proof.
  assert (Ha : ascending (recent_messages Examples.full_ring)).
  { vm_compute. repeat constructor. }
  assert (Hn : Forall (fun m => (ts m < 11)%Z)
                 (recent_messages Examples.full_ring)).
  { vm_compute. repeat constructor. }
  assert (Ht : "ten"%string <> EmptyString) by discriminate.
  pose proof (@record_keeps_the_ten_newest 11 "ten" Examples.full_ring Ha Hn Ht)
    as H.
  split; [exact Ha|]. split; [exact Hn|].
  split; [vm_compute; reflexivity|].
  split; [vm_compute; reflexivity|].
  split.
  - rewrite H. vm_compute. reflexivity.
  - rewrite H. vm_compute. reflexivity.
Defined.

(** C3. The receipt sent first is in the ring after ten calls and gone after
    the eleventh, while every message that is not a receipt is kept: the
    last loop of [_prune_low_signal_messages] pops the oldest message,
    receipt or not. *)
Theorem receipt_is_pruned_first :
  let before := recent_messages (replay (firstn 10 receipt_then_ten) initial) in
  let after := recent_messages (replay receipt_then_ten initial) in
  map (fun m => (text m, isReceipt m)) before =
    [ ("payment confirmed", true); ("one", false); ("two", false);
      ("three", false); ("four", false); ("five", false); ("six", false);
      ("seven", false); ("eight", false); ("nine", false) ]%string
  /\ map (fun m => (text m, isReceipt m)) after =
    [ ("one", false); ("two", false); ("three", false); ("four", false);
      ("five", false); ("six", false); ("seven", false); ("eight", false);
      ("nine", false); ("ten", false) ]%string
  /\ existsb isReceipt after = false.
Proof. vm_compute. repeat split; reflexivity. Qed.

(** C8. After [register_entry "e1" "journal"] the snapshot is active with
    decay score 1; after three idle turns the score is 0.216 and the window
    is still active; 0.6^4 = 0.1296 is below the floor 0.2, and after the
    fourth idle turn there is no snapshot. *)
Theorem register_then_four_idle_turns :
  forall (w : window) (t0 t1 t2 t3 t4 : Z),
    let w0 := register_entry t0 "e1" "journal" w in
    snapshot w0 = Some (mkSnapshot "e1" "journal" t0 1 true)
    /\ (exists s, snapshot (advance_turn t3 false (advance_turn t2 false
                     (advance_turn t1 false w0))) = Some s
                  /\ (s_decayScore s == 0.216)%Q /\ s_isActive s = true)
    /\ (DECAY_FACTOR * DECAY_FACTOR * DECAY_FACTOR * DECAY_FACTOR == 0.1296)%Q
    /\ (0.1296 < MIN_ACTIVE_SCORE)%Q
    /\ snapshot (four_idle_turns t1 t2 t3 t4 w0) = None.
Proof.
  intros w t0 t1 t2 t3 t4 w0.
  split; [reflexivity|].
  split.
  - eexists. split; [reflexivity|]. split; reflexivity.
  - split; [reflexivity|]. split; reflexivity.
Qed.

End ContextWindowFacts.

(* ===================================================================== *)
(** ** IntentClassifier *)
(* ===================================================================== *)

Module ClassifierFacts.

Import Classifier.

(** C6. Whatever the memory records and the context window, ["/remind me"]
    is a command with confidence 0.99 and the empty text is conversational
    with confidence 0.6. *)
Theorem slash_is_command_and_empty_is_conversational :
  forall (w : ContextWindow.window) (context_records : list Memory.MemoryRecord),
    let c := classify_riflett_intent w "/remind me" context_records in
    let e := classify_riflett_intent w EmptyString context_records in
    label c = "command"%string /\ (confidence c == 0.99)%Q
    /\ label e = "conversational"%string /\ (confidence e == 0.6)%Q.
Proof.
  intros w context_records c e.
  repeat split; reflexivity.
Qed.

(** C10. The candidate list of every classification is not empty, starts
    with the returned label and confidence, and is in non-increasing order
    of confidence. *)
Theorem top_candidates_ranked :
  forall (w : ContextWindow.window) (text : string)
         (context_records : list Memory.MemoryRecord),
    let c := classify_riflett_intent w text context_records in
    topCandidates c <> []
    /\ hd_error (topCandidates c) = Some (label c, confidence c)
    /\ non_increasing (topCandidates c).
Proof.
  intros w text context_records c. subst c.
  set (good := fun c : Classification =>
         topCandidates c <> []
         /\ hd_error (topCandidates c) = Some (label c, confidence c)
         /\ non_increasing (topCandidates c)).
  change (good (classify_riflett_intent w text context_records)).
  unfold classify_riflett_intent. cbv zeta.
  repeat lazymatch goal with
  | |- good (if ?b then _ else _) => destruct b
  | |- good (match ?o with Some _ => _ | None => _ end) => destruct o
  end;
  unfold good; cbn [topCandidates label confidence hd_error non_increasing
                    _base_candidate fst snd];
  (split; [discriminate|split; [reflexivity|]]);
  split_ifs; repeat split; unfold Qle; simpl; lia.
Qed.

End ClassifierFacts.

(* ===================================================================== *)
(** ** IntentRouter *)
(* ===================================================================== *)

Module RoutingFacts.

Import Types IntentRouting Num NumFacts Examples.

(** C7. Confidence at or above 0.75 commits, with the secondary intent
    exactly when its confidence is at or above 0.6; from 0.45 up to 0.75 the
    decision is a question built from the label; below 0.45 it is the
    fallback.  So 0.80 commits, 0.50 clarifies and 0.10 falls back. *)
Theorem route_by_confidence :
  forall i : RoutedIntent,
    ((0.75 <= confidence i)%Q ->
       exists sec, route_intent i = Commit (label i) sec
         /\ (forall c2, secondConfidence i = Some c2 -> (0.6 <= c2)%Q ->
               sec = secondBest i)
         /\ (forall c2, secondConfidence i = Some c2 -> (c2 < 0.6)%Q -> sec = None)
         /\ (secondConfidence i = None -> sec = None))
    /\ ((0.45 <= confidence i)%Q -> (confidence i < 0.75)%Q ->
          route_intent i =
          Clarify ("Did you want to " ++
                   Py.replace (StringUtils.to_snake_case (label i)) "_" " " ++
                   "?")%string)
    /\ ((confidence i < 0.45)%Q -> route_intent i = Fallback)
    /\ ((confidence i == 0.80)%Q -> kind (route_intent i) = "commit"%string)
    /\ ((confidence i == 0.50)%Q -> kind (route_intent i) = "clarify"%string)
    /\ ((confidence i == 0.10)%Q -> kind (route_intent i) = "fallback"%string).
Proof.
  intro i.
  assert (Hc : (0.75 <= confidence i)%Q ->
       exists sec, route_intent i = Commit (label i) sec
         /\ (forall c2, secondConfidence i = Some c2 -> (0.6 <= c2)%Q ->
               sec = secondBest i)
         /\ (forall c2, secondConfidence i = Some c2 -> (c2 < 0.6)%Q -> sec = None)
         /\ (secondConfidence i = None -> sec = None)).
  { intro H. unfold route_intent.
    apply (qge_true (confidence i) ROUTE_AT_THRESHOLD) in H. rewrite H.
    eexists. split; [reflexivity|].
    destruct (secondConfidence i) as [c|].
    - repeat split.
      + intros c2 E Hge. inversion E; subst c2.
        apply (qge_true c SECONDARY_INTENT_THRESHOLD) in Hge. rewrite Hge.
        reflexivity.
      + intros c2 E Hlt. inversion E; subst c2.
        apply (qge_false c SECONDARY_INTENT_THRESHOLD) in Hlt. rewrite Hlt.
        reflexivity.
      + discriminate.
    - repeat split; try discriminate. }
  assert (Hq : (0.45 <= confidence i)%Q -> (confidence i < 0.75)%Q ->
          route_intent i =
          Clarify ("Did you want to " ++
                   Py.replace (StringUtils.to_snake_case (label i)) "_" " " ++
                   "?")%string).
  { intros H1 H2. unfold route_intent.
    apply (qge_false (confidence i) ROUTE_AT_THRESHOLD) in H2. rewrite H2.
    apply (qge_true (confidence i) CLARIFY_LOWER_THRESHOLD) in H1. rewrite H1.
    reflexivity. }
  assert (Hf : (confidence i < 0.45)%Q -> route_intent i = Fallback).
  { intro H. unfold route_intent.
    assert (H2 : (confidence i < ROUTE_AT_THRESHOLD)%Q).
    { eapply Qlt_trans; [exact H|]. reflexivity. }
    apply (qge_false (confidence i) ROUTE_AT_THRESHOLD) in H2. rewrite H2.
    apply (qge_false (confidence i) CLARIFY_LOWER_THRESHOLD) in H. rewrite H.
    reflexivity. }
  repeat split; try assumption.
  - intro E. destruct Hc as [sec [Hr _]].
    + rewrite E. unfold Qle; simpl; lia.
    + rewrite Hr. reflexivity.
  - intro E. rewrite Hq; [reflexivity | |]; rewrite E.
    + unfold Qle; simpl; lia.
    + reflexivity.
  - intro E. rewrite Hf; [reflexivity|]. rewrite E. reflexivity.
Qed.

Lemma route_by_confidence_witness :
  (0.75 <= confidence (sample_intent 0.80))%Q
  /\ (exists sec, route_intent (sample_intent 0.80) = Commit "EntryCreate" sec)
  /\ route_intent (sample_intent 0.50) = Clarify "Did you want to entry create?"
  /\ route_intent (sample_intent 0.10) = Fallback.
Proof.
  split; [unfold Qle; simpl; lia|].
  split.
  - destruct (proj1 (route_by_confidence (sample_intent 0.80))) as [sec [H _]].
    + unfold Qle; simpl; lia.
    + exists sec. exact H.
  - split.
    + apply (proj1 (proj2 (route_by_confidence (sample_intent 0.50)))).
      * unfold Qle; simpl; lia.
      * reflexivity.
    + apply (proj1 (proj2 (proj2 (route_by_confidence (sample_intent 0.10))))).
      reflexivity.
Defined.

End RoutingFacts.

(* ===================================================================== *)
(** ** Redactor *)
(* ===================================================================== *)

Module RedactorFacts.

Import Redactor Examples.

(** Texts without personal data are left as they are, and come back. *)
Lemma plain_text_round_trip :
  let r := mask mom_text in
  masked r = mom_text /\ replacementMap r = []
  /\ unmask (masked r) (replacementMap r) = mom_text.
Proof. vm_compute. repeat split; reflexivity. Qed.

(** C4. The text [nested_text] holds no bracket, so nothing in it looks
    like a placeholder.  Its e-mail address is masked first, the address
    pattern then takes the whole text with the e-mail placeholder inside,
    and [unmask], which replaces the placeholders in the order of the map,
    gives back the e-mail placeholder instead of the address. *)
Theorem nested_mask_is_not_restored :
  let r := mask nested_text in
  Py.contains "[" nested_text = false
  /\ masked r = "[ADDR_0]"%string
  /\ replacementMap r =
     [ ("[EMAIL_0]", "bob@x.com"); ("[ADDR_0]", "12 [EMAIL_0] Street") ]%string
  /\ unmask (masked r) (replacementMap r) = "12 [EMAIL_0] Street"%string
  /\ unmask (masked r) (replacementMap r) <> nested_text.
Proof. vm_compute. repeat split; try reflexivity. discriminate. Qed.

End RedactorFacts.

(* ===================================================================== *)
(** ** MemoryStore *)
(* ===================================================================== *)

Module MemoryFacts.

Import Memory SortingFacts DictFacts Examples.

Lemma well_keyed_ids (cache : Dict.t MemoryRow) :
  well_keyed cache -> map id (Dict.values cache) = Dict.keys cache.
Proof.
  intros [_ H]. unfold Dict.values, Dict.keys. rewrite map_map.
  induction H as [|[k r] tl Hk Htl IH]; simpl; [reflexivity|].
  simpl in Hk. rewrite <- Hk. f_equal. exact IH.
Qed.

Lemma pour_rows (rows : list MemoryRow) (acc : Dict.t MemoryRow) :
  NoDup (Dict.keys acc ++ map id rows) ->
  fold_left (fun d r => Dict.set d (id r) r) rows acc = acc ++ entries rows.
Proof.
  revert acc. induction rows as [|r tl IH]; intros acc Hnd; simpl.
  - rewrite app_nil_r. reflexivity.
  - assert (Hnew : ~ In (id r) (Dict.keys acc)).
    { intro Hin. apply NoDup_remove_2 in Hnd. apply Hnd.
      apply in_or_app. left. exact Hin. }
    rewrite (@set_keys_new _ acc (id r) r Hnew).
    rewrite IH.
    + rewrite <- app_assoc. reflexivity.
    + unfold Dict.keys in *. rewrite map_app. simpl. rewrite <- app_assoc.
      exact Hnd.
Qed.

Lemma dict_of_rows_entries (rows : list MemoryRow) :
  NoDup (map id rows) -> dict_of_rows rows = entries rows.
Proof. intro H. unfold dict_of_rows. rewrite pour_rows; [reflexivity|exact H]. Qed.

Lemma entries_values (rows : list MemoryRow) : Dict.values (entries rows) = rows.
Proof.
  unfold Dict.values, entries. rewrite map_map. simpl. apply map_id.
Qed.

Lemma entries_well_keyed (rows : list MemoryRow) :
  NoDup (map id rows) -> well_keyed (entries rows).
Proof.
  intro H. split.
  - unfold Dict.keys, entries. rewrite map_map. exact H.
  - unfold entries. apply Forall_forall. intros kv Hin.
    apply in_map_iff in Hin. destruct Hin as [r [<- _]]. reflexivity.
Qed.

Lemma newest_nodup (cache : Dict.t MemoryRow) :
  well_keyed cache -> NoDup (map id (newest cache)).
Proof.
  intro H. unfold newest. rewrite <- firstn_map. apply nodup_firstn.
  apply (Permutation_NoDup (l := map id (Dict.values cache))).
  - apply Permutation_map, Permutation_sym, sort_desc_perm.
  - rewrite well_keyed_ids by exact H. exact (proj1 H).
Qed.

Section WithEmbedder.
Variable custom : option Embeddings.Embedder.

Lemma upsert_cache_cases (now : Z) (options : UpsertOptions)
  (cache : Dict.t MemoryRow) :
  upsert_cache custom now options cache =
  if MAX_CACHED_ROWS <? List.length (stored custom now options cache)
  then dict_of_rows (newest (stored custom now options cache))
  else stored custom now options cache.
Proof. reflexivity. Qed.

Lemma stored_well_keyed (now : Z) (options : UpsertOptions)
  (cache : Dict.t MemoryRow) :
  well_keyed cache -> well_keyed (stored custom now options cache).
Proof.
  intros [Hn Hf]. split.
  - apply set_nodup. exact Hn.
  - apply set_entries; [exact Hf|reflexivity].
Qed.

Lemma upsert_cache_well_keyed (now : Z) (options : UpsertOptions)
  (cache : Dict.t MemoryRow) :
  well_keyed cache -> well_keyed (upsert_cache custom now options cache).
Proof.
  intro H. rewrite upsert_cache_cases.
  pose proof (stored_well_keyed now options H) as Hs.
  destruct (MAX_CACHED_ROWS <? _).
  - rewrite dict_of_rows_entries by (apply newest_nodup; exact Hs).
    apply entries_well_keyed, newest_nodup. exact Hs.
  - exact Hs.
Qed.

Lemma upsert_all_well_keyed (calls : list (Z * UpsertOptions)) (s : store) :
  well_keyed (_memory_cache s) ->
  well_keyed (_memory_cache (upsert_all custom calls s)).
Proof.
  revert s. induction calls as [|c tl IH]; intros s H; simpl.
  - exact H.
  - apply IH. simpl. apply upsert_cache_well_keyed. exact H.
Qed.

Lemma upsert_all_snoc (calls : list (Z * UpsertOptions)) (c : Z * UpsertOptions)
  (s : store) :
  upsert_all custom (calls ++ [c]) s
  = upsert custom (fst c) (snd c) (upsert_all custom calls s).
Proof. unfold upsert_all. rewrite fold_left_app. reflexivity. Qed.

(** C5. After every call of a sequence of [upsert] calls the cache holds at
    most [MAX_CACHED_ROWS] = 512 rows.  When the row just stored takes the
    count over the capacity, exactly 512 rows stay, all of them rows that
    were stored, and no dropped row has a newer timestamp than a kept one. *)
Theorem upsert_keeps_newest_rows :
  forall (calls : list (Z * UpsertOptions)) (now : Z) (options : UpsertOptions),
    let before := _memory_cache (upsert_all custom calls initial) in
    let inserted := stored custom now options before in
    let after :=
      _memory_cache (upsert_all custom (calls ++ [(now, options)]) initial) in
    MAX_CACHED_ROWS = 512
    /\ List.length after <= MAX_CACHED_ROWS
    /\ (List.length inserted <= MAX_CACHED_ROWS -> after = inserted)
    /\ (MAX_CACHED_ROWS < List.length inserted ->
          List.length after = MAX_CACHED_ROWS
          /\ (forall r, In r (Dict.values after) -> In r (Dict.values inserted))
          /\ (forall kept dropped,
                In kept (Dict.values after) ->
                In dropped (Dict.values inserted) ->
                ~ In dropped (Dict.values after) ->
                (ts dropped <= ts kept)%Z)).
Proof.
  intros calls now options before inserted after.
  assert (Hwk : well_keyed before).
  { apply upsert_all_well_keyed. split; constructor. }
  assert (Hafter : after = upsert_cache custom now options before).
  { unfold after. rewrite upsert_all_snoc. reflexivity. }
  pose proof (stored_well_keyed now options Hwk) as Hin. fold inserted in Hin.
  rewrite Hafter, upsert_cache_cases. fold inserted.
  split; [reflexivity|].
  destruct (MAX_CACHED_ROWS <? List.length inserted) eqn:E.
  - apply Nat.ltb_lt in E.
    rewrite dict_of_rows_entries by (apply newest_nodup; exact Hin).
    assert (Hlen : List.length (entries (newest inserted)) = MAX_CACHED_ROWS).
    { unfold entries, newest. rewrite length_map, length_firstn, sort_desc_length.
      unfold Dict.values. rewrite length_map. lia. }
    split; [lia|]. split; [lia|]. intros _.
    split; [exact Hlen|]. rewrite entries_values. split.
    + intros r Hr. unfold newest in Hr. apply in_firstn in Hr.
      apply (Permutation_in r (sort_desc_perm ts (Dict.values inserted))).
      exact Hr.
    + intros kept dropped Hk Hd Hnot.
      apply (sort_desc_split ts (Dict.values inserted) MAX_CACHED_ROWS);
        [exact Hk|].
      apply (Permutation_in dropped
               (Permutation_sym (sort_desc_perm ts (Dict.values inserted))))
        in Hd.
      rewrite <- (firstn_skipn MAX_CACHED_ROWS) in Hd.
      apply in_app_or in Hd. destruct Hd as [Hd|Hd]; [contradiction|exact Hd].
  - apply Nat.ltb_ge in E. split; [exact E|]. split; [reflexivity|]. lia.
Qed.

End WithEmbedder.

(** The 513th row takes the cache over the capacity: 512 rows stay, and the
    row with the oldest timestamp, row 0, is the one dropped. *)
Lemma upsert_keeps_newest_rows_witness :
  MAX_CACHED_ROWS <
    List.length (stored None 0 (snd (numbered 512))
                   (_memory_cache (upsert_all None (numbered_calls 512) initial)))
  /\ List.length
       (_memory_cache
          (upsert_all None (numbered_calls 512 ++ [numbered 512]) initial))
     = MAX_CACHED_ROWS.
Proof.
  assert (H : MAX_CACHED_ROWS <
    List.length (stored None 0 (snd (numbered 512))
                   (_memory_cache (upsert_all None (numbered_calls 512) initial)))).
  { apply Nat.ltb_lt. vm_compute. reflexivity. }
  split; [exact H|].
  exact (proj1 (proj2 (proj2 (proj2
           (upsert_keeps_newest_rows None (numbered_calls 512) 0
              (snd (numbered 512)))))
         H)).
Defined.

Lemma oldest_row_is_dropped :
  map fst (firstn 2 (rev (_memory_cache
                            (upsert_all None (numbered_calls 513) initial))))
  = ["1"; "2"]%string.
Proof. vm_compute. reflexivity. Qed.

End MemoryFacts.

(* ===================================================================== *)
(** ** Embedder *)
(* ===================================================================== *)

Module EmbeddingFacts.

Import Embeddings.

Lemma add_at_length (idx : nat) (d : R) (v : vector) :
  List.length (add_at idx d v) = List.length v.
Proof.
  revert idx. induction v as [|x tl IH]; intros [|i]; simpl; try reflexivity.
  rewrite IH. reflexivity.
Qed.

Lemma fallback_loop_length (raw_bytes : Py.chars) (index hash_value : Z)
  (v : vector) :
  List.length (fallback_loop raw_bytes index hash_value v) = List.length v.
Proof.
  revert index hash_value v.
  induction raw_bytes as [|b tl IH]; intros index hash_value v; simpl.
  - reflexivity.
  - rewrite IH. apply add_at_length.
Qed.

Lemma zeros_length (n : nat) : List.length (zeros n) = n.
Proof. apply repeat_length. Qed.

Lemma sum_sq_nonneg (v : vector) : (0 <= sum_sq v)%R.
Proof.
  induction v as [|x tl IH]; simpl.
  - lra.
  - pose proof (Rle_0_sqr x) as H. unfold Rsqr in H. lra.
Qed.

Lemma sum_sq_zeros (n : nat) : sum_sq (zeros n) = 0%R.
Proof.
  induction n as [|n IH]; simpl; [reflexivity|].
  unfold zeros in IH. rewrite IH. lra.
Qed.

Lemma sum_sq_all_zero (v : vector) : sum_sq (map (fun _ => 0%R) v) = 0%R.
Proof.
  induction v as [|x tl IH]; simpl; [reflexivity|]. rewrite IH. lra.
Qed.

Lemma sum_sq_scaled (v : vector) (c : R) :
  sum_sq (map (fun x => (x / c)%R) v) = (sum_sq v / (c * c))%R.
Proof.
  induction v as [|x tl IH]; simpl.
  - unfold Rdiv. lra.
  - rewrite IH. unfold Rdiv.
    destruct (Req_dec c 0) as [->|Hc].
    + rewrite Rmult_0_l. rewrite Rinv_0. lra.
    + rewrite Rinv_mult. field. exact Hc.
Qed.


(** A vector of positive norm is normalised to a unit vector. *)
Lemma l2_normalize_unit (v : vector) :
  (0 < l2_norm v)%R -> sum_sq (l2_normalize v) = 1%R.
Proof.
  intro H. unfold l2_normalize.
  destruct (Rle_dec (l2_norm v) 0) as [Hle|_]; [lra|].
  rewrite sum_sq_scaled. unfold l2_norm in *.
  rewrite sqrt_sqrt by apply sum_sq_nonneg.
  assert (Hs : (0 < sum_sq v)%R).
  { destruct (Rle_lt_or_eq_dec 0 (sum_sq v) (sum_sq_nonneg v)) as [Hlt|Heq];
      [exact Hlt|]. rewrite <- Heq, sqrt_0 in H. lra. }
  field. lra.
Qed.

(** A vector of norm zero is normalised to a zero vector. *)
Lemma l2_normalize_zero (v : vector) :
  (l2_norm v <= 0)%R -> sum_sq (l2_normalize v) = 0%R.
Proof.
  intro H. unfold l2_normalize.
  destruct (Rle_dec (l2_norm v) 0) as [_|Hn]; [|contradiction].
  destruct v; [apply sum_sq_zeros|apply sum_sq_all_zero].
Qed.









End EmbeddingFacts.

(* ===================================================================== *)
(** ** SlotFiller *)
(* ===================================================================== *)

Module SlotFacts.

Import Py Re Exc DateTime Types SlotFiller Examples DictFacts.

Lemma add_days_valid (d : Z) (t : datetime) :
  valid t -> (MIN_DAY <= day t + d <= MAX_DAY)%Z ->
  add_days d t =
  Ok (mkDateTime (day t + d) (hour t) (minute t) (second t) (microsecond t)).
Proof.
  intros (Hd & Hh & Hm & Hs & Hu) Hr.
  unfold add_days, add_delta.
  set (total := (hour t * 3600 + minute t * 60 + second t + 0)%Z).
  assert (Ht : (0 <= total < 86400)%Z) by (unfold total; lia).
  assert (Hq : (total / 86400 = 0)%Z) by (apply Z.div_small; lia).
  assert (Hmod : (total mod 86400 = total)%Z) by (apply Z.mod_small; lia).
  rewrite Hq, Hmod, Z.add_0_r.
  replace ((MIN_DAY <=? day t + d)%Z && (day t + d <=? MAX_DAY)%Z) with true
    by (symmetry; apply andb_true_iff; split; apply Z.leb_le; lia).
  f_equal. f_equal.
  - unfold total.
    replace (hour t * 3600 + minute t * 60 + second t + 0)%Z
      with ((minute t * 60 + second t) + hour t * 3600)%Z by lia.
    rewrite Z.div_add by lia. rewrite Z.div_small by lia. lia.
  - unfold total.
    replace (hour t * 3600 + minute t * 60 + second t + 0)%Z
      with ((minute t * 60 + second t) + hour t * 3600)%Z by lia.
    rewrite Z.mod_add by lia. rewrite Z.mod_small by lia.
    replace (minute t * 60 + second t)%Z with (second t + minute t * 60)%Z by lia.
    rewrite Z.div_add by lia. rewrite Z.div_small by lia. lia.
  - unfold total.
    replace (hour t * 3600 + minute t * 60 + second t + 0)%Z
      with (second t + (hour t * 60 + minute t) * 60)%Z by lia.
    rewrite Z.mod_add by lia. rewrite Z.mod_small by lia. reflexivity.
Qed.

(** The weekday pattern finds "next friday"; the day offset is computed from
    the index 5 of [WEEKDAY_ORDER] and from [now.weekday()]. *)
Lemma find_weekday_call (now : datetime) :
  _find_weekday call_text now =
  (let d0 := ((5 - weekday now + 7) mod 7)%Z in
   do target <- add_days (if (d0 =? 0)%Z then 7%Z else d0) now; Ok (Some target)).
Proof.
  unfold _find_weekday.
  run_calls. step. run_calls. step. run_calls. step.
  destruct ((5 - weekday now + 7) mod 7 =? 0)%Z; reflexivity.
Qed.

Lemma find_relative_call (now : datetime) :
  _find_relative_day call_text now = Ok None.
Proof. unfold _find_relative_day. run_calls. reflexivity. Qed.

Lemma find_explicit_call (now : datetime) :
  _find_explicit_date call_text now = Ok None.
Proof. unfold _find_explicit_date. run_calls. reflexivity. Qed.

(** The clock pattern finds "at 3pm": 15:00. *)
Lemma apply_time_call (seed : option datetime) (now : datetime) :
  _apply_time call_text seed now =
  Some (replace_time 15 0 (match seed with Some s => s | None => now end)).
Proof.
  unfold _apply_time.
  run_calls. step. run_calls. step. run_calls. step. run_calls. step.
  reflexivity.
Qed.

(** C2, amended.  For every well-formed [now] at least seven days before the
    last day of the calendar and every schedule-labeled intent, the slots of
    [call_text] are those of the intent with [start] set to 15:00:00 UTC of
    a day one to seven days after [now]; no [end] slot is written, because
    the text gives a clock time. *)
Theorem next_friday_at_3pm :
  forall (now : datetime) (intent : RoutedIntent),
    valid now -> (day now + 7 <= MAX_DAY)%Z -> schedule_labeled intent ->
    exists d : Z,
      (1 <= d <= 7)%Z
      /\ _derive_slots call_text intent now =
         Ok (Dict.set (slots intent) "start"
               (_minutes_to_iso (mkDateTime (day now + d) 15 0 0 0)))
      /\ Dict.get (Dict.set (slots intent) "start"
               (_minutes_to_iso (mkDateTime (day now + d) 15 0 0 0))) "end"
         = Dict.get (slots intent) "end".
Proof.
  intros now intent Hv Hmax Hs.
  set (d0 := ((5 - weekday now + 7) mod 7)%Z).
  set (d := if (d0 =? 0)%Z then 7%Z else d0).
  assert (Hd0 : (0 <= d0 < 7)%Z) by (apply Z.mod_pos_bound; lia).
  assert (Hd : (1 <= d <= 7)%Z).
  { unfold d. destruct (d0 =? 0)%Z eqn:E; [lia|]. apply Z.eqb_neq in E. lia. }
  exists d. split; [exact Hd|]. split; [|apply get_set_other; discriminate].
  unfold _derive_slots.
  rewrite find_weekday_call, find_relative_call, find_explicit_call.
  fold d0. cbv zeta. fold d.
  destruct Hv as (Hday & Hh & Hm & Hsec & Hu).
  rewrite add_days_valid by (unfold valid; lia).
  step.
  rewrite !apply_time_call. step.
  unfold replace_time.
  change (day {| day := day now + d; hour := hour now; minute := minute now;
                 second := second now; microsecond := microsecond now |})
    with (day now + d)%Z.
  set (cd := mkDateTime (day now + d) 15 0 0 0).
  assert (Hlt : ltb cd now = false).
  { unfold ltb, micros, cd. simpl. apply Z.ltb_ge. lia. }
  assert (Hens : (if contains "schedule" (lower (label intent))
                  then _ensure_past_is_future cd now else Ok cd) = Ok cd).
  { unfold _ensure_past_is_future. rewrite Hlt.
    destruct (contains "schedule" (lower (label intent))); reflexivity. }
  rewrite Hens. step.
  unfold schedule_labeled in Hs. rewrite Hs. step.
  run_calls. step.
  split_ifs; reflexivity.
Qed.

Lemma next_friday_at_3pm_witness :
  exists d : Z,
    (1 <= d <= 7)%Z
    /\ _derive_slots call_text schedule_intent monday_morning =
       Ok [("start"%string, _minutes_to_iso (mkDateTime (19723 + d) 15 0 0 0))].
Proof.
  destruct (@next_friday_at_3pm monday_morning schedule_intent) as [d [Hd [H _]]].
  - unfold valid, MIN_DAY, MAX_DAY; simpl; lia.
  - unfold MAX_DAY; simpl; lia.
  - reflexivity.
  - exists d. split; [exact Hd|exact H].
Defined.

(** C2, as stated, fails on Monday 2024-01-01 at 10:00 UTC: the only slot is
    [start], on 2024-01-06, a Saturday (weekday 5; Friday is 4), and there
    is no [end] slot. *)
Lemma next_friday_at_3pm_counterexample :
  _derive_slots call_text schedule_intent monday_morning
    = Ok [("start"%string, "2024-01-06T15:00:00Z"%string)]
  /\ weekday (mkDateTime (days_from_civil 2024 1 6) 15 0 0 0) = 5%Z
  /\ weekday (mkDateTime (days_from_civil 2024 1 5) 15 0 0 0) = 4%Z
  /\ ~ (exists s, _derive_slots call_text schedule_intent monday_morning = Ok s
                  /\ friday_start_and_end s).
Proof.
  assert (H : _derive_slots call_text schedule_intent monday_morning
              = Ok [("start"%string, "2024-01-06T15:00:00Z"%string)])
    by (vm_compute; reflexivity).
  split; [exact H|]. split; [reflexivity|]. split; [reflexivity|].
  intros (s & Hs & (start_ & end_ & _ & _ & _ & _ & Hend)).
  rewrite H in Hs. inversion Hs; subst s. discriminate Hend.
Qed.

End SlotFacts.

(* ===================================================================== *)
(** ** Pipeline *)
(* ===================================================================== *)

Module PipelineFacts.

Import Py Re Exc DateTime Types SlotFiller Pipeline Examples.

(** A search in the empty store of a fresh process finds nothing and leaves
    the store as it is. *)
Lemma search_in_empty_store (custom : option Embeddings.Embedder)
  (round_score : R -> Q) (now_ts : Z) (options : Memory.SearchOptions) :
  Memory.search_top_n custom round_score now_ts options Memory.initial
  = ([], Memory.initial).
Proof.
  unfold Memory.search_top_n.
  destruct (is_empty (strip (Memory.q_query options))); [reflexivity|].
  change (Memory._user_id Memory.initial) with (@None string).
  change (Dict.values (Memory._memory_cache Memory.initial))
    with (@nil Memory.MemoryRow).
  cbv beta iota.
  unfold Memory._cosine_scores.
  cbn [filter map Sorting.sort_desc_q Sorting.sort fold_right].
  rewrite firstn_nil. reflexivity.
Qed.

(** For an intent labeled [EntryCreate] the date found for "tomorrow" goes
    into no slot: the slots are those of the intent. *)
Lemma derive_slots_mom (now : datetime) (intent : RoutedIntent) :
  valid now -> (day now + 1 <= MAX_DAY)%Z ->
  label intent = "EntryCreate"%string ->
  rawLabel intent = "Entry Create"%string ->
  _derive_slots mom_text intent now = Ok (slots intent).
Proof.
  intros Hv Hmax Hl Hr.
  unfold _derive_slots. rewrite Hl, Hr.
  unfold _find_weekday, _find_relative_day, _find_explicit_date, _apply_time.
  run_calls. step.
  assert (Ha : exists t, add_days 1 now = Ok t).
  { unfold add_days, add_delta.
    destruct Hv as (Hd & Hh & Hm & Hs & Hu).
    rewrite Z.div_small by lia.
    replace ((MIN_DAY <=? day now + 1 + 0)%Z && (day now + 1 + 0 <=? MAX_DAY)%Z)
      with true by (symmetry; apply andb_true_iff; split; apply Z.leb_le; lia).
    eexists. reflexivity. }
  destruct Ha as [t Ht]. rewrite Ht. step.
  run_calls. step. run_calls. step.
  split_ifs; reflexivity.
Qed.

Lemma fill_mom (now : datetime) (intent : RoutedIntent) :
  valid now -> (day now + 1 <= MAX_DAY)%Z ->
  label intent = "EntryCreate"%string ->
  rawLabel intent = "Entry Create"%string ->
  fill mom_text intent now = Ok (with_slots intent (slots intent)).
Proof.
  intros Hv Hmax Hl Hr. unfold fill.
  rewrite (@derive_slots_mom now intent Hv Hmax Hl Hr). reflexivity.
Qed.

Section Run.
Variables (sqrt_f exp_f : Q -> Q) (custom : option Embeddings.Embedder)
          (round_score : R -> Q).

(** C1, amended.  In a fresh process, whatever the clock (a well-formed
    time before the last day of the calendar) and the numeric collaborators,
    [handle_utterance "remember to call mom tomorrow" {}] returns: the
    decision is the commit of [EntryCreate] with secondary [EntryAppend], the
    masked text is the text itself, and the slots are empty. *)
Theorem call_mom_tomorrow :
  forall rd : readings,
    valid (slot_now rd) -> (day (slot_now rd) + 1 <= MAX_DAY)%Z ->
    exists (out : Output) (w' : world),
      handle_utterance sqrt_f exp_f custom round_score rd mom_text no_options
        initial_world = Done (Ok (out, w'))
      /\ decision out = Commit "EntryCreate" (Some "EntryAppend"%string)
      /\ kind (decision out) = "commit"%string
      /\ Redactor.masked (redaction out) = mom_text
      /\ userText (payload out) = mom_text
      /\ mom_text <> EmptyString
      /\ slots (routedIntent out) = [].
Proof.
  intros rd Hv Hmax.
  unfold handle_utterance.
  run_closed (strip mom_text).
  run_closed (is_empty "remember to call mom tomorrow").
  cbv beta iota.
  change (memory initial_world) with Memory.initial.
  rewrite search_in_empty_store.
  cbv beta iota zeta.
  match goal with
  | |- context [fill ?a ?b ?c] =>
      replace (fill a b c) with (Ok (with_slots b (slots b)))
        by (symmetry; apply (@fill_mom c b Hv Hmax); vm_compute; reflexivity)
  end.
  cbv beta iota.
  eexists. eexists. split; [reflexivity|].
  repeat split; try (vm_compute; reflexivity). discriminate.
Qed.

End Run.

Lemma call_mom_tomorrow_witness :
  exists (out : Output) (w' : world),
    handle_utterance any_sqrt any_exp None any_round monday_run mom_text
      no_options initial_world = Done (Ok (out, w'))
    /\ decision out = Commit "EntryCreate" (Some "EntryAppend"%string)
    /\ slots (routedIntent out) = [].
Proof.
  destruct (@call_mom_tomorrow any_sqrt any_exp None any_round monday_run)
    as (out & w' & H & Hd & _ & _ & _ & _ & Hs).
  - unfold valid, MIN_DAY, MAX_DAY; simpl; lia.
  - unfold MAX_DAY; simpl; lia.
  - exists out, w'. split; [exact H|]. split; [exact Hd|exact Hs].
Defined.

(** C1, as stated, fails: the run of Monday 2024-01-01 at 10:00 UTC returns
    a routed intent that has no slot at all, so none that holds a date. *)
Lemma call_mom_tomorrow_counterexample :
  ~ (exists (out : Output) (w' : world) (k v : string),
       handle_utterance any_sqrt any_exp None any_round monday_run mom_text
         no_options initial_world = Done (Ok (out, w'))
       /\ Dict.get (slots (routedIntent out)) k = Some v).
Proof.
  intros (out & w' & k & v & H & Hg).
  assert (Hs : match handle_utterance any_sqrt any_exp None any_round monday_run
                       mom_text no_options initial_world with
               | Done (Ok (o, _)) => slots (routedIntent o)
               | Done (Raise e) => [(e, e)]
               | Waits => [(mom_text, mom_text)]
               end = []) by (vm_compute; reflexivity).
  rewrite H in Hs. rewrite Hs in Hg. discriminate Hg.
Qed.

End PipelineFacts.

(* ===================================================================== *)
(** ** Numbers, sorting, strings and dictionaries *)
(* ===================================================================== *)

Module NumLaws.

Import Num.

Lemma qlt_false (a b : Q) : qlt a b = false -> (b <= a)%Q.
Proof.
  unfold qlt. intro H. apply Qle_bool_iff.
  destruct (Qle_bool b a); [reflexivity|discriminate].
Qed.

Lemma qmin_le_l (a b : Q) : (qmin a b <= a)%Q.
Proof.
  unfold qmin. destruct (Qle_bool a b) eqn:E.
  - apply Qle_refl.
  - apply Qlt_le_weak. apply Qnot_le_lt. intro H. apply Qle_bool_iff in H. congruence.
Qed.

Lemma qmin_glb (a b c : Q) : (c <= a)%Q -> (c <= b)%Q -> (c <= qmin a b)%Q.
Proof. intros Ha Hb. unfold qmin. destruct (Qle_bool a b); assumption. Qed.

Lemma q_of_nat_nonneg (n : nat) : (0 <= q_of_nat n)%Q.
Proof. unfold q_of_nat, Qle. simpl. lia. Qed.

End NumLaws.

Module SortingLaws.

Import Sorting SortingFacts.

Lemma sort_desc_sorted (A : Type) (key : A -> Z) (l : list A) :
  StronglySorted (fun a b => (key b <= key a)%Z) (Sorting.sort_desc key l).
Proof.
  unfold Sorting.sort_desc.
  apply (sorted_impl (R := Sorting.ordered (fun x y => (key y <=? key x)%Z))).
  - intros a b H. apply Z.leb_le. exact H.
  - apply sort_sorted.
    + intros a b H. apply Z.leb_gt in H. apply Z.leb_le. lia.
    + intros a b c H1 H2. apply Z.leb_le in H1, H2. apply Z.leb_le. lia.
Qed.

Lemma sort_desc_q_sorted (A : Type) (key : A -> Q) (l : list A) :
  StronglySorted (fun a b => (key b <= key a)%Q) (Sorting.sort_desc_q key l).
Proof.
  unfold Sorting.sort_desc_q.
  apply (sorted_impl (R := Sorting.ordered (fun x y => Qle_bool (key y) (key x)))).
  - intros a b H. apply Qle_bool_iff. exact H.
  - apply sort_sorted.
    + intros a b H. apply Qle_bool_iff. apply Qlt_le_weak. apply Qnot_le_lt.
      intro Hle. apply Qle_bool_iff in Hle. congruence.
    + intros a b c H1 H2. apply Qle_bool_iff in H1, H2. apply Qle_bool_iff.
      eapply Qle_trans; eassumption.
Qed.

(** An element that is at least as new as all others goes first. *)
Lemma insert_first (A : Type) (key : A -> Z) (x : A) (l : list A) :
  Forall (fun y => (key y <= key x)%Z) l ->
  Sorting.insert (fun a b => (key b <=? key a)%Z) x l = x :: l.
Proof.
  intro H. destruct l as [|y tl]; simpl; [reflexivity|].
  apply Forall_inv in H. apply Z.leb_le in H. rewrite H. reflexivity.
Qed.

End SortingLaws.

Module StringLaws.

Import Py.

Lemma of_to_string (l : chars) : of_string (to_string l) = l.
Proof. apply list_ascii_of_string_of_list_ascii. Qed.

Lemma to_of_string (s : string) : to_string (of_string s) = s.
Proof. apply string_of_list_ascii_of_string. Qed.

Lemma lstrip_snoc (a : chars) (c : ascii) :
  is_space c = false -> lstrip_chars (a ++ [c]) = lstrip_chars a ++ [c].
Proof.
  intro Hc. induction a as [|x tl IH]; simpl.
  - rewrite Hc. reflexivity.
  - destruct (is_space x); [exact IH|reflexivity].
Qed.

Lemma rstrip_cons (c : ascii) (t : chars) :
  is_space c = false -> rstrip_chars (c :: t) = c :: rstrip_chars t.
Proof.
  intro Hc. unfold rstrip_chars. simpl. rewrite lstrip_snoc by exact Hc.
  rewrite rev_app_distr. reflexivity.
Qed.

Lemma lstrip_head (l : chars) :
  lstrip_chars l = [] \/ exists c t, lstrip_chars l = c :: t /\ is_space c = false.
Proof.
  induction l as [|x tl IH]; simpl.
  - left. reflexivity.
  - destruct (is_space x) eqn:E; [exact IH|].
    right. exists x, tl. split; [reflexivity|exact E].
Qed.

Lemma lstrip_idem (l : chars) : lstrip_chars (lstrip_chars l) = lstrip_chars l.
Proof.
  destruct (lstrip_head l) as [E|[c [t [E Hc]]]]; rewrite E; simpl.
  - reflexivity.
  - rewrite Hc. reflexivity.
Qed.

Lemma rstrip_idem (l : chars) : rstrip_chars (rstrip_chars l) = rstrip_chars l.
Proof.
  unfold rstrip_chars. rewrite rev_involutive, lstrip_idem. reflexivity.
Qed.

(** The characters of a stripped text: none, or a first one that is not
    white space. *)
Lemma stripped_head (l : chars) :
  rstrip_chars (lstrip_chars l) = []
  \/ exists c t, rstrip_chars (lstrip_chars l) = c :: t /\ is_space c = false.
Proof.
  destruct (lstrip_head l) as [E|[c [t [E Hc]]]]; rewrite E.
  - left. reflexivity.
  - right. rewrite rstrip_cons by exact Hc. exists c, (rstrip_chars t).
    split; [reflexivity|exact Hc].
Qed.

Lemma strip_idem (s : string) : strip (strip s) = strip s.
Proof.
  unfold strip. rewrite of_to_string. f_equal.
  destruct (stripped_head (of_string s)) as [E|[c [t [E Hc]]]].
  - rewrite E. reflexivity.
  - rewrite E at 1. simpl lstrip_chars. rewrite Hc. rewrite <- E.
    apply rstrip_idem.
Qed.

Lemma lstrip_blank (l : chars) :
  forallb is_space l = true -> lstrip_chars l = [].
Proof.
  induction l as [|x tl IH]; simpl; [reflexivity|].
  intro H. apply andb_true_iff in H. destruct H as [Hx Ht].
  rewrite Hx. exact (IH Ht).
Qed.

Lemma strip_blank (s : string) :
  forallb is_space (of_string s) = true -> strip s = EmptyString.
Proof.
  intro H. unfold strip. rewrite lstrip_blank by exact H. reflexivity.
Qed.

Lemma to_string_nil (l : chars) : to_string l = EmptyString -> l = [].
Proof. destruct l; [reflexivity|discriminate]. Qed.

(** A stripped text starts with a character that is not white space. *)
Lemma strip_head (s : string) (c : ascii) (rest : string) :
  strip s = String c rest -> is_space c = false.
Proof.
  unfold strip.
  destruct (stripped_head (of_string s)) as [E|[c' [t [E Hc]]]]; rewrite E.
  - discriminate.
  - simpl. intro H. injection H as <- _. exact Hc.
Qed.

Lemma lstrip_nil (l : chars) :
  lstrip_chars l = [] -> forallb is_space l = true.
Proof.
  induction l as [|x tl IH]; cbn [lstrip_chars forallb]; [reflexivity|].
  destruct (is_space x); [exact IH|discriminate].
Qed.

(** A text is stripped to nothing only when it is all white space. *)
Lemma strip_nil (s : string) :
  strip s = EmptyString -> forallb is_space (of_string s) = true.
Proof.
  unfold strip. intro H. apply to_string_nil in H.
  destruct (lstrip_head (of_string s)) as [E|[c [t [E Hc]]]].
  - apply lstrip_nil. exact E.
  - rewrite E, rstrip_cons in H by exact Hc. discriminate H.
Qed.

End StringLaws.

Module DictLaws.

Section WithValue.
Variable V : Type.

Lemma get_set_same (d : Dict.t V) (k : string) (v : V) :
  Dict.get (Dict.set d k v) k = Some v.
Proof.
  induction d as [|[k0 v0] tl IH]; simpl.
  - rewrite String.eqb_refl. reflexivity.
  - destruct (String.eqb k0 k) eqn:E; simpl; rewrite E; [reflexivity|exact IH].
Qed.

Lemma set_length (d : Dict.t V) (k : string) (v : V) :
  List.length (Dict.set d k v) <= S (List.length d).
Proof.
  induction d as [|[k0 v0] tl IH]; simpl; [lia|].
  destruct (String.eqb k0 k); simpl; lia.
Qed.

Lemma get_none (d : Dict.t V) (k : string) :
  ~ In k (Dict.keys d) -> Dict.get d k = None.
Proof.
  induction d as [|[k0 v0] tl IH]; simpl; intro H; [reflexivity|].
  destruct (String.eqb k0 k) eqn:E.
  - apply String.eqb_eq in E. exfalso. apply H. left. exact E.
  - apply IH. intro Hin. apply H. right. exact Hin.
Qed.

Lemma get_filter_other (d : Dict.t V) (k k' : string) :
  k <> k' ->
  Dict.get (filter (fun kv => negb (String.eqb (fst kv) k)) d) k' = Dict.get d k'.
Proof.
  intro Hne. induction d as [|[k0 v0] tl IH]; simpl; [reflexivity|].
  destruct (String.eqb k0 k) eqn:E; simpl.
  - apply String.eqb_eq in E. subst k0.
    destruct (String.eqb k k') eqn:E'; [apply String.eqb_eq in E'; contradiction|].
    exact IH.
  - destruct (String.eqb k0 k'); [reflexivity|exact IH].
Qed.

Lemma get_filter_same (d : Dict.t V) (k : string) :
  Dict.get (filter (fun kv => negb (String.eqb (fst kv) k)) d) k = None.
Proof.
  induction d as [|[k0 v0] tl IH]; simpl; [reflexivity|].
  destruct (String.eqb k0 k) eqn:E; simpl; [exact IH|]. rewrite E. exact IH.
Qed.

Lemma filter_absent (d : Dict.t V) (k : string) :
  ~ In k (Dict.keys d) -> filter (fun kv => negb (String.eqb (fst kv) k)) d = d.
Proof.
  induction d as [|[k0 v0] tl IH]; simpl; intro H; [reflexivity|].
  destruct (String.eqb k0 k) eqn:E; simpl.
  - apply String.eqb_eq in E. exfalso. apply H. left. exact E.
  - f_equal. apply IH. intro Hin. apply H. right. exact Hin.
Qed.

End WithValue.

End DictLaws.

(* ===================================================================== *)
(** ** Patterns *)
(* ===================================================================== *)

Module ReLaws.

Import Py Re ReAnalysis StringLaws.

Lemma in_all_ascii (c : ascii) : In c all_ascii.
Proof.
  unfold all_ascii. apply in_map_iff. exists (nat_of_ascii c).
  split; [apply ascii_nat_embedding|]. apply in_seq.
  pose proof (nat_ascii_bounded c). lia.
Qed.

Lemma later_refl (st : mstate) : later st st.
Proof. exists []. reflexivity. Qed.

Lemma later_trans (a b c : mstate) : later a b -> later b c -> later a c.
Proof.
  intros [p1 H1] [p2 H2]. exists (p1 ++ p2). rewrite H1, H2.
  apply app_assoc.
Qed.

(** The matcher hands only later positions to its continuation. *)
Lemma run_continues_later (r : regex) :
  forall (st : mstate) (k : mstate -> option mstate),
    (forall st1, later st st1 -> k st1 = None) -> run r st k = None.
Proof.
  induction r as [|p|r1 IH1 r2 IH2|r1 IH1 r2 IH2|r' IH lo hi|n r' IH| | | |r' IH];
    intros st k Hk.
  - cbn [run]. apply Hk, later_refl.
  - cbn [run]. destruct (rest st) as [|c tl] eqn:E; [reflexivity|].
    destruct (p c); [|reflexivity].
    apply Hk. exists [c]. rewrite E. reflexivity.
  - cbn [run]. apply IH1. intros st1 H1. apply IH2. intros st2 H2.
    apply Hk. exact (later_trans H1 H2).
  - cbn [run]. rewrite IH1 by exact Hk. apply IH2. exact Hk.
  - assert (Hloop : forall fuel cnt st0, later st st0 ->
      (fix loop (fuel cnt : nat) (st0 : mstate) {struct fuel} : option mstate :=
         let stop := if lo <=? cnt then k st0 else None in
         match fuel with
         | O => stop
         | S fuel' =>
             if under cnt hi then
               match run r' st0 (fun st1 =>
                        if pos st0 <? pos st1 then loop fuel' (S cnt) st1
                        else None) with
               | Some fin => Some fin
               | None => stop
               end
             else stop
         end) fuel cnt st0 = None).
    { induction fuel as [|fuel IHf]; intros cnt st0 H0.
      - cbv zeta. rewrite (Hk st0 H0). destruct (lo <=? cnt); reflexivity.
      - cbv zeta.
        assert (Hs : (if lo <=? cnt then k st0 else None) = None).
        { rewrite (Hk st0 H0). destruct (lo <=? cnt); reflexivity. }
        rewrite Hs. destruct (under cnt hi); [|reflexivity].
        rewrite IH; [reflexivity|].
        intros st1 H1. destruct (pos st0 <? pos st1); [|reflexivity].
        apply IHf. exact (later_trans H0 H1). }
    exact (Hloop (S (List.length (rest st))) 0 st (later_refl st)).
  - cbn [run]. apply IH. intros st1 H1. apply Hk.
    destruct H1 as [pre H1]. exists pre. exact H1.
  - cbn [run]. rewrite (Hk st (later_refl st)). destruct (xorb _ _); reflexivity.
  - cbn [run]. rewrite (Hk st (later_refl st)). destruct (pos st =? 0); reflexivity.
  - cbn [run]. rewrite (Hk st (later_refl st)).
    destruct (rest st) as [|c [|c' tl]]; try reflexivity.
    destruct (code c =? 10); reflexivity.
  - cbn [run]. rewrite (Hk st (later_refl st)). destruct (run r' st _); reflexivity.
Qed.

Lemma free_of_later (P : ascii -> bool) (st st1 : mstate) :
  later st st1 -> free_of P (rest st) = true -> free_of P (rest st1) = true.
Proof.
  intros [pre H] Hf. rewrite H in Hf. unfold free_of in *.
  rewrite forallb_app in Hf. apply andb_true_iff in Hf. exact (proj2 Hf).
Qed.

(** A pattern that needs a character of a class matches nowhere in a text
    without one. *)
Lemma needs_sound (P : ascii -> bool) (r : regex) :
  needs P r = true ->
  forall (st : mstate) (k : mstate -> option mstate),
    free_of P (rest st) = true -> run r st k = None.
Proof.
  induction r as [|p|r1 IH1 r2 IH2|r1 IH1 r2 IH2|r' IH lo hi|n r' IH| | | |r' IH];
    cbn [needs]; intros Hn st k Hf; try discriminate; cbn [run].
  - destruct (rest st) as [|c tl] eqn:E; [reflexivity|].
    rewrite forallb_forall in Hn. specialize (Hn c (in_all_ascii c)).
    unfold free_of in Hf. cbn [forallb] in Hf.
    apply andb_true_iff in Hf. destruct Hf as [Hc _].
    apply negb_true_iff in Hc. rewrite Hc in Hn.
    destruct (p c); [discriminate|reflexivity].
  - apply orb_true_iff in Hn. destruct Hn as [Hn|Hn].
    + apply IH1; assumption.
    + apply run_continues_later. intros st1 H1.
      apply IH2; [exact Hn|]. exact (@free_of_later P st st1 H1 Hf).
  - apply andb_true_iff in Hn. destruct Hn as [Hn1 Hn2].
    rewrite IH1 by assumption. apply IH2; assumption.
  - apply andb_true_iff in Hn. destruct Hn as [Hlo Hn].
    apply Nat.ltb_lt in Hlo.
    assert (Hz : (lo <=? 0) = false) by (apply Nat.leb_gt; exact Hlo).
    rewrite Hz. destruct (under 0 hi); [|reflexivity].
    rewrite IH by assumption. reflexivity.
  - apply IH; assumption.
  - rewrite IH by assumption. reflexivity.
Qed.

Lemma match_at_needs (P : ascii -> bool) (r : regex) (st : mstate) :
  needs P r = true -> free_of P (rest st) = true -> match_at r st = None.
Proof.
  intros Hn Hf. unfold match_at.
  rewrite (@needs_sound P r Hn); [reflexivity|exact Hf].
Qed.

Lemma scan_needs (P : ascii -> bool) (r : regex) :
  needs P r = true ->
  forall (fuel : nat) (st : mstate) (gap : chars),
    free_of P (rest st) = true ->
    scan fuel r st gap = ([], rev gap ++ rest st).
Proof.
  intro Hn. induction fuel as [|fuel IH]; intros st gap Hf; cbn [scan].
  - reflexivity.
  - rewrite (@match_at_needs P r st Hn Hf).
    destruct (rest st) as [|c tl] eqn:E.
    + rewrite app_nil_r. reflexivity.
    + rewrite IH.
      * cbn [rest rev]. rewrite <- app_assoc. reflexivity.
      * cbn [rest]. unfold free_of in *. cbn [forallb] in Hf.
        apply andb_true_iff in Hf. exact (proj2 Hf).
Qed.

(** So [re.sub] leaves such a text as it is and never calls the
    replacement function. *)
Lemma sub_with_needs (A : Type) (P : ascii -> bool) (r : regex)
  (f : A -> rmatch -> A * string) (s : string) (a : A) :
  needs P r = true -> free_of P (of_string s) = true ->
  sub_with r f s a = (a, s).
Proof.
  intros Hn Hf. unfold sub_with, scan_all.
  rewrite (@scan_needs P r Hn); [|exact Hf].
  cbn [fold_left rev app start_state rest]. rewrite to_of_string. reflexivity.
Qed.

End ReLaws.

Module WordLaws.

Import Py Re WordSearch ReAnalysis ReLaws.

Lemma run_lit_ci (cs : chars) :
  forall (st : mstate) (k : mstate -> option mstate),
    run (fold_right (fun c r => Seq (chr_ci c) r) Eps cs) st k =
    if ci_prefix cs (rest st)
    then k (MState (last_seen cs (rest st) (prev st))
                   (skipn (List.length cs) (rest st))
                   (pos st + List.length cs) (caps st))
    else None.
Proof.
  induction cs as [|c cs IH]; intros st k; cbn [fold_right run ci_prefix].
  - cbn [last_seen List.length skipn]. rewrite Nat.add_0_r.
    destruct st; reflexivity.
  - unfold chr_ci at 1. cbn [run].
    destruct (rest st) as [|x l] eqn:E; [reflexivity|].
    destruct (eqc_ci c x); cbn [andb]; [|reflexivity].
    rewrite IH. cbn [rest prev pos caps last_seen List.length skipn].
    replace (S (pos st) + List.length cs) with (pos st + S (List.length cs)) by lia.
    reflexivity.
Qed.

Lemma match_at_word (s : string) (pv : option ascii) (l : chars) (p : nat) :
  match match_at (SlotFiller.word s) (MState pv l p []) with
  | Some _ => true
  | None => false
  end = word_at (of_string s) pv l.
Proof.
  unfold match_at, SlotFiller.word, seqs, lit_ci, word_at.
  cbn [fold_right run prev rest pos caps].
  destruct (xorb (is_word_opt pv) (is_word_opt (hd_error l))); cbn [andb];
    [|reflexivity].
  rewrite run_lit_ci. cbn [rest prev pos caps].
  destruct (ci_prefix (of_string s) l); cbn [andb]; [|reflexivity].
  cbn [run prev rest].
  destruct (xorb _ _); reflexivity.
Qed.

Lemma search_from_word (s : string) (l : chars) :
  forall (pv : option ascii) (p : nat),
    match search_from (SlotFiller.word s) pv l p with
    | Some _ => true
    | None => false
    end = occurs (of_string s) pv l.
Proof.
  induction l as [|c tl IH]; intros pv p; cbn [search_from occurs].
  - rewrite <- (match_at_word s pv [] p).
    destruct (match_at _ _); reflexivity.
  - rewrite <- (match_at_word s pv (c :: tl) p).
    destruct (match_at _ _); cbn [orb]; [reflexivity|]. apply IH.
Qed.

(** [re.search] of a word pattern is the search for the word. *)
Lemma found_word (s text : string) :
  found (SlotFiller.word s) text = occurs (of_string s) None (of_string text).
Proof. unfold found, search. apply search_from_word. Qed.


Lemma class_of_letter (a c : ascii) :
  forallb (fun c0 => implb (eqc_ci a c0) (Bool.eqb (is_word c0) (is_word a)))
          all_ascii = true ->
  eqc_ci a c = true -> is_word c = is_word a.
Proof.
  intros Hall H. rewrite forallb_forall in Hall.
  specialize (Hall c (in_all_ascii c)).
  rewrite H in Hall. apply Bool.eqb_prop. exact Hall.
Qed.

Lemma space_is_no_word_character (c : ascii) :
  eqc_ci " " c = true -> is_word c = false.
Proof. apply class_of_letter. vm_compute. reflexivity. Qed.

Lemma t_is_a_word_character (c : ascii) :
  eqc_ci "t" c = true -> is_word c = true.
Proof. apply class_of_letter. vm_compute. reflexivity. Qed.

Lemma occurs_later (cs : chars) (pre l : chars) (pv : option ascii) :
  occurs cs (last_seen pre (pre ++ l) pv) l = true -> occurs cs pv (pre ++ l) = true.
Proof.
  revert pv. induction pre as [|x pre IH]; intros pv; cbn [app last_seen occurs].
  - intro H. exact H.
  - intro H. apply orb_true_iff. right. apply IH. exact H.
Qed.

(** Where "day after tomorrow" stands as words, "tomorrow" stands as a
    word ten characters later. *)
Lemma tomorrow_in_day_after (pv : option ascii) (l : chars) :
  word_at day_after_tomorrow pv l = true -> occurs tomorrow pv l = true.
Proof.
  unfold word_at. intro H.
  apply andb_true_iff in H. destruct H as [H Hend].
  apply andb_true_iff in H. destruct H as [_ Hpre].
  unfold day_after_tomorrow in *. cbn [of_string list_ascii_of_string] in *.
  destruct l as [|c1 [|c2 [|c3 [|c4 [|c5 [|c6 [|c7 [|c8 [|c9 [|c10 [|c11 [|c12
    [|c13 [|c14 [|c15 [|c16 [|c17 [|c18 l]]]]]]]]]]]]]]]]]];
    cbn [ci_prefix] in Hpre; rewrite ?andb_false_r in Hpre; try discriminate Hpre.
  repeat (apply andb_true_iff in Hpre; destruct Hpre as [? Hpre]).
  cbn [last_seen List.length skipn is_word_opt] in Hend.
  change (c1 :: c2 :: c3 :: c4 :: c5 :: c6 :: c7 :: c8 :: c9 :: c10 :: c11 :: c12
            :: c13 :: c14 :: c15 :: c16 :: c17 :: c18 :: l)
    with ([c1; c2; c3; c4; c5; c6; c7; c8; c9; c10]
            ++ c11 :: c12 :: c13 :: c14 :: c15 :: c16 :: c17 :: c18 :: l).
  apply occurs_later. cbn [last_seen app occurs].
  apply orb_true_iff. left.
  unfold word_at, tomorrow.
  cbn [of_string list_ascii_of_string ci_prefix hd_error last_seen List.length
       skipn is_word_opt].
  repeat match goal with
  | H : eqc_ci _ _ = true |- _ => rewrite H
  end.
  rewrite (@space_is_no_word_character c10) by assumption.
  rewrite (@t_is_a_word_character c11) by assumption.
  cbn [xorb andb]. exact Hend.
Qed.

(** So a text that says "day after tomorrow" says "tomorrow". *)
Lemma day_after_is_tomorrow (text : string) :
  found (SlotFiller.word "day after tomorrow") text = true ->
  found (SlotFiller.word "tomorrow") text = true.
Proof.
  rewrite !found_word.
  change (of_string "day after tomorrow") with day_after_tomorrow.
  change (of_string "tomorrow") with tomorrow.
  generalize (@None ascii). induction (of_string text) as [|c tl IH]; intro pv;
    cbn [occurs]; intro H; apply orb_true_iff in H; destruct H as [H|H].
  - apply (tomorrow_in_day_after pv [] H).
  - discriminate H.
  - apply (tomorrow_in_day_after pv (c :: tl) H).
  - apply orb_true_iff. right. apply IH. exact H.
Qed.

End WordLaws.

(* ===================================================================== *)
(** ** ContextWindow: what every sequence of calls keeps *)
(* ===================================================================== *)

Module WindowInvariants.

Import ContextWindow Num NumFacts NumLaws SortingFacts ContextWindowFacts.

Lemma prune_subset (msgs : list RecentMessage) (m : RecentMessage) :
  In m (_prune_low_signal_messages msgs) -> In m msgs.
Proof.
  unfold _prune_low_signal_messages. intro H.
  assert (H1 : In m (Sorting.sort_asc ts
                       (fold_left keep_step (Sorting.sort_desc ts msgs) []))).
  { rewrite <- (firstn_skipn
      (List.length (Sorting.sort_asc ts
         (fold_left keep_step (Sorting.sort_desc ts msgs) [])) - MAX_SEMANTIC_TURNS)).
    apply in_or_app. right. exact H. }
  apply (Permutation_in m (sort_perm _ _)) in H1.
  rewrite kept_by_loop in H1. cbn [app List.length] in H1.
  apply (Permutation_in m (sort_desc_perm ts msgs)).
  apply in_app_or in H1. destruct H1 as [H1|H1].
  - exact (in_firstn _ _ _ H1).
  - apply filter_In in H1. destruct H1 as [H1 _].
    rewrite <- (firstn_skipn (MAX_SEMANTIC_TURNS - 0)). apply in_or_app. right.
    exact H1.
Qed.

Lemma ring_after_record (now : Z) (txt : string) (w : window) :
  txt <> EmptyString ->
  recent_messages (record_user_message now txt w) =
  _prune_low_signal_messages (recent_messages w ++ [new_message now txt]).
Proof.
  intro Hne. unfold record_user_message, new_message.
  destruct txt as [|c tl]; [contradiction|]. cbn [Py.is_empty].
  destruct (state w) as [st|]; [|reflexivity].
  match goal with |- context [if ?b then _ else _] => destruct b end; reflexivity.
Qed.

(** What a call does to the ring: nothing, empty it, or append a message
    and prune. *)
Lemma ring_of_call (w : window) (c : call) :
  recent_messages (apply_call w c) = recent_messages w
  \/ recent_messages (apply_call w c) = []
  \/ exists now txt,
       txt <> EmptyString
       /\ recent_messages (apply_call w c) =
          _prune_low_signal_messages (recent_messages w ++ [new_message now txt]).
Proof.
  destruct c as [now i t|now i t| |now txt|now created]; cbn [apply_call].
  - left. reflexivity.
  - left. reflexivity.
  - right. left. reflexivity.
  - destruct txt as [|ch rest]; [left; reflexivity|].
    right. right. exists now, (String ch rest). split; [discriminate|].
    apply ring_after_record. discriminate.
  - left. unfold advance_turn, _apply_decay.
    destruct (state w) as [st|]; [|reflexivity].
    destruct created; [reflexivity|].
    match goal with |- context [if ?b then _ else _] => destruct b end; reflexivity.
Qed.

(** X1. After any sequence of calls the ring holds at most
    [MAX_SEMANTIC_TURNS] = 10 messages, in timestamp order, and [recent]
    returns all of them. *)
Theorem ring_is_capped_and_ordered :
  forall calls : list call,
    let w := after_calls calls in
    List.length (recent_messages w) <= MAX_SEMANTIC_TURNS
    /\ StronglySorted (fun a b => (ts a <= ts b)%Z) (recent_messages w)
    /\ recent w = recent_messages w.
Proof.
  intro calls.
  assert (H : List.length (recent_messages (after_calls calls)) <= MAX_SEMANTIC_TURNS
              /\ StronglySorted (fun a b => (ts a <= ts b)%Z)
                   (recent_messages (after_calls calls))).
  { unfold after_calls. rewrite <- (rev_involutive calls).
    induction (rev calls) as [|c tl IH]; simpl.
    - split; [unfold MAX_SEMANTIC_TURNS; lia|constructor].
    - rewrite fold_left_app. cbn [fold_left].
      destruct (ring_of_call (fold_left apply_call (rev tl) initial) c)
        as [E|[E|[now [txt [_ E]]]]]; rewrite E.
      + exact IH.
      + split; [simpl; unfold MAX_SEMANTIC_TURNS; lia|constructor].
      + split; [apply prune_length|apply prune_sorted]. }
  destruct H as [Hlen Hs]. cbv zeta. split; [exact Hlen|]. split; [exact Hs|].
  unfold recent.
  replace (List.length (recent_messages (after_calls calls)) - MAX_SEMANTIC_TURNS)
    with 0 by lia.
  reflexivity.
Qed.

Lemma score_in_unit_interval (txt : string) :
  (0 <= _compute_message_score txt <= 1)%Q.
Proof.
  unfold _compute_message_score.
  destruct (Py.is_empty _); [split; unfold Qle; simpl; lia|].
  destruct (StringUtils.nonempty _) as [|t tl] eqn:E;
    [split; unfold Qle; simpl; lia|].
  cbv zeta. split; [|apply qmin_le_l].
  set (n := q_of_nat (List.length (t :: tl))).
  assert (Hn : (0 < n)%Q).
  { unfold n, q_of_nat, Qlt. simpl. lia. }
  apply qmin_glb; [unfold Qle; simpl; lia|].
  assert (Hb : (0 <= qmin 1 (n / 12))%Q).
  { apply qmin_glb; [unfold Qle; simpl; lia|].
    apply Qle_shift_div_l; [reflexivity|]. rewrite Qmult_0_l.
    apply Qlt_le_weak. exact Hn. }
  assert (Hl : (0 <= qmin 1 (q_of_nat (sum_lengths (t :: tl)) / n / 5))%Q).
  { apply qmin_glb; [unfold Qle; simpl; lia|].
    apply Qle_shift_div_l; [reflexivity|]. rewrite Qmult_0_l.
    apply Qle_shift_div_l; [exact Hn|]. rewrite Qmult_0_l.
    apply q_of_nat_nonneg. }
  rewrite <- (Qplus_0_l 0).
  apply Qplus_le_compat.
  - apply Qmult_le_0_compat; [exact Hb|unfold Qle; simpl; lia].
  - apply Qmult_le_0_compat; [exact Hl|unfold Qle; simpl; lia].
Qed.

Lemma new_message_scored (now : Z) (txt : string) :
  txt <> EmptyString -> scored (new_message now txt).
Proof.
  intro Hne. unfold scored, new_message. cbn [score isReceipt text].
  destruct (_is_receipt_message txt).
  - repeat split; try (unfold Qle; simpl; lia). exact Hne.
  - repeat split; try apply score_in_unit_interval; try discriminate. exact Hne.
Qed.


(** X2. After any sequence of calls every message of the ring has a text
    that is not empty, the receipt flag of that text, and a score in
    [0, 1], which is 1 for a receipt. *)
Theorem ring_messages_are_scored :
  forall calls : list call,
    Forall scored (recent_messages (after_calls calls)).
Proof.
  intro calls. unfold after_calls. rewrite <- (rev_involutive calls).
  induction (rev calls) as [|c tl IH]; simpl.
  - constructor.
  - rewrite fold_left_app. cbn [fold_left].
    destruct (ring_of_call (fold_left apply_call (rev tl) initial) c)
      as [E|[E|[now [txt [Hne E]]]]]; rewrite E.
    + exact IH.
    + constructor.
    + apply Forall_forall. intros m Hm. apply prune_subset in Hm.
      apply in_app_or in Hm. destruct Hm as [Hm|[<-|[]]].
      * rewrite Forall_forall in IH. exact (IH m Hm).
      * apply new_message_scored. exact Hne.
Qed.

Lemma live_call (w : window) (c : call) : live w -> live (apply_call w c).
Proof.
  unfold live. intro H.
  destruct c as [now i t|now i t| |now txt|now created]; cbn [apply_call].
  - cbn. split; unfold Qle; simpl; lia.
  - cbn. split; unfold Qle; simpl; lia.
  - exact I.
  - unfold record_user_message. destruct (Py.is_empty txt); [exact H|].
    cbv zeta. destruct (state w) as [st|]; [|exact I].
    cbn [score].
    set (d := qmin 1 _).
    destruct (qlt d MIN_ACTIVE_SCORE && negb (_is_receipt_message txt)) eqn:E;
      [exact I|].
    cbn [state decayScore]. split; [|apply qmin_le_l].
    apply andb_false_iff in E. destruct E as [E|E].
    + apply qlt_false. exact E.
    + apply negb_false_iff in E. unfold d. rewrite E.
      apply qmin_glb; [unfold Qle; simpl; lia|].
      destruct H as [H _].
      assert (H0 : (0 <= decayScore st * DECAY_FACTOR)%Q).
      { apply Qmult_le_0_compat; [|unfold Qle; simpl; lia].
        eapply Qle_trans; [|exact H]. unfold Qle; simpl; lia. }
      eapply Qle_trans; [|apply Qplus_le_compat; [exact H0|apply Qle_refl]].
      unfold Qle; simpl; lia.
  - unfold advance_turn, _apply_decay.
    destruct (state w) as [st|] eqn:Es; [|rewrite Es; exact I].
    destruct created.
    + cbn. split; unfold Qle; simpl; lia.
    + destruct (qlt (decayScore st * DECAY_FACTOR) MIN_ACTIVE_SCORE) eqn:E;
        [exact I|].
      cbn [state decayScore]. split; [apply qlt_false; exact E|].
      destruct H as [Hlo Hhi].
      assert (Hm : (decayScore st * DECAY_FACTOR <= 1 * DECAY_FACTOR)%Q).
      { apply Qmult_le_compat_r; [exact Hhi|unfold Qle; simpl; lia]. }
      eapply Qle_trans; [exact Hm|]. unfold Qle; simpl; lia.
Qed.

(** X3. After any sequence of calls [snapshot] is [None] or active: every
    call that lets the decay score fall below [MIN_ACTIVE_SCORE] drops the
    state, so no snapshot says [isActive = False], and the score stays in
    [0.2, 1]. *)
Theorem snapshot_is_always_active :
  forall calls : list call,
    match snapshot (after_calls calls) with
    | None => True
    | Some s =>
        s_isActive s = true
        /\ (MIN_ACTIVE_SCORE <= s_decayScore s <= 1)%Q
    end.
Proof.
  intro calls.
  assert (H : live (after_calls calls)).
  { unfold after_calls. rewrite <- (rev_involutive calls).
    induction (rev calls) as [|c tl IH]; simpl; [exact I|].
    rewrite fold_left_app. cbn [fold_left]. apply live_call. exact IH. }
  unfold live in H. unfold snapshot.
  destruct (state (after_calls calls)) as [st|]; [|exact I].
  cbn [s_isActive s_decayScore]. split; [|exact H].
  apply qge_true. exact (proj1 H).
Qed.

End WindowInvariants.

(* ===================================================================== *)
(** ** MemoryStore: lookup, removal and search *)
(* ===================================================================== *)

Module MemoryLaws.

Import Memory SortingFacts SortingLaws DictFacts DictLaws MemoryFacts.

Section WithEmbedder.
Variable custom : option Embeddings.Embedder.

(** X5. Below the capacity a row that is upserted is the row that a lookup of
    its identifier gives, and the other rows are untouched. *)
Theorem upsert_then_lookup (now : Z) (options : UpsertOptions) (s : store) :
  List.length (_memory_cache s) < MAX_CACHED_ROWS ->
  let s' := upsert custom now options s in
  Dict.get (_memory_cache s') (o_id options) = Some (make_row custom now options)
  /\ (forall k, k <> o_id options ->
        Dict.get (_memory_cache s') k = Dict.get (_memory_cache s) k)
  /\ _rag_results s' = _rag_results s /\ _user_id s' = _user_id s.
Proof.
  intros Hlen s'. unfold s', upsert. cbn [_memory_cache _rag_results _user_id].
  rewrite upsert_cache_cases. unfold stored.
  pose proof (set_length (_memory_cache s) (o_id options)
                (make_row custom now options)) as Hs.
  destruct (MAX_CACHED_ROWS <? _) eqn:E; [apply Nat.ltb_lt in E; lia|].
  split; [apply get_set_same|]. split; [|split; reflexivity].
  intros k Hk. apply get_set_other. congruence.
Qed.

Lemma sort_desc_snoc_smallest (rows : list MemoryRow) (r : MemoryRow) :
  Forall (fun x => (ts r < ts x)%Z) rows ->
  Sorting.sort_desc ts (rows ++ [r]) = Sorting.sort_desc ts rows ++ [r].
Proof.
  unfold Sorting.sort_desc, Sorting.sort.
  induction 1 as [|x tl Hx Htl IH]; simpl; [reflexivity|].
  rewrite IH. clear IH.
  generalize (fold_right (Sorting.insert (fun x0 y => (ts y <=? ts x0)%Z)) [] tl).
  intro l. induction l as [|y l' IH]; simpl.
  - assert (E : (ts r <=? ts x)%Z = true) by (apply Z.leb_le; lia).
    rewrite E. reflexivity.
  - destruct (ts y <=? ts x)%Z; [reflexivity|]. rewrite IH. reflexivity.
Qed.

(** X6. A full cache drops a row that is older than all its rows as soon as it
    is upserted: the write is lost, and the cache keeps its rows. *)
Theorem stale_row_is_dropped (now : Z) (options : UpsertOptions) (s : store) :
  well_keyed (_memory_cache s) ->
  List.length (_memory_cache s) = MAX_CACHED_ROWS ->
  ~ In (o_id options) (Dict.keys (_memory_cache s)) ->
  Forall (fun r => (ts (make_row custom now options) < ts r)%Z)
         (Dict.values (_memory_cache s)) ->
  let s' := upsert custom now options s in
  Dict.get (_memory_cache s') (o_id options) = None
  /\ Dict.values (_memory_cache s') =
     Sorting.sort_desc ts (Dict.values (_memory_cache s)).
Proof.
  intros Hwk Hlen Hnew Hold s'. unfold s', upsert. cbn [_memory_cache].
  set (cache := _memory_cache s) in *.
  set (r := make_row custom now options) in *.
  rewrite upsert_cache_cases.
  assert (Hst : stored custom now options cache = cache ++ [(o_id options, r)]).
  { unfold stored. apply set_keys_new. exact Hnew. }
  pose proof (stored_well_keyed custom now options Hwk) as Hwk'.
  fold cache in Hwk'.
  assert (Hnewest : newest (stored custom now options cache) =
                    Sorting.sort_desc ts (Dict.values cache)).
  { unfold newest. rewrite Hst. unfold Dict.values. rewrite map_app. cbn [map snd].
    rewrite sort_desc_snoc_smallest by exact Hold.
    rewrite firstn_app.
    rewrite sort_desc_length, length_map, Hlen, Nat.sub_diag.
    cbn [firstn]. rewrite app_nil_r.
    apply firstn_all2. rewrite sort_desc_length, length_map. lia. }
  assert (E : (MAX_CACHED_ROWS <? List.length (stored custom now options cache)) = true).
  { apply Nat.ltb_lt. rewrite Hst, length_app. simpl. lia. }
  rewrite E.
  rewrite dict_of_rows_entries by (apply newest_nodup; exact Hwk').
  rewrite Hnewest, entries_values. split; [|reflexivity].
  apply get_none. unfold entries, Dict.keys. rewrite map_map. cbn [fst].
  intro Hin. apply Hnew.
  rewrite <- (well_keyed_ids Hwk).
  apply (Permutation_in (o_id options)
           (Permutation_map id (sort_desc_perm ts (Dict.values cache)))).
  exact Hin.
Qed.

(** X7. [remove] forgets the row and nothing else, and a missing identifier is
    not an error. *)
Theorem remove_forgets_one_row (row_id : string) (s : store) :
  let s' := remove row_id s in
  Dict.get (_memory_cache s') row_id = None
  /\ (forall k, k <> row_id ->
        Dict.get (_memory_cache s') k = Dict.get (_memory_cache s) k)
  /\ (~ In row_id (Dict.keys (_memory_cache s)) ->
        _memory_cache s' = _memory_cache s).
Proof.
  cbv zeta. unfold remove. cbn [_memory_cache]. split; [apply get_filter_same|].
  split.
  - intros k Hk. apply get_filter_other. congruence.
  - apply filter_absent.
Qed.

Variable round_score : R -> Q.

Lemma remote_loop_length (now_ts index : Z) (results : list RagItem) (s : store) :
  List.length (fst (remote_loop custom now_ts index results s)) = List.length results.
Proof.
  revert index s. induction results as [|x tl IH]; intros index s; simpl.
  - reflexivity.
  - specialize (IH (index + 1)%Z
      (upsert custom now_ts
         (mkUpsert (rag_kind x ++ ":" ++ rag_id x) (rag_kind x) (rag_snippet x)
            (Some (now_ts - index)%Z) (Some (Embeddings.embed_text custom (rag_snippet x))))
         s)).
    destruct (remote_loop custom now_ts (index + 1) tl _) as [recs s2].
    simpl in *. rewrite IH. reflexivity.
Qed.

Lemma remote_loop_user (now_ts index : Z) (results : list RagItem) (s : store) :
  _user_id (snd (remote_loop custom now_ts index results s)) = _user_id s
  /\ _rag_results (snd (remote_loop custom now_ts index results s)) = _rag_results s.
Proof.
  revert index s. induction results as [|x tl IH]; intros index s; simpl.
  - split; reflexivity.
  - specialize (IH (index + 1)%Z
      (upsert custom now_ts
         (mkUpsert (rag_kind x ++ ":" ++ rag_id x) (rag_kind x) (rag_snippet x)
            (Some (now_ts - index)%Z) (Some (Embeddings.embed_text custom (rag_snippet x))))
         s)).
    destruct (remote_loop custom now_ts (index + 1) tl _) as [recs s2].
    simpl in *. exact IH.
Qed.

(** X8. [search_top_n] never returns more than 20 records, nor more than
    [topK] when that is at least 1; a blank query returns nothing; and
    without an authenticated user the search changes nothing. *)
Theorem search_is_bounded (now_ts : Z) (options : SearchOptions) (s : store) :
  let out := search_top_n custom round_score now_ts options s in
  List.length (fst out) <= 20
  /\ (Z.of_nat (List.length (fst out)) <= Z.max 1 (q_topK options))%Z
  /\ (Py.strip (q_query options) = EmptyString -> out = ([], s))
  /\ (_user_id s = None -> snd out = s).
Proof.
  cbv zeta. unfold search_top_n.
  set (top_k := Z.to_nat (Z.max 1 (Z.min (q_topK options) 20))).
  assert (Hk : top_k <= 20 /\ (Z.of_nat top_k <= Z.max 1 (q_topK options))%Z).
  { unfold top_k. lia. }
  destruct (Py.is_empty (Py.strip (q_query options))) eqn:Hq.
  - cbn [fst snd List.length]. split; [lia|]. split; [lia|]. split; reflexivity.
  - set (local := firstn top_k _).
    assert (Hl : List.length local <= top_k) by (unfold local; apply firstn_le_length).
    assert (Hempty : Py.strip (q_query options) = EmptyString ->
                     forall x : list MemoryRecord * store, x = ([], s)).
    { intro E. rewrite E in Hq. discriminate. }
    destruct (_user_id s) as [[|c u]|] eqn:Hu.
    + cbn [fst snd]. split; [lia|]. split; [lia|]. split; [|reflexivity].
      intro E. apply Hempty. exact E.
    + destruct (_rag_search (Py.strip (q_query options)) top_k s) as [|x tl] eqn:Hr.
      * cbn [fst snd]. split; [lia|]. split; [lia|]. split; [|discriminate].
        intro E. apply Hempty. exact E.
      * pose proof (remote_loop_length now_ts 0 (x :: tl) s) as Hlen.
        destruct (remote_loop custom now_ts 0 (x :: tl) s) as [recs s2].
        cbn [fst snd] in *.
        assert (Hf : List.length (firstn top_k recs) <= top_k)
          by apply firstn_le_length.
        split; [lia|]. split; [lia|]. split; [|discriminate].
        intro E. apply Hempty. exact E.
    + cbn [fst snd]. split; [lia|]. split; [lia|]. split; [|reflexivity].
      intro E. apply Hempty. exact E.
Qed.

(** X9. Without an authenticated user the records are rows of the cache, of the
    requested kinds when kinds are given, each scored against the embedded
    query, the best score first. *)
Theorem local_search_ranks_cache_rows (now_ts : Z) (options : SearchOptions)
  (s : store) :
  _user_id s = None ->
  let recs := fst (search_top_n custom round_score now_ts options s) in
  let query_vector := Embeddings.embed_text custom (Py.strip (q_query options)) in
  Forall (fun rec =>
            In (row rec) (Dict.values (_memory_cache s))
            /\ (q_kinds options <> [] ->
                  In (Py.lower (kind (row rec))) (map Py.lower (q_kinds options)))
            /\ score rec =
               round_score (dot (Embeddings.l2_normalize query_vector)
                                (embedding (row rec)))) recs
  /\ StronglySorted (fun a b => (score b <= score a)%Q) recs.
Proof.
  intros Hu. cbv zeta. unfold search_top_n. rewrite Hu.
  destruct (Py.is_empty (Py.strip (q_query options))).
  - cbn [fst]. split; constructor.
  - cbn [fst]. split.
    + apply Forall_forall. intros rec Hin. apply in_firstn in Hin.
      unfold _cosine_scores in Hin.
      apply (Permutation_in rec (sort_perm _ _)) in Hin.
      apply in_map_iff in Hin. destruct Hin as [r [<- Hr]].
      apply filter_In in Hr. destruct Hr as [Hr Hk]. cbn [row score].
      split; [exact Hr|]. split; [|reflexivity].
      intro Hne. destruct (map Py.lower (q_kinds options)) as [|k0 ks] eqn:Ek.
      * destruct (q_kinds options); [contradiction|discriminate].
      * apply existsb_exists in Hk. destruct Hk as [k [Hin Heq]].
        apply String.eqb_eq in Heq. rewrite Heq. exact Hin.
    + apply sorted_firstn. unfold _cosine_scores. apply sort_desc_q_sorted.
Qed.

End WithEmbedder.

Lemma upsert_then_lookup_witness :
  List.length (_memory_cache initial) < MAX_CACHED_ROWS
  /\ Dict.get (_memory_cache (upsert None 0 (snd (Examples.numbered 0)) initial))
       "0"
     = Some (make_row None 0 (snd (Examples.numbered 0))).
Proof.
  assert (H : List.length (_memory_cache initial) < MAX_CACHED_ROWS).
  { unfold MAX_CACHED_ROWS. simpl. lia. }
  split; [exact H|].
  exact (proj1 (@upsert_then_lookup None 0 (snd (Examples.numbered 0)) initial H)).
Defined.

(** The cache holds the rows 0 to 511; the row "old", of timestamp -1, is
    upserted and is gone at once. *)
Lemma stale_row_is_dropped_witness :
  List.length (_memory_cache Examples.full_store) = MAX_CACHED_ROWS
  /\ Dict.get
       (_memory_cache (upsert None 0 Examples.stale_row Examples.full_store))
       "old" = None.
Proof.
  assert (Hl : List.length (_memory_cache Examples.full_store) = MAX_CACHED_ROWS).
  { vm_compute. reflexivity. }
  split; [exact Hl|].
  refine (proj1 (@stale_row_is_dropped None 0 Examples.stale_row
                   Examples.full_store _ Hl _ _)).
  - apply upsert_all_well_keyed. split; constructor.
  - intro Hin.
    assert (Hb : existsb (String.eqb "old")
                   (Dict.keys (_memory_cache Examples.full_store)) = false)
      by (vm_compute; reflexivity).
    apply Bool.not_true_iff_false in Hb. apply Hb.
    apply existsb_exists. exists "old"%string.
    split; [exact Hin|apply String.eqb_refl].
  - apply Forall_forall. intros r Hr.
    assert (Hb : forallb (fun r => (-1 <? ts r)%Z)
                   (Dict.values (_memory_cache Examples.full_store)) = true)
      by (vm_compute; reflexivity).
    rewrite forallb_forall in Hb. apply Hb in Hr. apply Z.ltb_lt in Hr.
    exact Hr.
Defined.

Lemma local_search_ranks_cache_rows_witness :
  _user_id (upsert None 0 (snd (Examples.numbered 0)) initial) = None
  /\ StronglySorted (fun a b => (score b <= score a)%Q)
       (fst (search_top_n None Examples.any_round 0 Examples.any_search
               (upsert None 0 (snd (Examples.numbered 0)) initial))).
Proof.
  assert (H : _user_id (upsert None 0 (snd (Examples.numbered 0)) initial) = None)
    by reflexivity.
  split; [exact H|].
  exact (proj2 (@local_search_ranks_cache_rows None Examples.any_round 0
                  Examples.any_search
                  (upsert None 0 (snd (Examples.numbered 0)) initial) H)).
Defined.

End MemoryLaws.

(* ===================================================================== *)
(** ** IntentRouter: the candidate list *)
(* ===================================================================== *)

Module RoutingLaws.

Import Types IntentRouting Num NumFacts NumLaws SortingFacts SortingLaws.

Lemma clamp_range (value : Q) : (0 <= _clamp value <= 1)%Q.
Proof.
  unfold _clamp. destruct (qlt value 0) eqn:E0.
  - split; unfold Qle; simpl; lia.
  - destruct (qlt 1 value) eqn:E1.
    + split; unfold Qle; simpl; lia.
    + split; apply qlt_false; assumption.
Qed.

Lemma clamp_fixed (value : Q) : (0 <= value <= 1)%Q -> _clamp value = value.
Proof.
  intros [H0 H1]. unfold _clamp, qlt.
  apply Qle_bool_iff in H0, H1. rewrite H0, H1. reflexivity.
Qed.

Lemma dedupe_labels (items : list (string * Q)) (seen : list string) :
  NoDup (map fst (dedupe seen items))
  /\ (forall lbl, In lbl (map fst (dedupe seen items)) <->
                  In lbl (map fst items) /\ ~ In lbl seen)
  /\ Forall (fun c => (0 <= snd c <= 1)%Q) (dedupe seen items).
Proof.
  revert seen. induction items as [|[lbl conf] tl IH]; intro seen; simpl.
  - split; [constructor|]. split; [|constructor]. intro l. tauto.
  - destruct (existsb (String.eqb lbl) seen) eqn:E.
    + destruct (IH seen) as [Hn [Hi Hf]]. split; [exact Hn|]. split; [|exact Hf].
      intro l. rewrite Hi. split; [tauto|]. intros [[->|H] Hs]; [|tauto].
      exfalso. apply Hs. apply existsb_exists in E. destruct E as [x [Hx Hq]].
      apply String.eqb_eq in Hq. subst x. exact Hx.
    + assert (Hs : ~ In lbl seen).
      { intro Hin. assert (Ht : existsb (String.eqb lbl) seen = true).
        { apply existsb_exists. exists lbl. split; [exact Hin|apply String.eqb_refl]. }
        congruence. }
      destruct (IH (lbl :: seen)) as [Hn [Hi Hf]]. simpl. split.
      * constructor; [|exact Hn]. intro Hin. apply Hi in Hin.
        destruct Hin as [_ Hin]. apply Hin. left. reflexivity.
      * split; [|constructor; [apply clamp_range|exact Hf]].
        intro l. rewrite Hi. simpl. split.
        -- intros [->|[H1 H2]]; [tauto|]. split; [tauto|]. intro. apply H2. tauto.
        -- intros [[->|H1] H2]; [tauto|].
           destruct (string_dec lbl l) as [->|Hne]; [tauto|].
           right. split; [exact H1|]. intros [H|H]; [contradiction|tauto].
Qed.

Lemma normalize_top_k_spec (native_top_k : list (string * Q)) :
  let out := _normalize_top_k native_top_k in
  NoDup (map fst out)
  /\ (forall lbl, In lbl (map fst out) <-> In lbl (map fst native_top_k))
  /\ Forall (fun c => (0 <= snd c <= 1)%Q) out
  /\ StronglySorted (fun a b => (snd b <= snd a)%Q) out.
Proof.
  cbv zeta. unfold _normalize_top_k.
  destruct (dedupe_labels native_top_k []) as [Hn [Hi Hf]].
  pose proof (sort_perm (fun x y : string * Q => Qle_bool (snd y) (snd x))
                (dedupe [] native_top_k)) as Hp.
  fold (Sorting.sort_desc_q (@snd string Q) (dedupe [] native_top_k)) in Hp.
  split.
  - apply (Permutation_NoDup (l := map fst (dedupe [] native_top_k))); [|exact Hn].
    apply Permutation_map, Permutation_sym. exact Hp.
  - split.
    + intro lbl. split.
      * intro H.
        apply (Permutation_in lbl (Permutation_map fst Hp)) in H.
        apply Hi in H. exact (proj1 H).
      * intro H.
        apply (Permutation_in lbl (Permutation_map fst (Permutation_sym Hp))).
        apply Hi. split; [exact H|intros []].
    + split; [|apply sort_desc_q_sorted].
      apply (Permutation_Forall (Permutation_sym Hp)). exact Hf.
Qed.

(** X10. [_normalize_top_k] names every label of its input once, with a
    confidence in [0, 1], the most confident first. *)
Theorem normalized_candidates (native_top_k : list (string * Q)) :
  let out := _normalize_top_k native_top_k in
  NoDup (map fst out)
  /\ (forall lbl, In lbl (map fst out) <-> In lbl (map fst native_top_k))
  /\ Forall (fun c => (0 <= snd c <= 1)%Q) out
  /\ StronglySorted (fun a b => (snd b <= snd a)%Q) out.
Proof.
  cbv zeta. destruct (normalize_top_k_spec native_top_k) as [Hn [Hl [Hf Hs]]].
  split; [exact Hn|]. split; [exact Hl|]. split; [exact Hf|exact Hs].
Qed.

Lemma build_routed_intent_spec (native_intent : NativeIntent)
  (slots_ : option (Dict.t string)) :
  let r := build_routed_intent native_intent slots_ in
  (0 <= confidence r <= 1)%Q
  /\ topK r <> []
  /\ NoDup (map fst (topK r))
  /\ Forall (fun c => (snd c <= confidence r)%Q) (topK r)
  /\ (forall c2, secondConfidence r = Some c2 -> (0 <= c2 <= confidence r)%Q)
  /\ slots r = match slots_ with Some s => s | None => [] end.
Proof.
  cbv zeta. unfold build_routed_intent.
  match goal with
  | |- context [_normalize_top_k ?x] =>
      destruct (normalize_top_k_spec x) as [Hn [_ [Hf Hs]]];
      set (top_k := _normalize_top_k x) in *
  end.
  cbn [confidence topK secondConfidence slots].
  destruct top_k as [|p tl] eqn:E.
  - cbn [find option_map snd map].
    pose proof (clamp_range (n_confidence native_intent)) as Hc.
    rewrite (clamp_fixed Hc).
    split; [exact Hc|]. split; [discriminate|].
    split; [constructor; [intros []|constructor]|].
    split; [constructor; [apply Qle_refl|constructor]|].
    split; [discriminate|reflexivity].
  - pose proof (Forall_inv Hf) as Hp. pose proof (Forall_inv_tail Hf) as Hftl.
    destruct (StronglySorted_inv Hs) as [_ Hall]. cbv beta in Hp.
    rewrite (clamp_fixed Hp).
    split; [exact Hp|]. split; [discriminate|]. split; [exact Hn|].
    split; [constructor; [apply Qle_refl|exact Hall]|].
    split; [|reflexivity].
    intros c2 H2.
    destruct (find _ (p :: tl)) as [sec|] eqn:Ef; [|discriminate].
    cbn [option_map] in H2. inversion H2; subst c2.
    apply find_some in Ef. destruct Ef as [Hin _].
    pose proof (clamp_range (snd sec)) as Hc.
    split; [exact (proj1 Hc)|].
    assert (Hsec : (0 <= snd sec <= 1)%Q /\ (snd sec <= snd p)%Q).
    { destruct Hin as [<-|Hin].
      - split; [exact Hp|apply Qle_refl].
      - rewrite Forall_forall in Hftl, Hall. split; [apply Hftl|apply Hall]; exact Hin. }
    rewrite (clamp_fixed (proj1 Hsec)). exact (proj2 Hsec).
Qed.

(** X11. The routed intent built from a classifier answer: its confidence
    lies in [0, 1] and is the largest confidence of its candidate list,
    which is never empty and names no label twice; a second intent is never
    more confident than the first; the slots are the ones given. *)
Theorem routed_intent_is_the_best_candidate (native_intent : NativeIntent)
  (slots_ : option (Dict.t string)) :
  let r := build_routed_intent native_intent slots_ in
  (0 <= confidence r <= 1)%Q
  /\ topK r <> []
  /\ NoDup (map fst (topK r))
  /\ Forall (fun c => (snd c <= confidence r)%Q) (topK r)
  /\ (forall c2, secondConfidence r = Some c2 -> (0 <= c2 <= confidence r)%Q)
  /\ slots r = match slots_ with Some s => s | None => [] end.
Proof.
  cbv zeta.
  destruct (build_routed_intent_spec native_intent slots_)
    as [Hc [Hk [Hn [Hf [H2 Hs]]]]].
  split; [exact Hc|]. split; [exact Hk|]. split; [exact Hn|].
  split; [exact Hf|]. split; [exact H2|exact Hs].
Qed.

End RoutingLaws.

(* ===================================================================== *)
(** ** IntentClassifier: labels, targets and commands *)
(* ===================================================================== *)

Module ClassifierLaws.

Import Py Re StringLaws Classifier.
Local Open Scope string_scope.

Lemma is_label_in (s : string) : is_label s = true -> In s RiflettIntentLabel.
Proof.
  unfold is_label. intro H. apply existsb_exists in H.
  destruct H as [x [Hx He]]. apply String.eqb_eq in He. subst x. exact Hx.
Qed.

Lemma within_range (lo hi x : Q) : within lo hi x = true -> (lo <= x <= hi)%Q.
Proof.
  unfold within. intro H. apply andb_true_iff in H. destruct H as [H1 H2].
  split; apply Qle_bool_iff; assumption.
Qed.

Lemma well_formed_blank (w : ContextWindow.window) (text : string)
  (context_records : list Memory.MemoryRecord) :
  well_formed (6 # 10) (classify_riflett_intent w text context_records) = true.
Proof.
  set (good := fun c : Classification => well_formed (6 # 10) c = true).
  change (good (classify_riflett_intent w text context_records)).
  unfold classify_riflett_intent. cbv zeta.
  repeat lazymatch goal with
  | |- good (if ?b then _ else _) => destruct b
  | |- good (match ?o with Some _ => _ | None => _ end) => destruct o
  end;
  unfold good, well_formed;
  cbn [topCandidates label confidence _base_candidate];
  split_ifs; vm_compute; reflexivity.
Qed.

Lemma well_formed_text (w : ContextWindow.window) (text : string)
  (context_records : list Memory.MemoryRecord) :
  Py.strip text <> EmptyString ->
  well_formed (78 # 100) (classify_riflett_intent w text context_records) = true.
Proof.
  intro Hne.
  set (good := fun c : Classification => well_formed (78 # 100) c = true).
  change (good (classify_riflett_intent w text context_records)).
  unfold classify_riflett_intent. cbv zeta.
  destruct (Py.strip text) as [|ch rest]; [contradiction|].
  cbn [Py.is_empty].
  repeat lazymatch goal with
  | |- good (if ?b then _ else _) => destruct b
  | |- good (match ?o with Some _ => _ | None => _ end) => destruct o
  end;
  unfold good, well_formed;
  cbn [topCandidates label confidence _base_candidate];
  split_ifs; vm_compute; reflexivity.
Qed.

(** X12. Every classification names one of the six labels, with a confidence
    between 0.6 and 0.99, and at least 0.78 unless the text is blank; its
    candidates name labels of the same list. *)
Theorem labels_and_confidences :
  forall (w : ContextWindow.window) (text : string)
         (context_records : list Memory.MemoryRecord),
    let c := classify_riflett_intent w text context_records in
    In (label c) RiflettIntentLabel
    /\ Forall (fun cand => In (fst cand) RiflettIntentLabel
                           /\ (35 # 100 <= snd cand <= 99 # 100)%Q)
              (topCandidates c)
    /\ (6 # 10 <= confidence c <= 99 # 100)%Q
    /\ (Py.strip text <> EmptyString -> (78 # 100 <= confidence c)%Q).
Proof.
  intros w text context_records c. subst c.
  pose proof (well_formed_blank w text context_records) as H.
  unfold well_formed in H.
  apply andb_true_iff in H. destruct H as [H Hc].
  apply andb_true_iff in H. destruct H as [Hl Hf].
  split; [apply is_label_in; exact Hl|]. split.
  - apply Forall_forall. intros cand Hin.
    rewrite forallb_forall in Hf. specialize (Hf cand Hin).
    unfold candidate_ok in Hf. apply andb_true_iff in Hf. destruct Hf as [H1 H2].
    split; [apply is_label_in; exact H1|apply within_range; exact H2].
  - split; [apply within_range; exact Hc|].
    intro Hne. pose proof (@well_formed_text w text context_records Hne) as H.
    unfold well_formed in H. apply andb_true_iff in H. destruct H as [_ H].
    exact (proj1 (within_range _ _ _ H)).
Qed.


(** X13. An append always names the memory record it appends to, a record of
    the context with a score of at least 0.85; a discussion always names
    the entry of the active context window. *)
Theorem append_and_discuss_have_targets :
  forall (w : ContextWindow.window) (text : string)
         (context_records : list Memory.MemoryRecord),
    let c := classify_riflett_intent w text context_records in
    (label c = "entry_append" ->
       exists rec,
         In rec context_records
         /\ (DUPLICATE_THRESHOLD <= Memory.score rec)%Q
         /\ targetEntryId c = Some (Memory.id (Memory.row rec))
         /\ duplicateMatch c =
            Some (mkDuplicate (Memory.id (Memory.row rec)) (Memory.score rec)
                    (Memory.text (Memory.row rec)) (Memory.kind (Memory.row rec))))
    /\ (label c = "entry_discuss" ->
         exists s,
           ContextWindow.snapshot w = Some s
           /\ ContextWindow.s_isActive s = true
           /\ targetEntryId c = Some (ContextWindow.s_entryId s)
           /\ targetEntryType c = Some (ContextWindow.s_entryType s)).
Proof.
  intros w text context_records c. subst c.
  set (good := fun c : Classification =>
    (label c = "entry_append" ->
       exists rec,
         In rec context_records
         /\ (DUPLICATE_THRESHOLD <= Memory.score rec)%Q
         /\ targetEntryId c = Some (Memory.id (Memory.row rec))
         /\ duplicateMatch c =
            Some (mkDuplicate (Memory.id (Memory.row rec)) (Memory.score rec)
                    (Memory.text (Memory.row rec)) (Memory.kind (Memory.row rec))))
    /\ (label c = "entry_discuss" ->
         exists s,
           ContextWindow.snapshot w = Some s
           /\ ContextWindow.s_isActive s = true
           /\ targetEntryId c = Some (ContextWindow.s_entryId s)
           /\ targetEntryType c = Some (ContextWindow.s_entryType s))).
  change (good (classify_riflett_intent w text context_records)).
  unfold classify_riflett_intent. cbv zeta.
  destruct (_pick_duplicate context_records) as [rec|] eqn:Ed;
    destruct (ContextWindow.snapshot w) as [s|] eqn:Es;
    cbn [option_map snapshot_entryId snapshot_entryType andb];
    repeat lazymatch goal with
    | |- good (if ?b then _ else _) => destruct b eqn:?
    | |- good (match ?o with Some _ => _ | None => _ end) => destruct o eqn:?
    end;
    unfold good; cbn [label targetEntryId targetEntryType duplicateMatch dup_id];
    (split; intro Hl; try discriminate Hl).
  all: try (match goal with
            | Hp : _pick_duplicate _ = Some ?r |- exists _ : Memory.MemoryRecord, _ =>
                exists r; apply find_some in Hp; destruct Hp as [Hin Hq];
                apply NumFacts.qge_true in Hq;
                repeat split; [exact Hin|exact Hq]
            end).
  all: match goal with
       | Hs : ContextWindow.snapshot _ = Some ?x,
         Ha : (ContextWindow.s_isActive ?x && _)%bool = true
         |- exists _ : ContextWindow.Snapshot, _ =>
           exists x; apply andb_true_iff in Ha; repeat split; exact (proj1 Ha)
       end.
Qed.


(** X14. A text with a question mark is never classified as a new entry, however
    much save language it carries; unless another rule claims it, it is
    conversational with confidence 0.9. *)
Theorem questions_create_no_entry :
  forall (w : ContextWindow.window) (text : string)
         (context_records : list Memory.MemoryRecord),
    Re.found QUESTION_MARK (Py.strip text) = true ->
    let c := classify_riflett_intent w text context_records in
    label c <> "entry_create"
    /\ (label c = "conversational" -> confidence c = (9 # 10)%Q).
Proof.
  intros w text context_records Hq c. subst c.
  set (good := fun c : Classification =>
    label c <> "entry_create"
    /\ (label c = "conversational" -> confidence c = (9 # 10)%Q)).
  change (good (classify_riflett_intent w text context_records)).
  unfold classify_riflett_intent. cbv zeta. rewrite Hq.
  destruct (Py.strip text) as [|ch rest]; [discriminate Hq|].
  cbn [Py.is_empty negb andb].
  repeat lazymatch goal with
  | |- good (if ?b then _ else _) => destruct b
  | |- good (match ?o with Some _ => _ | None => _ end) => destruct o
  end;
  unfold good; cbn [label confidence];
  (split; [discriminate|intro Hl; try discriminate Hl; reflexivity]).
Qed.

Lemma questions_create_no_entry_witness :
  Re.found QUESTION_MARK (Py.strip Examples.question_text) = true
  /\ label (classify_riflett_intent ContextWindow.initial
              Examples.question_text [])
     <> "entry_create".
Proof.
  assert (H : Re.found QUESTION_MARK (Py.strip Examples.question_text) = true)
    by (vm_compute; reflexivity).
  split; [exact H|].
  exact (proj1 (@questions_create_no_entry ContextWindow.initial
                  Examples.question_text [] H)).
Defined.

Lemma slash_is_found (rest_ : string) :
  found COMMAND_PATTERN (String "/" rest_) = true.
Proof. reflexivity. Qed.

Lemma bol_fails_later (pv : option ascii) (l : chars) (p : nat) :
  search_from COMMAND_PATTERN pv l (S p) = None.
Proof.
  revert pv p. induction l as [|c tl IH]; intros pv p.
  - reflexivity.
  - cbn [search_from]. 
    assert (E : match_at COMMAND_PATTERN (MState pv (c :: tl) (S p) []) = None)
      by reflexivity.
    rewrite E. apply IH.
Qed.

Lemma no_slash_not_found (c : ascii) (rest_ : string) :
  is_space c = false -> c <> "/"%char ->
  found COMMAND_PATTERN (String c rest_) = false.
Proof.
  intros Hs Hc.
  change (found COMMAND_PATTERN (String c rest_))
    with (match
            match match_at COMMAND_PATTERN (MState None (c :: of_string rest_) 0 []) with
            | Some m => Some m
            | None => search_from COMMAND_PATTERN (Some c) (of_string rest_) 1
            end
          with Some _ => true | None => false end).
  assert (E : match_at COMMAND_PATTERN
                (MState None (c :: of_string rest_) 0 []) = None).
  { unfold match_at, COMMAND_PATTERN, seqs, star. cbn [fold_right run prev rest pos Nat.eqb].
    unfold space. cbn [run rest]. rewrite Hs.
    cbn [Nat.leb]. unfold chr. cbn [run rest].
    assert (Ee : eqc "/" c = false).
    { unfold eqc. apply Ascii.eqb_neq. congruence. }
    rewrite Ee. destruct (under 0 None); reflexivity. }
  rewrite E. rewrite bol_fails_later. reflexivity.
Qed.


(** X15. A text is a command exactly when, leading white space apart, it starts
    with a slash; the rule comes before every other, so neither a search
    phrase nor the context can make a command of anything else, nor
    anything else of a command. *)
Theorem command_iff_leading_slash :
  forall (w : ContextWindow.window) (text : string)
         (context_records : list Memory.MemoryRecord),
    label (classify_riflett_intent w text context_records) = "command"
    <-> exists rest_, strip text = String "/" rest_.
Proof.
  intros w text context_records. split.
  - destruct (strip text) as [|c rest_] eqn:Et.
    + unfold classify_riflett_intent. cbv zeta. rewrite Et. cbn. discriminate.
    + destruct (ascii_dec c "/") as [->|Hc]; [intros _; eexists; reflexivity|].
      pose proof (@strip_head text c rest_ Et) as Hs.
      pose proof (@no_slash_not_found c rest_ Hs Hc) as Hf.
      set (good := fun cl : Classification => label cl = "command" ->
                     exists r, String c rest_ = String "/" r).
      change (good (classify_riflett_intent w text context_records)).
      unfold classify_riflett_intent. cbv zeta. rewrite Et, Hf.
      cbn [is_empty].
      repeat lazymatch goal with
      | |- good (if ?b then _ else _) => destruct b
      | |- good (match ?o with Some _ => _ | None => _ end) => destruct o
      end;
      unfold good; cbn [label]; discriminate.
  - intros [rest_ Et]. unfold classify_riflett_intent. cbv zeta.
    rewrite Et, slash_is_found. reflexivity.
Qed.

End ClassifierLaws.

(* ===================================================================== *)
(** ** SlotFiller: dates, times and the given slots *)
(* ===================================================================== *)

Module SlotLaws.

Import Py Re Exc DateTime Types SlotFiller DictFacts SlotFacts WordLaws.
Local Open Scope string_scope.

Lemma clamp_value_range (value max_value : Z) :
  (0 <= max_value)%Z -> (0 <= _clamp_value value max_value <= max_value)%Z.
Proof.
  intro H. unfold _clamp_value.
  destruct (value <? 0)%Z eqn:E0; [lia|].
  destruct (max_value <? value)%Z eqn:E1; [lia|].
  apply Z.ltb_ge in E0, E1. lia.
Qed.

(** X16. The clock time that [_apply_time] puts on a date is a time of day:
    whatever digits the text holds, the hour is within 0..23 and the minute
    within 0..59, so [datetime.replace] is never given a value that it
    refuses; the day is the one of the seed. *)
Theorem applied_time_is_a_time_of_day :
  forall (text : string) (seed : option datetime) (now d : datetime),
    _apply_time text seed now = Some d ->
    (0 <= hour d <= 23)%Z /\ (0 <= minute d <= 59)%Z
    /\ second d = 0%Z /\ microsecond d = 0%Z
    /\ day d = day (match seed with Some s => s | None => now end).
Proof.
  intros text seed now d. unfold _apply_time.
  destruct (search time_regex text) as [m|]; [|discriminate].
  cbv zeta.
  set (h := _clamp_value (int_of (group_or_empty 1 m)) 23).
  set (mi := _clamp_value _ 59).
  assert (Hh : (0 <= h <= 23)%Z) by (apply clamp_value_range; lia).
  assert (Hm : (0 <= mi <= 59)%Z) by (apply clamp_value_range; lia).
  intro H. inversion H; subst d. unfold replace_time.
  cbn [hour minute second microsecond day].
  split; [|repeat split; try lia].
  destruct (group 3 m) as [mer|]; [|exact Hh].
  destruct (String.eqb (lower mer) "pm" && (h <? 12)%Z) eqn:Ep.
  - apply andb_true_iff in Ep. destruct Ep as [_ Ep]. apply Z.ltb_lt in Ep.
    destruct (String.eqb (lower mer) "am" && (h + 12 =? 12)%Z); lia.
  - destruct (String.eqb (lower mer) "am" && (h =? 12)%Z); lia.
Qed.

Lemma applied_time_is_a_time_of_day_witness :
  _apply_time Examples.time_text None Examples.monday_morning
  = Some (mkDateTime 19723 15 0 0 0)
  /\ (0 <= hour (mkDateTime 19723 15 0 0 0) <= 23)%Z
  /\ (0 <= minute (mkDateTime 19723 15 0 0 0) <= 59)%Z.
Proof.
  assert (E : _apply_time Examples.time_text None Examples.monday_morning
              = Some (mkDateTime 19723 15 0 0 0)) by (vm_compute; reflexivity).
  split; [exact E|].
  destruct (@applied_time_is_a_time_of_day Examples.time_text None
              Examples.monday_morning _ E) as [Hh [Hm _]].
  split; [exact Hh|exact Hm].
Defined.

Lemma weekday_index_range (name : string) (idx : Z) :
  Dict.get WEEKDAY_ORDER name = Some idx -> (0 <= idx <= 6)%Z.
Proof.
  unfold WEEKDAY_ORDER. cbn [Dict.get].
  repeat match goal with
  | |- context [if ?b then _ else _] => destruct b
  end; intro H; inversion H; lia.
Qed.

(** X17. The date that [_find_weekday] resolves a weekday name to lies 0 to 7
    days after [now], at the same time of day, and its [weekday()], which
    counts from Monday = 0, equals the index of the name in [WEEKDAY_ORDER],
    which counts from Sunday = 0: the date falls on the day after the one
    that the text names. *)
Theorem weekday_is_resolved_by_its_index :
  forall (text : string) (now t : datetime),
    valid now -> (day now + 7 <= MAX_DAY)%Z ->
    _find_weekday text now = Ok (Some t) ->
    exists (m : rmatch) (idx : Z),
      search weekday_regex text = Some m
      /\ Dict.get WEEKDAY_ORDER (lower (group_or_empty 2 m)) = Some idx
      /\ weekday t = idx
      /\ (0 <= day t - day now <= 7)%Z
      /\ hour t = hour now /\ minute t = minute now /\ second t = second now.
Proof.
  intros text now t Hv Hmax. unfold _find_weekday.
  destruct (search weekday_regex text) as [m|]; [|discriminate].
  fold (group_or_empty 2 m).
  destruct (Dict.get WEEKDAY_ORDER (lower (group_or_empty 2 m))) as [idx|] eqn:Ei;
    [|discriminate].
  pose proof (weekday_index_range _ Ei) as Hidx.
  cbv zeta.
  set (d0 := ((idx - weekday now + 7) mod 7)%Z).
  assert (Hd0 : (0 <= d0 < 7)%Z) by (apply Z.mod_pos_bound; lia).
  match goal with
  | |- context [add_days ?x now] => set (d := x)
  end.
  assert (Hd : (d = d0 \/ d0 = 0 /\ (d = 7 \/ d = 0))%Z).
  { unfold d. destruct (d0 =? 0)%Z eqn:E0; cbn [andb].
    - apply Z.eqb_eq in E0.
      repeat match goal with
      | |- context [if ?b then _ else _] => destruct b
      end; lia.
    - left. reflexivity. }
  destruct Hv as (Hday & Hh & Hm & Hsec & Hu).
  rewrite add_days_valid by (unfold valid; lia).
  cbn [Exc.bind]. intro H. inversion H; subst t.
  exists m, idx. split; [reflexivity|]. split; [exact Ei|].
  cbn [day hour minute second]. unfold weekday. cbn [day].
  split; [|repeat split; lia].
  clearbody d. clear H. unfold d0, weekday in *. clear d0.
  Z.div_mod_to_equations. lia.
Qed.

Lemma monday_morning_valid :
  valid Examples.monday_morning /\ (day Examples.monday_morning + 7 <= MAX_DAY)%Z.
Proof. unfold valid, MIN_DAY, MAX_DAY. simpl. lia. Qed.

Lemma weekday_is_resolved_by_its_index_witness :
  _find_weekday Examples.call_text Examples.monday_morning
  = Ok (Some (mkDateTime 19728 10 0 0 0))
  /\ (0 <= day (mkDateTime 19728 10 0 0 0) - day Examples.monday_morning <= 7)%Z.
Proof.
  assert (E : _find_weekday Examples.call_text Examples.monday_morning
              = Ok (Some (mkDateTime 19728 10 0 0 0)))
    by (vm_compute; reflexivity).
  split; [exact E|].
  destruct (@weekday_is_resolved_by_its_index Examples.call_text
              Examples.monday_morning _
              (proj1 monday_morning_valid) (proj2 monday_morning_valid) E)
    as (m & idx & _ & _ & _ & Hd & _).
  exact Hd.
Defined.


Lemma undated_fill (text : string) (intent r : RoutedIntent) (now : datetime) :
  dated intent = false ->
  fill text intent now = Ok r ->
  r = intent
  \/ exists v, r = with_slots intent (Dict.set (slots intent) "duration_minutes" v).
Proof.
  intros Hd. unfold dated, normalized_label in Hd.
  apply orb_false_iff in Hd. destruct Hd as [Hd Hj].
  apply orb_false_iff in Hd. destruct Hd as [Hs Hg].
  unfold fill, _derive_slots. cbv zeta. rewrite Hs, Hg, Hj.
  destruct (_find_weekday text now) as [wd|e]; [|discriminate].
  destruct (_find_relative_day text now) as [rel|e]; [|discriminate].
  destruct (_find_explicit_date text now) as [ex|e]; [|discriminate].
  cbn [Exc.bind].
  match goal with
  | |- context [match ?c with Some cd => _ | None => Ok (slots intent) end] =>
      destruct c as [cd|]
  end.
  - destruct (if contains "schedule" (lower (label intent))
              then _ensure_past_is_future cd now else Ok cd) as [adj|e];
      [|discriminate].
    cbn [Exc.bind]. rewrite !andb_false_r.
    destruct (search duration_regex text) as [m|]; intro H; inversion H.
    + right. eexists. reflexivity.
    + left. destruct intent; reflexivity.
  - cbn [Exc.bind]. rewrite !andb_false_r.
    destruct (search duration_regex text) as [m|]; intro H; inversion H.
    + right. eexists. reflexivity.
    + left. destruct intent; reflexivity.
Qed.


(** X18. The slots that [fill] derives from a date or a title are written
    only for a schedule, goal or journal label.  For every other label the
    intent comes back as it was, but for [duration_minutes]. *)
Theorem only_dated_labels_get_dates :
  forall (text : string) (intent r : RoutedIntent) (now : datetime),
    dated intent = false ->
    fill text intent now = Ok r ->
    r = intent
    \/ exists v, r = with_slots intent (Dict.set (slots intent) "duration_minutes" v).
Proof.
  intros text intent r now Hd Hf.
  destruct (@undated_fill text intent r now Hd Hf) as [E|[v E]].
  - left. exact E.
  - right. exists v. exact E.
Qed.

(** "for 45 minutes" gives an entry its duration, and nothing else. *)
Lemma only_dated_labels_get_dates_witness :
  dated Examples.mood_intent = false
  /\ fill Examples.minutes_text Examples.mood_intent Examples.monday_morning
     = Ok (with_slots Examples.mood_intent
             [("mood", "calm"); ("duration_minutes", "45")])
  /\ (with_slots Examples.mood_intent
        [("mood", "calm"); ("duration_minutes", "45")]
      = Examples.mood_intent
      \/ exists v,
           with_slots Examples.mood_intent
             [("mood", "calm"); ("duration_minutes", "45")]
           = with_slots Examples.mood_intent
               (Dict.set (slots Examples.mood_intent) "duration_minutes" v)).
Proof.
  assert (Hd : dated Examples.mood_intent = false) by (vm_compute; reflexivity).
  assert (Hf : fill Examples.minutes_text Examples.mood_intent
                 Examples.monday_morning
               = Ok (with_slots Examples.mood_intent
                       [("mood", "calm"); ("duration_minutes", "45")]))
    by (vm_compute; reflexivity).
  split; [exact Hd|]. split; [exact Hf|].
  exact (@only_dated_labels_get_dates Examples.minutes_text Examples.mood_intent
           _ Examples.monday_morning Hd Hf).
Defined.

Lemma find_weekday_returns (text : string) (now : datetime) :
  valid now -> (day now + 7 <= MAX_DAY)%Z ->
  exists o, _find_weekday text now = Ok o.
Proof.
  intros Hv Hmax. unfold _find_weekday.
  destruct (search weekday_regex text) as [m|]; [|eexists; reflexivity].
  destruct (Dict.get WEEKDAY_ORDER _) as [idx|] eqn:Ei; [|eexists; reflexivity].
  cbv zeta.
  set (d0 := ((idx - weekday now + 7) mod 7)%Z).
  assert (Hd0 : (0 <= d0 < 7)%Z) by (apply Z.mod_pos_bound; lia).
  match goal with
  | |- context [add_days ?x now] => set (d := x)
  end.
  assert (Hd : (0 <= d <= 7)%Z).
  { unfold d.
    repeat match goal with
    | |- context [if ?b then _ else _] => destruct b
    end; lia. }
  destruct Hv as (Hday & Hh & Hm & Hsec & Hu).
  rewrite add_days_valid by (unfold valid; lia).
  eexists. reflexivity.
Qed.

Lemma find_relative_returns (text : string) (now : datetime) :
  valid now -> (day now + 7 <= MAX_DAY)%Z ->
  exists o, _find_relative_day text now = Ok o.
Proof.
  intros Hv Hmax. unfold _find_relative_day.
  destruct Hv as (Hday & Hh & Hm & Hsec & Hu).
  rewrite !add_days_valid by (unfold valid; lia).
  repeat match goal with
  | |- context [if ?b then _ else _] => destruct b
  end; eexists; reflexivity.
Qed.

(** X19. A text with the shape of an ISO date that is no date of the calendar
    (a month 13, a 30th of February) makes [fill] raise the [ValueError] of
    the [datetime] constructor: no slot is derived, whatever else the text
    says. *)
Theorem impossible_iso_date_raises :
  forall (text : string) (intent : RoutedIntent) (now : datetime) (m : rmatch)
         (e : string),
    valid now -> (day now + 7 <= MAX_DAY)%Z ->
    search iso_date_regex text = Some m ->
    make_date (int_of (group_or_empty 1 m)) (int_of (group_or_empty 2 m))
              (int_of (group_or_empty 3 m)) = Raise e ->
    e = "ValueError" /\ fill text intent now = Raise "ValueError".
Proof.
  intros text intent now m e Hv Hmax Hm He.
  assert (Hval : e = "ValueError").
  { unfold make_date in He.
    match type of He with (if ?b then _ else _) = _ => destruct b end;
      [discriminate|inversion He; reflexivity]. }
  split; [exact Hval|]. subst e.
  unfold fill, _derive_slots. cbv zeta.
  destruct (find_weekday_returns text Hv Hmax) as [wd ->].
  destruct (find_relative_returns text Hv Hmax) as [rel ->].
  unfold _find_explicit_date. rewrite Hm, He. reflexivity.
Qed.

(** The 30th of February. *)
Lemma impossible_iso_date_raises_witness :
  exists m : rmatch,
    search iso_date_regex Examples.bad_date_text = Some m
    /\ make_date (int_of (group_or_empty 1 m)) (int_of (group_or_empty 2 m))
                 (int_of (group_or_empty 3 m)) = Raise "ValueError"
    /\ fill Examples.bad_date_text Examples.schedule_intent
         Examples.monday_morning = Raise "ValueError".
Proof.
  assert (Hs : exists m : rmatch,
    search iso_date_regex Examples.bad_date_text = Some m
    /\ make_date (int_of (group_or_empty 1 m)) (int_of (group_or_empty 2 m))
                 (int_of (group_or_empty 3 m)) = Raise "ValueError").
  { eexists. split; [vm_compute; reflexivity | vm_compute; reflexivity]. }
  destruct Hs as [m [Hs Hd]].
  exists m. split; [exact Hs|]. split; [exact Hd|].
  exact (proj2 (@impossible_iso_date_raises Examples.bad_date_text
                  Examples.schedule_intent Examples.monday_morning m
                  "ValueError" (proj1 monday_morning_valid)
                  (proj2 monday_morning_valid) Hs Hd)).
Defined.

Ltac in_keys := solve [repeat first [left; reflexivity | right]].

Lemma keeps_set (given_ rs : Dict.t string) (key val : string) :
  keeps given_ rs -> In key derived_keys -> keeps given_ (Dict.set rs key val).
Proof.
  intros H Hin k v Hk Hn. rewrite get_set_other; [exact (H k v Hk Hn)|].
  intro E. subst k. contradiction.
Qed.

Lemma keeps_title (given_ rs : Dict.t string) (val : string) :
  keeps given_ rs -> Dict.mem rs "title" = false ->
  keeps given_ (Dict.set rs "title" val).
Proof.
  intros H Hm k v Hk Hn. destruct (string_dec "title" k) as [E|E].
  - subst k. specialize (H "title" v Hk Hn). unfold Dict.mem in Hm.
    rewrite H in Hm. discriminate.
  - rewrite get_set_other; [exact (H k v Hk Hn)|exact E].
Qed.

(** X20. [fill] changes nothing of the intent but its slots, and of the slots
    given to it it overwrites only [start], [end], [due], [ts] and
    [duration_minutes]: every other slot, a given [title] included, comes
    back with its value. *)
Theorem fill_keeps_the_given_slots :
  forall (text : string) (intent r : RoutedIntent) (now : datetime),
    fill text intent now = Ok r ->
    with_slots r (slots intent) = intent
    /\ forall k v,
         Dict.get (slots intent) k = Some v -> ~ In k derived_keys ->
         Dict.get (slots r) k = Some v.
Proof.
  intros text intent r now. unfold fill.
  destruct (_derive_slots text intent now) as [s|e] eqn:Ed; [|discriminate].
  cbn [Exc.bind]. intro H. inversion H; subst r. clear H.
  split; [destruct intent; reflexivity|].
  change (keeps (slots intent) (slots (with_slots intent s))).
  cbn [with_slots slots].
  revert Ed. unfold _derive_slots. cbv zeta.
  destruct (_find_weekday text now) as [wd|e]; [|discriminate].
  destruct (_find_relative_day text now) as [rel|e]; [|discriminate].
  destruct (_find_explicit_date text now) as [ex|e]; [|discriminate].
  cbn [Exc.bind].
  assert (H0 : keeps (slots intent) (slots intent)) by (intros k v Hk _; exact Hk).
  match goal with
  | |- Exc.bind ?first ?rest = Ok s -> _ =>
      assert (H1 : forall rs, first = Ok rs -> keeps (slots intent) rs)
  end.
  { intro rs.
    match goal with
    | |- match ?c with Some cd => _ | None => _ end = _ -> _ => destruct c as [cd|]
    end.
    - destruct (if contains "schedule" (lower (label intent))
                then _ensure_past_is_future cd now else Ok cd) as [adj|e];
        [|discriminate].
      cbn [Exc.bind].
      set (nl := lower (if is_empty (rawLabel intent) then label intent
                        else rawLabel intent)).
      destruct (contains "schedule" nl).
      { destruct (_apply_time text _ now).
        - intro H. injection H as <-. apply keeps_set; [exact H0|in_keys].
        - destruct (add_hours 1 adj); cbn [Exc.bind]; [|discriminate].
          intro H. injection H as <-.
          apply keeps_set; [apply keeps_set; [exact H0|in_keys]|in_keys]. }
      destruct (contains "goal" nl).
      { set (date_part := before_char "T" (_minutes_to_iso adj)).
        clearbody date_part.
        destruct (is_empty date_part); intro H; injection H as <-; [exact H0|].
        apply keeps_set; [exact H0|in_keys]. }
      destruct (contains "journal" nl); intro H; injection H as <-; [|exact H0].
      apply keeps_set; [exact H0|in_keys].
    - intro H. injection H as <-. exact H0. }
  match goal with
  | |- Exc.bind ?first ?rest = Ok s -> _ => destruct first as [rs|e]; [|discriminate]
  end.
  specialize (H1 rs eq_refl). cbn [Exc.bind].
  intro H. inversion H; subst s. clear H.
  set (rs1 := match search duration_regex text with
              | Some m => _
              | None => rs
              end).
  assert (H2 : keeps (slots intent) rs1).
  { unfold rs1. destruct (search duration_regex text);
      [apply keeps_set; [exact H1|in_keys]|exact H1]. }
  clearbody rs1.
  match goal with
  | |- keeps _ (if _ then _ else _) =>
      match goal with
      | |- context [if negb (Dict.mem rs1 "title") && ?g then ?a else rs1] =>
          set (rs2 := if negb (Dict.mem rs1 "title") && g then a else rs1)
      end
  end.
  assert (H3 : keeps (slots intent) rs2).
  { unfold rs2. destruct (Dict.mem rs1 "title") eqn:Em; cbn [negb andb]; [exact H2|].
    match goal with |- context [if ?b then _ else _] => destruct b end; [|exact H2].
    destruct (search goal_title_regex text); [|exact H2].
    match goal with |- context [if ?b then _ else _] => destruct b end; [exact H2|].
    apply keeps_title; assumption. }
  clearbody rs2.
  destruct (Dict.mem rs2 "title") eqn:Em; cbn [negb andb]; [exact H3|].
  match goal with |- context [if ?b then _ else _] => destruct b end; [|exact H3].
  destruct (search journal_title_regex text); [|exact H3].
  match goal with |- context [if ?b then _ else _] => destruct b end; [exact H3|].
  apply keeps_title; assumption.
Qed.

Lemma fill_keeps_the_given_slots_witness :
  fill Examples.minutes_text Examples.mood_intent Examples.monday_morning
  = Ok (with_slots Examples.mood_intent
          [("mood", "calm"); ("duration_minutes", "45")])
  /\ with_slots
       (with_slots Examples.mood_intent
          [("mood", "calm"); ("duration_minutes", "45")])
       (slots Examples.mood_intent) = Examples.mood_intent.
Proof.
  assert (Hf : fill Examples.minutes_text Examples.mood_intent
                 Examples.monday_morning
               = Ok (with_slots Examples.mood_intent
                       [("mood", "calm"); ("duration_minutes", "45")]))
    by (vm_compute; reflexivity).
  split; [exact Hf|].
  exact (proj1 (@fill_keeps_the_given_slots Examples.minutes_text
                  Examples.mood_intent _ Examples.monday_morning Hf)).
Defined.

Lemma add_delta_raises (d s : Z) (t : datetime) (e : string) :
  add_delta d s t = Raise e -> date_error e.
Proof.
  unfold add_delta. destruct (_ && _); [discriminate|].
  intro H. injection H as <-. right. reflexivity.
Qed.

Lemma make_date_raises (y m d : Z) (e : string) :
  make_date y m d = Raise e -> date_error e.
Proof.
  unfold make_date. destruct (_ && _); [discriminate|].
  intro H. injection H as <-. left. reflexivity.
Qed.

Lemma index_of_raises (name : string) (l : list string) (i : Z) (e : string) :
  index_of name l i = Raise e -> date_error e.
Proof.
  revert i. induction l as [|x tl IH]; intro i; cbn [index_of].
  - intro H. injection H as <-. left. reflexivity.
  - destruct (String.eqb x name); [discriminate|apply IH].
Qed.

Lemma bind_some_raises (r : result datetime) (e : string) :
  Exc.bind r (fun t => Ok (Some t)) = Raise e -> r = Raise e.
Proof.
  destruct r; [discriminate|]. cbn [Exc.bind]. intro H. injection H as <-.
  reflexivity.
Qed.

Lemma find_weekday_raises (text : string) (now : datetime) (e : string) :
  _find_weekday text now = Raise e -> date_error e.
Proof.
  unfold _find_weekday.
  destruct (search weekday_regex text) as [m|]; [|discriminate].
  destruct (Dict.get WEEKDAY_ORDER _) as [idx|]; [|discriminate].
  cbv zeta. intro H. apply bind_some_raises in H.
  exact (add_delta_raises _ _ _ H).
Qed.

Lemma find_relative_raises (text : string) (now : datetime) (e : string) :
  _find_relative_day text now = Raise e -> date_error e.
Proof.
  unfold _find_relative_day.
  repeat match goal with
  | |- (if ?b then _ else _) = _ -> _ => destruct b
  end; try discriminate; intro H; apply bind_some_raises in H;
  exact (add_delta_raises _ _ _ H).
Qed.

Lemma find_explicit_raises (text : string) (now : datetime) (e : string) :
  _find_explicit_date text now = Raise e -> date_error e.
Proof.
  unfold _find_explicit_date.
  destruct (search iso_date_regex text) as [m|].
  { intro H. apply bind_some_raises in H. exact (make_date_raises _ _ _ H). }
  destruct (search slash_date_regex text) as [m|].
  { intro H. apply bind_some_raises in H. exact (make_date_raises _ _ _ H). }
  destruct (search month_date_regex text) as [m|]; [|discriminate].
  destruct (index_of _ MONTHS 0) as [idx|e0] eqn:Ei; cbn [Exc.bind].
  - intro H. apply bind_some_raises in H. exact (make_date_raises _ _ _ H).
  - intro H. injection H as <-. exact (index_of_raises _ _ _ Ei).
Qed.

(** [_derive_slots] raises nothing but the two exceptions of [datetime]. *)
Lemma derive_slots_raises (text : string) (intent : RoutedIntent)
  (now : datetime) (e : string) :
  _derive_slots text intent now = Raise e -> date_error e.
Proof.
  unfold _derive_slots. cbv zeta.
  destruct (_find_weekday text now) as [wd|e0] eqn:Ew;
    [|intro H; injection H as <-; exact (find_weekday_raises _ _ Ew)].
  destruct (_find_relative_day text now) as [rel|e0] eqn:Er;
    [|intro H; injection H as <-; exact (find_relative_raises _ _ Er)].
  destruct (_find_explicit_date text now) as [ex|e0] eqn:Ex;
    [|intro H; injection H as <-; exact (find_explicit_raises _ _ Ex)].
  cbn [Exc.bind].
  match goal with
  | |- Exc.bind ?first _ = _ -> _ =>
      assert (H1 : forall e1, first = Raise e1 -> date_error e1)
  end.
  { intro e1.
    match goal with
    | |- match ?c with Some cd => _ | None => _ end = _ -> _ => destruct c as [cd|]
    end; [|discriminate].
    destruct (if contains "schedule" (lower (label intent))
              then _ensure_past_is_future cd now else Ok cd) as [adj|e0] eqn:Ea.
    - cbn [Exc.bind].
      set (nl := lower (if is_empty (rawLabel intent) then label intent
                        else rawLabel intent)).
      destruct (contains "schedule" nl).
      { destruct (_apply_time text _ now); [discriminate|].
        destruct (add_hours 1 adj) as [end_|e2] eqn:Eh; cbn [Exc.bind];
          [discriminate|].
        intro H. injection H as <-. exact (add_delta_raises _ _ _ Eh). }
      destruct (contains "goal" nl).
      { set (date_part := before_char "T" (_minutes_to_iso adj)).
        clearbody date_part. destruct (is_empty date_part); discriminate. }
      destruct (contains "journal" nl); discriminate.
    - cbn [Exc.bind]. intro H. injection H as <-.
      destruct (contains "schedule" (lower (label intent))); [|discriminate Ea].
      unfold _ensure_past_is_future in Ea.
      destruct (ltb cd now); [|discriminate Ea].
      exact (add_delta_raises _ _ _ Ea). }
  match goal with
  | |- Exc.bind ?first _ = _ -> _ => destruct first as [rs|e1]
  end.
  - cbn [Exc.bind]. discriminate.
  - cbn [Exc.bind]. intro H. injection H as <-. apply H1. reflexivity.
Qed.

(** X21. [_find_relative_day] never adds two days: its third test, for "day after
    tomorrow", comes after the test for "tomorrow", which every such text
    passes.  A text that says "day after tomorrow" and not "today" is
    resolved to the day after [now]. *)
Theorem day_after_tomorrow_is_read_as_tomorrow :
  forall (text : string) (now : datetime),
    found (word "day after tomorrow") text = true ->
    found (word "today") text = false ->
    _find_relative_day text now =
    Exc.bind (add_days 1 now) (fun t => Ok (Some t)).
Proof.
  intros text now Hd Ht. unfold _find_relative_day.
  rewrite Ht, (day_after_is_tomorrow text Hd). reflexivity.
Qed.

Lemma day_after_tomorrow_is_read_as_tomorrow_witness :
  found (word "day after tomorrow") Examples.day_after_text = true
  /\ found (word "today") Examples.day_after_text = false
  /\ _find_relative_day Examples.day_after_text Examples.monday_morning
     = Exc.bind (add_days 1 Examples.monday_morning) (fun t => Ok (Some t)).
Proof.
  assert (H1 : found (word "day after tomorrow") Examples.day_after_text = true)
    by (vm_compute; reflexivity).
  assert (H2 : found (word "today") Examples.day_after_text = false)
    by (vm_compute; reflexivity).
  split; [exact H1|]. split; [exact H2|].
  exact (@day_after_tomorrow_is_read_as_tomorrow Examples.day_after_text
           Examples.monday_morning H1 H2).
Defined.

End SlotLaws.

(* ===================================================================== *)
(** ** Redactor: texts without personal data *)
(* ===================================================================== *)

Module RedactorLaws.

Import Py Re ReAnalysis ReLaws StringLaws Redactor.

Lemma patterns_need_a_digit_or_at :
  forallb (fun p => needs digit_or_at (create_regex p)) PATTERNS = true.
Proof. vm_compute. reflexivity. Qed.

Lemma mask_step_plain (text : string) (m : Dict.t string) (p : PatternConfig) :
  needs digit_or_at (create_regex p) = true ->
  free_of digit_or_at (of_string text) = true ->
  mask_step (text, m) p = (text, m).
Proof.
  intros Hn Hf. unfold mask_step.
  rewrite (@sub_with_needs _ digit_or_at (create_regex p) (_replacer p) text (0, m) Hn Hf).
  reflexivity.
Qed.

Lemma mask_plain (text : string) :
  free_of digit_or_at (of_string text) = true -> mask text = mkRedaction text [].
Proof.
  intro Hf. unfold mask. destruct (is_empty text); [reflexivity|].
  assert (H : forall ps, forallb (fun p => needs digit_or_at (create_regex p)) ps = true ->
                         fold_left mask_step ps (text, []) = (text, [])).
  { induction ps as [|p tl IH]; cbn [fold_left forallb]; intro Hp; [reflexivity|].
    apply andb_true_iff in Hp. destruct Hp as [Hp Htl].
    rewrite mask_step_plain by assumption. exact (IH Htl). }
  rewrite (H PATTERNS patterns_need_a_digit_or_at). reflexivity.
Qed.

(** X22. A text with no digit and no at sign holds nothing that the redactor
    takes for personal data: [mask] returns it as it is with an empty map,
    and [unmask] gives it back. *)
Theorem text_without_digits_is_not_masked (text : string) :
  free_of digit_or_at (of_string text) = true ->
  mask text = mkRedaction text []
  /\ unmask (masked (mask text)) (replacementMap (mask text)) = text.
Proof.
  intro Hf. rewrite (mask_plain text Hf). split; [reflexivity|].
  cbn [masked replacementMap]. unfold unmask.
  destruct (is_empty text); reflexivity.
Qed.

Lemma text_without_digits_is_not_masked_witness :
  free_of digit_or_at (of_string Examples.mom_text) = true
  /\ mask Examples.mom_text = mkRedaction Examples.mom_text [].
Proof.
  assert (H : free_of digit_or_at (of_string Examples.mom_text) = true)
    by (vm_compute; reflexivity).
  split; [exact H|].
  exact (proj1 (@text_without_digits_is_not_masked Examples.mom_text H)).
Defined.

End RedactorLaws.

(* ===================================================================== *)
(** ** Intent definitions *)
(* ===================================================================== *)

Module IntentLaws.

Import IntentDefinitions IntentService DictLaws.
Local Open Scope string_scope.

(** X23. A definition of the table is found by its label in any spelling of
    case and surrounding white space, by its identifier, and by the native
    label that the pipeline makes of its identifier. *)
Theorem definitions_are_found :
  forall (label : string) (df : definition),
    In df definitions ->
    Py.lower (Py.strip label) = Py.lower (def_label df) ->
    get_intent_definition label = df
    /\ get_intent_by_id (def_id df) = df
    /\ get_intent_definition (Classifier.to_native_label (def_id df)) = df.
Proof.
  intros label df Hin Hl. unfold definitions in Hin. cbn [In] in Hin.
  repeat (destruct Hin as [<-|Hin];
          [unfold get_intent_definition at 1; cbv zeta; rewrite Hl;
           repeat split|]).
  contradiction.
Qed.

Lemma definitions_are_found_witness :
  In Examples.entry_create definitions
  /\ get_intent_definition " ENTRY create " = Examples.entry_create
  /\ get_intent_by_id "entry_create" = Examples.entry_create.
Proof.
  assert (Hi : In Examples.entry_create definitions)
    by (right; left; reflexivity).
  split; [exact Hi|].
  destruct (@definitions_are_found " ENTRY create " Examples.entry_create Hi)
    as [H1 [H2 _]].
  - vm_compute. reflexivity.
  - split; [exact H1|exact H2].
Defined.

Lemma by_id_keys : Dict.keys by_id = map def_id definitions.
Proof. reflexivity. Qed.

(** X24. For an identifier that the table does not know, [get_intent_by_id]
    makes up a definition of that name that is allowed in the entry chat,
    while [is_entry_chat_allowed] refuses the identifier; and the entry type
    of every identifier, known or not, is "journal". *)
Theorem unknown_intents_are_made_up :
  forall intent_id : string,
    map_intent_to_entry_type intent_id = "journal"
    /\ (~ In intent_id (map def_id definitions) ->
        def_id (get_intent_by_id intent_id) = intent_id
        /\ def_label (get_intent_by_id intent_id) = intent_id
        /\ allowedInEntryChat (get_intent_by_id intent_id) = true
        /\ is_entry_chat_allowed intent_id = false).
Proof.
  intro intent_id. split.
  - unfold map_intent_to_entry_type, get_intent_by_id.
    change by_id with
      [ ("conversational", mkDefinition "conversational" "Conversational" "entries" (Some "journal") true);
        ("entry_create", mkDefinition "entry_create" "Entry Create" "entries" (Some "journal") false);
        ("entry_discuss", mkDefinition "entry_discuss" "Entry Discuss" "entries" (Some "journal") true);
        ("entry_append", mkDefinition "entry_append" "Entry Append" "entries" (Some "journal") true);
        ("command", mkDefinition "command" "Command" "user_config" None false);
        ("search_query", mkDefinition "search_query" "Search Query" "knowledge" None true) ].
    cbn [Dict.get].
    repeat match goal with
    | |- context [if ?b then _ else _] => destruct b
    end; reflexivity.
  - intro Hn. unfold get_intent_by_id.
    rewrite (@get_none _ by_id intent_id) by (rewrite by_id_keys; exact Hn).
    cbn [def_id def_label allowedInEntryChat DEFAULT_INTENT].
    repeat split.
    unfold is_entry_chat_allowed.
    destruct (existsb (String.eqb intent_id) entry_chat_allowed_intents) eqn:E;
      [|reflexivity].
    apply existsb_exists in E. destruct E as [x [Hx He]].
    apply String.eqb_eq in He. subst x. exfalso. apply Hn.
    unfold entry_chat_allowed_intents in Hx. apply in_map_iff in Hx.
    destruct Hx as [df [Hd Hf]]. apply filter_In in Hf.
    apply in_map_iff. exists df. split; [exact Hd|exact (proj1 Hf)].
Qed.

End IntentLaws.

(* ===================================================================== *)
(** ** Embedder: any custom embedder *)
(* ===================================================================== *)

Module EmbeddingLaws.

Import Embeddings EmbeddingFacts.

Lemma normalized_norm (u : vector) :
  l2_norm (l2_normalize u) = 1%R \/ l2_norm (l2_normalize u) = 0%R.
Proof.
  destruct (Rle_dec (l2_norm u) 0) as [Hle|Hgt].
  - right. unfold l2_norm at 1. rewrite (l2_normalize_zero u Hle). apply sqrt_0.
  - left. unfold l2_norm at 1. rewrite l2_normalize_unit by lra. apply sqrt_1.
Qed.

Lemma zeros_norm (n : nat) : l2_norm (zeros n) = 0%R.
Proof. unfold l2_norm. rewrite sum_sq_zeros. apply sqrt_0. Qed.

Lemma normalized_length (u : vector) :
  List.length (l2_normalize u) =
  match u with [] => FALLBACK_DIMENSION | _ :: _ => List.length u end.
Proof.
  unfold l2_normalize. destruct (Rle_dec (l2_norm u) 0).
  - destruct u; [apply zeros_length|apply length_map].
  - destruct u; [|apply length_map].
    exfalso. apply n. unfold l2_norm. cbn [sum_sq fold_right]. rewrite sqrt_0. lra.
Qed.

Lemma fallback_length (text : string) :
  List.length (_fallback_embed text) = FALLBACK_DIMENSION.
Proof.
  unfold _fallback_embed. rewrite normalized_length.
  destruct (fallback_loop _ _ _ _) eqn:E.
  - reflexivity.
  - rewrite <- E. rewrite fallback_loop_length. apply zeros_length.
Qed.

(** X25. Whatever the custom embedder does, [embed_text] returns a vector that is
    not empty, of norm 1 or 0, and of the dimension of the embedder's answer,
    or of 384 components when there is no embedder, when it raises or when
    it answers with nothing. *)
Theorem embedding_with_any_embedder :
  forall (custom : option Embedder) (text : string),
    let v := embed_text custom text in
    v <> []
    /\ (l2_norm v = 1%R \/ l2_norm v = 0%R)
    /\ (List.length v = FALLBACK_DIMENSION
        \/ exists f u, custom = Some f /\ f text = Some u /\ u <> []
                       /\ List.length v = List.length u)
    /\ (custom = None -> List.length v = FALLBACK_DIMENSION).
Proof.
  intros custom text v.
  assert (H : (l2_norm v = 1%R \/ l2_norm v = 0%R)
              /\ (List.length v = FALLBACK_DIMENSION
                  \/ exists f u, custom = Some f /\ f text = Some u /\ u <> []
                                 /\ List.length v = List.length u)
              /\ (custom = None -> List.length v = FALLBACK_DIMENSION)).
  { unfold v, embed_text. destruct text as [|c tl]; cbn [Py.is_empty].
    - destruct custom as [f|].
      + destruct (f EmptyString) as [[|x u]|] eqn:E.
        * split; [right; apply zeros_norm|]. split; [left; apply zeros_length|].
          discriminate.
        * split; [apply normalized_norm|]. split; [|discriminate].
          right. exists f, (x :: u). split; [reflexivity|]. split; [exact E|].
          split; [discriminate|apply normalized_length].
        * split; [right; apply zeros_norm|]. split; [left; apply zeros_length|].
          discriminate.
      + split; [right; apply zeros_norm|]. split; [left; apply zeros_length|].
        intros _. apply zeros_length.
    - destruct custom as [f|].
      + destruct (f (String c tl)) as [[|x u]|] eqn:E.
        * split; [apply normalized_norm|]. split; [left; apply fallback_length|].
          discriminate.
        * split; [apply normalized_norm|]. split; [|discriminate].
          right. exists f, (x :: u). split; [reflexivity|]. split; [exact E|].
          split; [discriminate|apply normalized_length].
        * split; [apply normalized_norm|]. split; [left; apply fallback_length|].
          discriminate.
      + split; [apply normalized_norm|]. split; [left; apply fallback_length|].
        intros _. apply fallback_length. }
  split; [|exact H].
  destruct H as [_ [[Hl|[f [u [_ [_ [Hu Hl]]]]]] _]]; intro E; rewrite E in Hl.
  - discriminate Hl.
  - destruct u; [contradiction|discriminate].
Qed.

End EmbeddingLaws.

(* ===================================================================== *)
(** ** Telemetry and context scoring *)
(* ===================================================================== *)

Module TelemetryLaws.

Import Telemetry SortingFacts SortingLaws.

(** X26. [Telemetry.record] returns the identifier drawn for the trace and keeps
    at most [MAX_TRACES] = 100 traces, the newest first; when the clock has
    not gone back, the trace just recorded is the first of them. *)
Theorem record_keeps_the_newest_traces (trace_id : string) (now : Z)
  (params : Params) (store : list Trace) :
  let out := record trace_id now params store in
  fst out = trace_id
  /\ List.length (snd out) <= MAX_TRACES
  /\ List.length (snd out) <= S (List.length store)
  /\ StronglySorted (fun a b => (t_ts b <= t_ts a)%Z) (snd out)
  /\ (forall t, In t (snd out) -> In t store \/ (t_id t = trace_id /\ t_ts t = now))
  /\ (Forall (fun t => (t_ts t <= now)%Z) store ->
      exists t rest,
        snd out = t :: rest /\ t_id t = trace_id /\ t_ts t = now
        /\ latencyMs t = (now - p_startedAt params)%Z
        /\ maskedUserText t = p_maskedUserText params).
Proof.
  cbv zeta. unfold record, _save_traces. cbn [fst snd].
  set (trace := mkTrace trace_id now _ _ _ _ _ _ _).
  split; [reflexivity|]. split; [apply firstn_le_length|].
  split.
  { rewrite length_firstn, sort_desc_length. cbn [List.length]. lia. }
  split; [apply sorted_firstn, sort_desc_sorted|]. split.
  - intros t Hin. apply in_firstn in Hin.
    apply (Permutation_in t (sort_desc_perm t_ts (trace :: store))) in Hin.
    destruct Hin as [<-|Hin]; [right; split; reflexivity|left; exact Hin].
  - intro Hall. exists trace.
    assert (Hs : Sorting.sort_desc t_ts (trace :: store)
                 = trace :: Sorting.sort_desc t_ts store).
    { unfold Sorting.sort_desc, Sorting.sort. cbn [fold_right].
      apply (insert_first t_ts). cbn [t_ts trace].
      apply (Permutation_Forall (Permutation_sym (sort_desc_perm t_ts store))).
      exact Hall. }
    rewrite Hs. unfold MAX_TRACES. cbn [firstn].
    eexists. split; [reflexivity|]. repeat split.
Qed.

End TelemetryLaws.

Module ScoringLaws.

Import Pipeline SortingFacts SortingLaws.

Section WithMath.
Variable sqrt_f exp_f : Q -> Q.

(** X27. [score_context_records] scores every record once and returns them by
    descending composite score; nothing is dropped and nothing is added. *)
Theorem scoring_ranks_every_record (now_hour : Z)
  (records : list Memory.MemoryRecord) (options : option ContextOptions) :
  let out := score_context_records sqrt_f exp_f now_hour records options in
  Permutation (map record out) records
  /\ List.length out = List.length records
  /\ StronglySorted (fun a b => (compositeScore b <= compositeScore a)%Q) out
  /\ Forall (fun r => map fst (scoring r) =
                      [ "recency"; "priority"; "semantic"; "affect";
                        "relationship"; "timeOfDay"; "coaching" ]%string) out.
Proof.
  cbv zeta. unfold score_context_records.
  destruct records as [|r0 tl] eqn:E.
  - split; [constructor|]. split; [reflexivity|]. split; constructor.
  - rewrite <- E. clear E.
    set (scored := map _ records).
    assert (Hp : Permutation (Sorting.sort_desc_q compositeScore scored) scored)
      by apply sort_perm.
    assert (Hm : map record scored = records).
    { unfold scored. rewrite map_map. cbn [record]. apply map_id. }
    split.
    + apply (Permutation_trans (l' := map record scored));
        [apply Permutation_map; exact Hp|rewrite Hm; apply Permutation_refl].
    + split.
      * rewrite (Permutation_length Hp). unfold scored. apply length_map.
      * split; [apply sort_desc_q_sorted|].
        apply (Permutation_Forall (Permutation_sym Hp)).
        unfold scored. apply Forall_forall. intros x Hx.
        apply in_map_iff in Hx. destruct Hx as [r [<- _]]. reflexivity.
Qed.

End WithMath.

End ScoringLaws.

(* ===================================================================== *)
(** ** Pipeline: what every run returns or raises *)
(* ===================================================================== *)

Module PipelineLaws.

Import Py Num Exc Types Pipeline.
Import StringLaws RoutingLaws ClassifierLaws SlotLaws.
Local Open Scope string_scope.

Lemma routed_source (n : IntentRouting.NativeIntent) (s : option (Dict.t string))
  (c0 : string * Q) (tl : list (string * Q)) :
  IntentRouting.n_topK n = c0 :: tl ->
  let r := IntentRouting.build_routed_intent n s in
  (snd c0 <= 1 -> snd c0 <= confidence r)%Q
  /\ exists cand,
       In cand (IntentRouting.n_topK n)
       /\ rawLabel r =
          IntentDefinitions.def_label
            (IntentDefinitions.get_intent_definition (fst cand))
       /\ label r =
          StringUtils.to_pascal_case
            (IntentDefinitions.def_label
               (IntentDefinitions.get_intent_definition (fst cand))).
Proof.
  intros Hk. cbv zeta. unfold IntentRouting.build_routed_intent. rewrite Hk.
  destruct (normalize_top_k_spec (c0 :: tl)) as [_ [Hlab [Hf Hs]]].
  set (top_k := IntentRouting._normalize_top_k (c0 :: tl)) in *.
  assert (Hin0 : exists c, In c top_k /\ (snd c0 <= 1 -> snd c0 <= snd c)%Q).
  { unfold top_k, IntentRouting._normalize_top_k.
    destruct c0 as [l0 q0]. cbn [IntentRouting.dedupe existsb].
    exists (l0, IntentRouting._clamp q0). split.
    - apply (Permutation_in _ (Permutation_sym (SortingFacts.sort_perm _ _))).
      left. reflexivity.
    - cbn [snd]. intro H1. unfold IntentRouting._clamp.
      destruct (qlt q0 0) eqn:E0.
      + unfold qlt in E0. apply negb_true_iff in E0.
        apply Qlt_le_weak. apply Qnot_le_lt. intro Hle.
        apply Qle_bool_iff in Hle. congruence.
      + destruct (qlt 1 q0) eqn:E1; [exact H1|apply Qle_refl]. }
  destruct top_k as [|p rest] eqn:E.
  - destruct Hin0 as [c [[] _]].
  - cbn [confidence rawLabel label].
    pose proof (Forall_inv Hf) as Hp. cbv beta in Hp.
    destruct (StronglySorted_inv Hs) as [_ Hall].
    rewrite (clamp_fixed Hp). split.
    + intro H1. destruct Hin0 as [c [[<-|Hin] Hc]]; [exact (Hc H1)|].
      rewrite Forall_forall in Hall. eapply Qle_trans; [exact (Hc H1)|].
      exact (Hall c Hin).
    + assert (Hpl : In (fst p) (map fst (c0 :: tl))).
      { apply Hlab. left. reflexivity. }
      apply in_map_iff in Hpl. destruct Hpl as [cand [Hc Hin]].
      exists cand. rewrite Hc. split; [exact Hin|]. split; reflexivity.
Qed.


Lemma head_candidate (w : ContextWindow.window) (text : string)
  (context_records : list Memory.MemoryRecord) :
  let c := Classifier.classify_riflett_intent w text context_records in
  exists tl, Classifier.topCandidates c
             = (Classifier.label c, Classifier.confidence c) :: tl.
Proof.
  cbv zeta.
  set (good := fun c : Classifier.Classification =>
         exists tl, Classifier.topCandidates c
                    = (Classifier.label c, Classifier.confidence c) :: tl).
  change (good (Classifier.classify_riflett_intent w text context_records)).
  unfold Classifier.classify_riflett_intent. cbv zeta.
  repeat lazymatch goal with
  | |- good (if ?b then _ else _) => destruct b
  | |- good (match ?o with Some _ => _ | None => _ end) => destruct o
  end;
  unfold good;
  cbn [Classifier.topCandidates Classifier.label Classifier.confidence
       Classifier._base_candidate];
  eexists; reflexivity.
Qed.

Lemma fill_confidence (text : string) (intent r : RoutedIntent)
  (now : DateTime.datetime) :
  SlotFiller.fill text intent now = Ok r ->
  confidence r = confidence intent /\ label r = label intent
  /\ rawLabel r = rawLabel intent /\ secondBest r = secondBest intent
  /\ secondConfidence r = secondConfidence intent.
Proof.
  unfold SlotFiller.fill.
  destruct (SlotFiller._derive_slots text intent now) as [s|e]; [|discriminate].
  cbn [Exc.bind]. intro H. injection H as <-. repeat split.
Qed.

Lemma native_label_is_defined (l : string) :
  In l Classifier.RiflettIntentLabel ->
  let df := IntentDefinitions.get_intent_definition (Classifier.to_native_label l) in
  In (StringUtils.to_pascal_case (IntentDefinitions.def_label df)) routed_labels
  /\ contains "schedule" (lower (IntentDefinitions.def_label df)) = false
  /\ contains "goal" (lower (IntentDefinitions.def_label df)) = false
  /\ contains "journal" (lower (IntentDefinitions.def_label df)) = false
  /\ is_empty (IntentDefinitions.def_label df) = false.
Proof.
  intro H. unfold Classifier.RiflettIntentLabel in H. cbn [In] in H.
  repeat (destruct H as [<-|H]; [vm_compute; repeat split; tauto|]).
  contradiction.
Qed.

Section Run.

Variable sqrt_f exp_f : Q -> Q.
Variable custom : option Embeddings.Embedder.
Variable round_score : R -> Q.

Lemma run_shape (rd : readings) (text : string) (options : HandleUtteranceOptions)
  (w : world) (out : Output) (w' : world) :
  handle_utterance sqrt_f exp_f custom round_score rd text options w
  = Done (Ok (out, w')) ->
  strip text <> EmptyString
  /\ exists (recs : list Memory.MemoryRecord) (base : RoutedIntent),
       let cls := Classifier.classify_riflett_intent (window w) (strip text) recs in
       base = IntentRouting.build_routed_intent
                (IntentRouting.mkNative
                   (Classifier.to_native_label (Classifier.label cls))
                   (Classifier.confidence cls)
                   (native_candidates (firstn 3 (Classifier.topCandidates cls)))
                   (native_candidates (Classifier.topCandidates cls))
                   (Some "riflett-heuristic-2025-11-07") [] (Some [])) None
       /\ SlotFiller.fill (strip text) base (slot_now rd) = Ok (routedIntent out)
       /\ decision out = IntentRouting.route_intent (routedIntent out)
       /\ userText (payload out) = Redactor.masked (Redactor.mask (strip text))
       /\ redaction out = Redactor.mask (strip text)
       /\ intent (payload out) = routedIntent out
       /\ window w' = window w /\ goal_context w' = goal_context w
       /\ traceId out = Some (nanoid rd).
Proof.
  unfold handle_utterance.
  destruct (is_empty (strip text)) eqn:Ee; [discriminate|].
  destruct (Memory.search_top_n custom round_score (search_ts rd) _ (memory w))
    as [context_records memory'].
  cbv zeta.
  match goal with
  | |- context [SlotFiller.fill ?t ?b ?n] =>
      destruct (SlotFiller.fill t b n) as [ws|e] eqn:Ef; [|discriminate]
  end.
  destruct (_ensure_user_config (config_now rd) (userConfig options) (config_cache w))
    as [[cfg cache']|]; cbn [await]; [|discriminate].
  intro H. injection H as <- <-.
  split; [intro E; rewrite E in Ee; discriminate|].
  eexists. eexists. cbv zeta. split; [reflexivity|].
  cbn [routedIntent decision payload userText redaction intent window goal_context
       traceId Telemetry.record fst].
  split; [exact Ef|]. repeat split.
Qed.

(** What the router makes of the classification of a text that is not
    blank: one of six labels, none of which asks for a date, with a
    confidence of at least 0.78. *)
Lemma routed_classification (w0 : ContextWindow.window) (trimmed : string)
  (recs : list Memory.MemoryRecord) :
  strip trimmed <> EmptyString ->
  let cls := Classifier.classify_riflett_intent w0 trimmed recs in
  let base :=
    IntentRouting.build_routed_intent
      (IntentRouting.mkNative
         (Classifier.to_native_label (Classifier.label cls))
         (Classifier.confidence cls)
         (native_candidates (firstn 3 (Classifier.topCandidates cls)))
         (native_candidates (Classifier.topCandidates cls))
         (Some "riflett-heuristic-2025-11-07") [] (Some [])) None in
  (78 # 100 <= confidence base <= 1)%Q
  /\ In (label base) routed_labels
  /\ SlotFiller.dated base = false
  /\ slots base = [].
Proof.
  intros Hne cls base.
  destruct (head_candidate w0 trimmed recs) as [tl Htl]. fold cls in Htl.
  pose proof (@well_formed_text w0 trimmed recs Hne) as Hwf. fold cls in Hwf.
  unfold Classifier.well_formed in Hwf.
  apply andb_true_iff in Hwf. destruct Hwf as [Hwf Hc].
  apply andb_true_iff in Hwf. destruct Hwf as [_ Hf].
  apply within_range in Hc.
  assert (Hk : IntentRouting.n_topK
                 (IntentRouting.mkNative
                    (Classifier.to_native_label (Classifier.label cls))
                    (Classifier.confidence cls)
                    (native_candidates (firstn 3 (Classifier.topCandidates cls)))
                    (native_candidates (Classifier.topCandidates cls))
                    (Some "riflett-heuristic-2025-11-07") [] (Some []))
               = (Classifier.to_native_label (Classifier.label cls),
                  Classifier.confidence cls) :: native_candidates tl).
  { cbn [IntentRouting.n_topK]. rewrite Htl. reflexivity. }
  destruct (@routed_source _ None _ _ Hk) as [Hconf [cand [Hin [Hraw Hlab]]]].
  fold base in Hconf, Hraw, Hlab. cbn [snd] in Hconf.
  assert (Hcand : exists l, In l Classifier.RiflettIntentLabel
                            /\ fst cand = Classifier.to_native_label l).
  { cbn [IntentRouting.n_topK] in Hin. unfold native_candidates in Hin.
    apply in_map_iff in Hin. destruct Hin as [c [<- Hc0]].
    rewrite forallb_forall in Hf. specialize (Hf c Hc0).
    unfold Classifier.candidate_ok in Hf. apply andb_true_iff in Hf.
    exists (fst c). split; [apply is_label_in; exact (proj1 Hf)|reflexivity]. }
  destruct Hcand as [l [Hl El]]. rewrite El in Hraw, Hlab.
  destruct (@native_label_is_defined l Hl) as [Hp [Hs [Hg [Hj He]]]].
  split.
  - split.
    + eapply Qle_trans; [exact (proj1 Hc)|]. apply Hconf.
      eapply Qle_trans; [exact (proj2 Hc)|]. unfold Qle; simpl; lia.
    + exact (proj2 (proj1 (build_routed_intent_spec _ None))).
  - split; [rewrite Hlab; exact Hp|]. split; [|reflexivity].
    unfold SlotFiller.dated, SlotFiller.normalized_label. rewrite Hraw, He, Hs, Hg, Hj. reflexivity.
Qed.

(** X28. Whatever the text, the options and the state of the process, a run of
    the pipeline that returns commits: the routed label is one of six, its
    confidence is at least 0.78, above the threshold 0.75, and the decision
    is never a question nor the fallback. *)
Theorem every_run_commits (rd : readings) (text : string)
  (options : HandleUtteranceOptions) (w : world) (out : Output) (w' : world) :
  handle_utterance sqrt_f exp_f custom round_score rd text options w
  = Done (Ok (out, w')) ->
  exists sec,
    decision out = Commit (label (routedIntent out)) sec
    /\ In (label (routedIntent out)) routed_labels
    /\ (78 # 100 <= confidence (routedIntent out) <= 1)%Q.
Proof.
  intro H. apply run_shape in H.
  destruct H as [Hne [recs [base [Hb [Hf [Hd _]]]]]]. cbv zeta in Hb.
  assert (Hne' : strip (strip text) <> EmptyString) by (rewrite strip_idem; exact Hne).
  destruct (@routed_classification (window w) (strip text) recs Hne') as [Hc [Hl _]].
  cbv zeta in Hc, Hl. rewrite <- Hb in Hc, Hl.
  destruct (@fill_confidence _ _ _ _ Hf) as [Ec [El _]].
  assert (Hq : qge (confidence (routedIntent out)) IntentRouting.ROUTE_AT_THRESHOLD = true).
  { apply NumFacts.qge_true. rewrite Ec.
    eapply Qle_trans; [|exact (proj1 Hc)]. unfold Qle; simpl; lia. }
  rewrite Hd. unfold IntentRouting.route_intent. rewrite Hq.
  eexists. split; [reflexivity|]. rewrite Ec, El.
  split; [exact Hl|exact Hc].
Qed.

(** X29. No run of the pipeline writes a date: the slots of the routed intent
    are empty, or hold [duration_minutes] alone.  The slots [start], [end],
    [due], [ts] and [title] are written for schedule, goal and journal
    labels only, and the classifier has no such label. *)
Theorem no_run_fills_a_date (rd : readings) (text : string)
  (options : HandleUtteranceOptions) (w : world) (out : Output) (w' : world) :
  handle_utterance sqrt_f exp_f custom round_score rd text options w
  = Done (Ok (out, w')) ->
  slots (routedIntent out) = []
  \/ exists v, slots (routedIntent out) = [("duration_minutes", v)].
Proof.
  intro H. apply run_shape in H.
  destruct H as [Hne [recs [base [Hb [Hf _]]]]]. cbv zeta in Hb.
  assert (Hne' : strip (strip text) <> EmptyString) by (rewrite strip_idem; exact Hne).
  destruct (@routed_classification (window w) (strip text) recs Hne') as [_ [_ [Hd Hs]]].
  cbv zeta in Hd, Hs. rewrite <- Hb in Hd, Hs.
  destruct (@undated_fill _ _ _ _ Hd Hf) as [E|[v E]]; rewrite E.
  - left. exact Hs.
  - right. exists v. cbn [SlotFiller.with_slots slots]. rewrite Hs. reflexivity.
Qed.

(** X30. A run raises for two reasons only: the text is blank, that is empty or
    all white space, and the run raises "Utterance text is empty"; or the
    text is not blank and a date of it is none that [datetime] accepts, and
    the exception of the slot filler passes through. *)
Theorem errors_of_a_run (rd : readings) (text : string)
  (options : HandleUtteranceOptions) (w : world) :
  (forallb is_space (of_string text) = true ->
   handle_utterance sqrt_f exp_f custom round_score rd text options w
   = Done (Raise "ValueError: Utterance text is empty"))
  /\ (forall e,
        handle_utterance sqrt_f exp_f custom round_score rd text options w
        = Done (Raise e) ->
        (e = "ValueError: Utterance text is empty"
         /\ forallb is_space (of_string text) = true)
        \/ (SlotFiller.date_error e /\ strip text <> EmptyString)).
Proof.
  split.
  - intro Hb. unfold handle_utterance. rewrite (strip_blank text Hb). reflexivity.
  - intro e. unfold handle_utterance.
    destruct (strip text) as [|c tl] eqn:Et; cbn [is_empty].
    + intro H. injection H as <-. left. split; [reflexivity|].
      apply strip_nil. exact Et.
    + destruct (Memory.search_top_n custom round_score (search_ts rd) _ (memory w))
        as [context_records memory'].
      cbv zeta.
      match goal with
      | |- context [SlotFiller.fill ?t ?b ?n] =>
          destruct (SlotFiller.fill t b n) as [ws|e0] eqn:Ef
      end.
      * destruct (_ensure_user_config (config_now rd) (userConfig options)
                    (config_cache w)) as [[cfg cache']|]; cbn [await];
          discriminate.
      * intro H. injection H as <-. right.
        split; [|discriminate].
        unfold SlotFiller.fill in Ef.
        destruct (SlotFiller._derive_slots _ _ _) as [s0|e1] eqn:Ed;
          [discriminate Ef|].
        cbn [Exc.bind] in Ef. injection Ef as <-.
        exact (derive_slots_raises _ _ _ Ed).
Qed.

(** A run that is given a configuration override with a key never returns
    a result: [UserConfig.update] takes the lock and, holding it, awaits
    [UserConfig.snapshot], which waits for the same lock.  Such a run raises,
    for a blank text or a date that [datetime] refuses, or waits for ever. *)
Lemma override_waits (rd : readings) (text : string)
  (options : HandleUtteranceOptions) (w : world) (patch : UserConfig.Patch) :
  userConfig options = Some patch ->
  UserConfig.has_keys patch = true ->
  handle_utterance sqrt_f exp_f custom round_score rd text options w = Waits
  \/ exists e,
       handle_utterance sqrt_f exp_f custom round_score rd text options w
       = Done (Raise e).
Proof.
  intros Ho Hk. unfold handle_utterance.
  destruct (is_empty (strip text)); [right; eexists; reflexivity|].
  destruct (Memory.search_top_n custom round_score (search_ts rd) _ (memory w))
    as [context_records memory'].
  cbv zeta.
  match goal with
  | |- context [SlotFiller.fill ?t ?b ?n] =>
      destruct (SlotFiller.fill t b n) as [ws|e0]
  end.
  - left. rewrite Ho. unfold _ensure_user_config. rewrite Hk. reflexivity.
  - right. eexists. reflexivity.
Qed.

End Run.

(** The run of Monday 2024-01-01 at 10:00 UTC on [mom_text] returns. *)
Lemma mom_run_returns :
  exists (out : Output) (w' : world),
    handle_utterance Examples.any_sqrt Examples.any_exp None Examples.any_round
      Examples.monday_run Examples.mom_text no_options initial_world
    = Done (Ok (out, w')).
Proof.
  assert (Hs : match handle_utterance Examples.any_sqrt Examples.any_exp None
                       Examples.any_round Examples.monday_run Examples.mom_text
                       no_options initial_world with
               | Done (Ok _) => true
               | _ => false
               end = true) by (vm_compute; reflexivity).
  destruct (handle_utterance Examples.any_sqrt Examples.any_exp None
              Examples.any_round Examples.monday_run Examples.mom_text
              no_options initial_world) as [[[out w']|e]|].
  - exists out, w'. reflexivity.
  - discriminate Hs.
  - discriminate Hs.
Qed.

Lemma every_run_commits_witness :
  exists (out : Output) (w' : world),
    handle_utterance Examples.any_sqrt Examples.any_exp None Examples.any_round
      Examples.monday_run Examples.mom_text no_options initial_world
    = Done (Ok (out, w'))
    /\ exists sec,
         decision out = Commit (label (routedIntent out)) sec
         /\ In (label (routedIntent out)) routed_labels
         /\ (78 # 100 <= confidence (routedIntent out) <= 1)%Q.
Proof.
  destruct mom_run_returns as (out & w' & H).
  exists out, w'. split; [exact H|].
  exact (@every_run_commits Examples.any_sqrt Examples.any_exp None
           Examples.any_round Examples.monday_run Examples.mom_text
           no_options initial_world out w' H).
Defined.

Lemma no_run_fills_a_date_witness :
  exists (out : Output) (w' : world),
    handle_utterance Examples.any_sqrt Examples.any_exp None Examples.any_round
      Examples.monday_run Examples.mom_text no_options initial_world
    = Done (Ok (out, w'))
    /\ (slots (routedIntent out) = []
        \/ exists v, slots (routedIntent out) = [("duration_minutes"%string, v)]).
Proof.
  destruct mom_run_returns as (out & w' & H).
  exists out, w'. split; [exact H|].
  exact (@no_run_fills_a_date Examples.any_sqrt Examples.any_exp None
           Examples.any_round Examples.monday_run Examples.mom_text
           no_options initial_world out w' H).
Defined.

End PipelineLaws.
